(** * AWADS orchestrator: worker pool, operation fan-out and status gateway

    A shallow embedding of [main.js], [whatsappClient.js] and [config.js].

    The program is an event-loop program.  Every macrotask (an HTTP request,
    an event emitted by a wrapped connection, a timer, the settling of a
    promise of the wrapped connection) runs to completion together with the
    microtasks it triggers, so the embedding is a function [step] from an
    event and a state to the next state and the effects emitted on the way.

    Objects that the program shares by reference live in stores: the
    [WhatsAppClientManager] objects in [managers] and the operation records
    in [operations].  An address is an index into the store; objects are
    never moved, a new object is appended.

    What is left to the environment: which event comes next and when (a
    pending timer may fire at any later step), the clock and the random
    suffix of an operation identifier, and how a promise of a wrapped
    connection settles.  A request is one that passed the API-key
    middleware; a request that did not is answered 401 and reaches no
    handler.  The file system calls of [initializeClient] are taken to
    succeed.  The [SIGINT] handler ends the process and is left out, and so
    is [telegramBot.js], a separate front end that talks to these endpoints
    over HTTP. *)

From Stdlib Require Import ZArith QArith Lia String Ascii List Bool DecimalString DecimalNat
  Permutation.
From stdpp Require Import base list strings.
Import ListNotations.
Open Scope string_scope.
Open Scope list_scope.
Open Scope nat_scope.

(** ** JavaScript values and numbers in template literals *)

(** A value read from a JSON request body.  [JObj] stands for any object or
    array; numbers of a body matter only through being zero or not. *)
Inductive jsval :=
| JUndefined
| JNull
| JBool (b : bool)
| JNum (n : Z)
| JStr (s : string)
| JObj.

(** [!v] is [negb (truthy v)]. *)
Definition truthy (v : jsval) : bool :=
  match v with
  | JUndefined | JNull => false
  | JBool b => b
  | JNum n => negb (n =? 0)%Z
  | JStr s => negb (s =? "")%string
  | JObj => true
  end.

Definition show_nat (n : nat) : string := NilZero.string_of_uint (Nat.to_uint n).
Definition show_Z (z : Z) : string := NilZero.string_of_int (Z.to_int z).

Abbreviation addr := nat (only parsing).

(** ** A JavaScript [Map] with string keys

    Entries are kept in insertion order, [set] on a present key keeps its
    place, [delete] removes the entry.  [node-cache] is used through
    [get]/[set]/[del] on string keys and is modelled the same way. *)
Module JsMap.
Section Ops.
Context {V : Type}.

Fixpoint get (k : string) (m : list (string * V)) : option V :=
  match m with
  | [] => None
  | (k', v) :: rest => if (k' =? k)%string then Some v else get k rest
  end.

Definition has (k : string) (m : list (string * V)) : bool :=
  match get k m with Some _ => true | None => false end.

Fixpoint set (k : string) (v : V) (m : list (string * V)) : list (string * V) :=
  match m with
  | [] => [(k, v)]
  | (k', v') :: rest =>
      if (k' =? k)%string then (k, v) :: rest else (k', v') :: set k v rest
  end.

Fixpoint delete (k : string) (m : list (string * V)) : list (string * V) :=
  match m with
  | [] => []
  | (k', v') :: rest =>
      if (k' =? k)%string then delete k rest else (k', v') :: delete k rest
  end.

Definition size (m : list (string * V)) : nat := length m.
Definition keys (m : list (string * V)) : list string := map fst m.
Definition values (m : list (string * V)) : list V := map snd m.
End Ops.
End JsMap.

(** ** config.js *)

(** [WHATSAPP_WORKERS_COUNT] is [parseInt] of an environment variable; a
    [NaN] there behaves like [0] in both places that read it ([i < NaN] is
    false and [NaN || 1] is [1]), so [0] stands for it.  [ADMIN_TELEGRAM_ID]
    is [None] for [null].  The two [BAN_ATTEMPT_INTERVAL] bounds only size a
    timer and have no counterpart here: a pending timer may fire at any
    later event. *)
Record Config := {
  ADMIN_TELEGRAM_ID : option Z;
  WHATSAPP_WORKERS_COUNT : Z;
  MASS_REPORT_COUNT : Z;
  MESSAGE_FLOOD_COUNT : Z;
  GROUP_INVITE_COUNT : Z
}.

Definition config (admin : option Z) (workers : option Z) : Config := {|
  ADMIN_TELEGRAM_ID := admin;
  WHATSAPP_WORKERS_COUNT := match workers with Some w => w | None => 5 end;
  MASS_REPORT_COUNT := 50;
  MESSAGE_FLOOD_COUNT := 100;
  GROUP_INVITE_COUNT := 10
|}.

(** ** Data model *)

(** whatsappClient.js, the fields set by the constructor.  [client] tells
    whether [this.client] holds a connection object. *)
Record WhatsAppClientManager := {
  clientId : string;
  qrCode : option string;
  client : bool;
  status : string
}.

Inductive OpStatus := pending | in_progress | completed.

(** An entry of [clientsUsed]: [{id, status: 'success'}] or
    [{id, status: 'failed', error}]. *)
Inductive ClientUsed :=
| success (id : string)
| failed (id : string) (error : string).

Record Operation := {
  op_id : string;
  targetNumber : jsval;
  banType : jsval;
  op_status : OpStatus;
  clientsUsed : list ClientUsed;
  startTime : Z;
  endTime : option Z
}.

(** Where the task of one selected client is suspended: in the random delay
    before the [switch], in the delay after iteration [i] of its loop, or on
    the promise of the wrapped connection in iteration [i]. *)
Inductive Suspended :=
| Jitter
| Pace (i : nat)
| Answer (i : nat).

(** An element of [clientPromises]. *)
Inductive ClientPromise :=
| Settled
| Running (clientManager : addr) (at_ : Suspended).

(** The activation of [executeBanStrategy] that holds an operation record:
    its arguments and its [clientPromises]. *)
Record Frame := {
  f_operationId : string;
  f_targetNumber : jsval;
  f_banType : jsval;
  f_clients : list addr;
  clientPromises : list ClientPromise
}.

(** An operation record together with the one activation that captured it
    ([executeBanStrategy] is called once, right after the record is stored). *)
Record OpCell := {
  operation : Operation;
  frame : option Frame
}.

(** What runs after [await client.destroy()]: nothing (the callers that do
    not await) or the rest of the handler of [POST /whatsapp/remove]. *)
Inductive AfterDestroy :=
| Detached
| RemoveHandler (clientId : string).

(** Timers and promises the event loop is waiting for. *)
Inductive Pending :=
| Reinit (clientId : string)
| Purge (operationId : string)
| PollQr (newClientId : string)
| Destroying (mgr : addr) (k : AfterDestroy).

Record State := {
  whatsappClients : list (string * addr);
  managers : list WhatsAppClientManager;
  activeOperations : list (string * addr);
  operations : list OpCell;
  myCache : list (string * string);
  waiting : list (option Pending)
}.

Definition empty_state : State := {|
  whatsappClients := []; managers := []; activeOperations := [];
  operations := []; myCache := []; waiting := []
|}.

Definition with_whatsappClients (f : list (string * addr) -> list (string * addr)) (s : State) : State :=
  {| whatsappClients := f (whatsappClients s); managers := managers s;
     activeOperations := activeOperations s; operations := operations s;
     myCache := myCache s; waiting := waiting s |}.

Definition with_managers (f : list WhatsAppClientManager -> list WhatsAppClientManager) (s : State) : State :=
  {| whatsappClients := whatsappClients s; managers := f (managers s);
     activeOperations := activeOperations s; operations := operations s;
     myCache := myCache s; waiting := waiting s |}.

Definition with_activeOperations (f : list (string * addr) -> list (string * addr)) (s : State) : State :=
  {| whatsappClients := whatsappClients s; managers := managers s;
     activeOperations := f (activeOperations s); operations := operations s;
     myCache := myCache s; waiting := waiting s |}.

Definition with_operations (f : list OpCell -> list OpCell) (s : State) : State :=
  {| whatsappClients := whatsappClients s; managers := managers s;
     activeOperations := activeOperations s; operations := f (operations s);
     myCache := myCache s; waiting := waiting s |}.

Definition with_myCache (f : list (string * string) -> list (string * string)) (s : State) : State :=
  {| whatsappClients := whatsappClients s; managers := managers s;
     activeOperations := activeOperations s; operations := operations s;
     myCache := f (myCache s); waiting := waiting s |}.

Definition with_waiting (f : list (option Pending) -> list (option Pending)) (s : State) : State :=
  {| whatsappClients := whatsappClients s; managers := managers s;
     activeOperations := activeOperations s; operations := operations s;
     myCache := myCache s; waiting := f (waiting s) |}.

(** ** Effects *)

(** Methods of the wrapped connection ([this.client]). *)
Inductive ClientCall :=
| c_initialize
| c_destroy
| c_sendMessage (target : jsval)
| c_createGroup (target : jsval).

(** Messages handed to [sendTelegramMessageToAdmin]. *)
Inductive Notification :=
| n_initiating (banType target : jsval) (clients_length : nat)
| n_completed (operationId : string) (target banType : jsval)
| n_client_failed (clientId : string) (target banType : jsval) (message : string)
| n_simulated_probe (clientId : string) (target : jsval)
| n_removed (clientId : string)
| n_ready (clientId : string)
| n_auth_failed (clientId : string) (msg : string)
| n_disconnected (clientId : string) (reason : string).

Inductive ConsoleLine :=
| log_already_exists (clientId : string)
| log_initialized (clientId : string)
| log_reinitialize (clientId status : string)
| log_client_event (clientId : string)
| log_destroyed (clientId : string)
| error_destroying (clientId : string)
| log_sent_message (clientId : string) (target : jsval)
| log_simulated_report (clientId : string) (target : jsval)
| log_created_group (clientId : string) (target : jsval)
| error_add_to_group (clientId : string) (target : jsval)
| log_simulated_probe (clientId : string) (target : jsval)
| warn_unknown_ban_type (banType : jsval)
| error_client_failed (clientId : string) (target banType : jsval) (message : string).

Record StatusBody := {
  total : nat;
  active : nat;
  statuses : list (string * string);
  queueSize : nat;
  sb_activeOperations : list Operation
}.

Inductive Body :=
| b_status (b : StatusBody)
| b_added (clientId qrCode : string)
| b_removed (clientId : string)
| b_not_found (clientId : jsval)
| b_required
| b_no_clients_ready
| b_initiated (operationId : string).

Inductive Effect :=
| Call (mgr : addr) (c : ClientCall)
| Notify (n : Notification)
| Console (l : ConsoleLine)
| Respond (code : nat) (b : Body).

(** ** Handlers: explicit state passing with an effect log *)

Definition Handler := State -> State * list Effect.

Definition skip : Handler := fun s => (s, []).
Definition emit (e : Effect) : Handler := fun s => (s, [e]).
Definition update (f : State -> State) : Handler := fun s => (f s, []).
Definition andThen (h1 h2 : Handler) : Handler :=
  fun s =>
    let r1 := h1 s in
    let r2 := h2 (fst r1) in
    (fst r2, snd r1 ++ snd r2).

Declare Scope handler_scope.
Delimit Scope handler_scope with handler.
Bind Scope handler_scope with Handler.
Notation "h1 ;; h2" := (andThen h1 h2) (at level 100, right associativity) : handler_scope.
Open Scope handler_scope.

Definition emits (es : list Effect) : Handler := fun s => (s, es).

(** ** whatsappClient.js: the guarded actions of a manager *)

(** How a call of an [async] method of the manager goes on: it throws, it
    returns, or it is suspended on a promise of the wrapped connection. *)
Inductive Attempt :=
| Thrown (message : string)
| Returned
| Awaits.

(** How a promise of the wrapped connection settles.  A rejection carries
    an [Error], of which the program reads the [message].  Of a resolved
    value the program reads one thing, [group.id._serialized] of what
    [createGroup] resolved with: [resolved] is a value on which that can be
    read, [resolved_without_id] a value on which the read throws a
    [TypeError] with the given [message] (a result without [id]).  Where
    nothing is read of the value the two are the same. *)
Inductive Settlement :=
| resolved
| rejected (message : string)
| resolved_without_id (message : string).

Definition is_ready (m : WhatsAppClientManager) : bool := (status m =? "ready")%string.

(** The text of the message is passed on to the connection unread, and is
    left out of [c_sendMessage]. *)
Definition sendMessage (a : addr) (m : WhatsAppClientManager) (targetNumber : jsval)
  : Attempt * list Effect :=
  if negb (status m =? "ready")%string then
    (Thrown ("Client " +:+ clientId m +:+ " is not ready to send messages. Status: " +:+ status m), [])
  else (Awaits, [Call a (c_sendMessage targetNumber)]).

Definition sendMessage_settled (m : WhatsAppClientManager) (targetNumber : jsval) (r : Settlement)
  : Attempt * list Effect :=
  match r with
  | resolved | resolved_without_id _ =>
      (Returned, [Console (log_sent_message (clientId m) targetNumber)])
  | rejected e => (Thrown e, [])
  end.

(** The report is simulated: past the guard the method only logs.  The
    report type, drawn at random by the caller, is left out of the line. *)
Definition sendReport (a : addr) (m : WhatsAppClientManager) (targetNumber : jsval)
  : Attempt * list Effect :=
  if negb (status m =? "ready")%string then
    (Thrown ("Client " +:+ clientId m +:+ " is not ready to report. Status: " +:+ status m), [])
  else (Returned, [Console (log_simulated_report (clientId m) targetNumber)]).

Definition addTargetToGroup (a : addr) (m : WhatsAppClientManager) (targetNumber : jsval)
  : Attempt * list Effect :=
  if negb (status m =? "ready")%string then
    (Thrown ("Client " +:+ clientId m +:+ " is not ready to create/add to group. Status: " +:+ status m), [])
  else (Awaits, [Call a (c_createGroup targetNumber)]).

(** The rest of the [try] after [await this.client.createGroup(...)]: the
    log line reads [group.id._serialized], and when that read throws, the
    [catch] wraps the [TypeError] as it wraps a rejection. *)
Definition addTargetToGroup_settled (m : WhatsAppClientManager) (targetNumber : jsval) (r : Settlement)
  : Attempt * list Effect :=
  match r with
  | resolved => (Returned, [Console (log_created_group (clientId m) targetNumber)])
  | rejected e | resolved_without_id e =>
      (Thrown ("Failed to add target to group: " +:+ e),
       [Console (error_add_to_group (clientId m) targetNumber)])
  end.

(** ** main.js: the task of one selected client *)

Inductive BanKind := REPORT_FLOOD | MESSAGE_DELUGE | GROUP_POISON | PROBE_2FA | other_kind.

(** The [switch (banType)]: strict equality with the four literals. *)
Definition ban_kind (banType : jsval) : BanKind :=
  match banType with
  | JStr s =>
      if (s =? "REPORT_FLOOD")%string then REPORT_FLOOD
      else if (s =? "MESSAGE_DELUGE")%string then MESSAGE_DELUGE
      else if (s =? "GROUP_POISON")%string then GROUP_POISON
      else if (s =? "2FA_PROBE")%string then PROBE_2FA
      else other_kind
  | _ => other_kind
  end.

(** The loop test [i < count / clients.length].  [/] is the division of
    numbers, not of integers: [i] is compared with the rational
    [count / len] (for integers below 2^53, as here, rounding the quotient
    to a double does not change the outcome of the comparison with an
    integer), and for [len = 0] the quotient is [Infinity], [NaN] or
    [-Infinity]. *)
Definition js_lt_quot (i : nat) (count : Z) (len : nat) : bool :=
  match len with
  | O => (0 <? count)%Z
  | S _ =>
      match Qcompare (inject_Z (Z.of_nat i)) (Qmake count (Pos.of_nat len)) with
      | Lt => true
      | _ => false
      end
  end.

Definition sendTelegramMessageToAdmin (cfg : Config) (n : Notification) : list Effect :=
  match ADMIN_TELEGRAM_ID cfg with
  | Some z => if (z =? 0)%Z then [] else [Notify n]
  | None => []
  end.

(** What wakes a suspended task. *)
Inductive Wake :=
| elapsed
| settles (r : Settlement).

Inductive Progress :=
| Stay
| Next (at_ : Suspended)
| Finish (u : ClientUsed).

Section Task.
Variable cfg : Config.
Variable fr : Frame.
Variable a : addr.
Variable m : WhatsAppClientManager.

Let target := f_targetNumber fr.
Let len := length (f_clients fr).

(** The [catch] block. *)
Definition caught (es : list Effect) (message : string) : Progress * list Effect :=
  (Finish (failed (clientId m) message),
   es ++ [Console (error_client_failed (clientId m) target (f_banType fr) message)]
      ++ sendTelegramMessageToAdmin cfg (n_client_failed (clientId m) target (f_banType fr) message)).

(** Leaving the [switch]: [operation.clientsUsed.push({..., status: 'success'})]. *)
Definition after_switch (es : list Effect) : Progress * list Effect :=
  (Finish (success (clientId m)), es).

(** The loop test at index [i] and, when it holds, the body up to its
    first suspension. *)
Definition iteration (i : nat) : Progress * list Effect :=
  match ban_kind (f_banType fr) with
  | REPORT_FLOOD =>
      if js_lt_quot i (MASS_REPORT_COUNT cfg) len then
        match sendReport a m target with
        | (Thrown message, es) => caught es message
        | (_, es) => (Next (Pace i), es)
        end
      else after_switch []
  | MESSAGE_DELUGE =>
      if js_lt_quot i (MESSAGE_FLOOD_COUNT cfg) len then
        match sendMessage a m target with
        | (Thrown message, es) => caught es message
        | (_, es) => (Next (Answer i), es)
        end
      else after_switch []
  | GROUP_POISON =>
      if js_lt_quot i (GROUP_INVITE_COUNT cfg) len then
        match addTargetToGroup a m target with
        | (Thrown message, es) => caught es message
        | (_, es) => (Next (Answer i), es)
        end
      else after_switch []
  | PROBE_2FA | other_kind => (Stay, [])
  end.

(** After the random delay: the [switch]. *)
Definition enter_switch : Progress * list Effect :=
  match ban_kind (f_banType fr) with
  | REPORT_FLOOD | MESSAGE_DELUGE | GROUP_POISON => iteration 0
  | PROBE_2FA =>
      after_switch
        (Console (log_simulated_probe (clientId m) target)
           :: sendTelegramMessageToAdmin cfg (n_simulated_probe (clientId m) target))
  | other_kind => after_switch [Console (warn_unknown_ban_type (f_banType fr))]
  end.

(** The promise of the connection awaited in iteration [i] settles. *)
Definition answered (i : nat) (r : Settlement) : Progress * list Effect :=
  match ban_kind (f_banType fr) with
  | MESSAGE_DELUGE =>
      match sendMessage_settled m target r with
      | (Thrown message, es) => caught es message
      | (_, es) => (Next (Pace i), es)
      end
  | GROUP_POISON =>
      match addTargetToGroup_settled m target r with
      | (Thrown message, es) => caught es message
      | (_, es) => (Next (Pace i), es)
      end
  | _ => (Stay, [])
  end.

Definition task_step (at_ : Suspended) (w : Wake) : Progress * list Effect :=
  match at_, w with
  | Jitter, elapsed => enter_switch
  | Pace i, elapsed => iteration (S i)
  | Answer i, settles r => answered i r
  | _, _ => (Stay, [])
  end.
End Task.

(** ** main.js: the pool of clients *)

Definition set_status (st : string) (m : WhatsAppClientManager) : WhatsAppClientManager :=
  {| clientId := clientId m; qrCode := qrCode m; client := client m; status := st |}.

Definition set_qrCode (q : option string) (m : WhatsAppClientManager) : WhatsAppClientManager :=
  {| clientId := clientId m; qrCode := q; client := client m; status := status m |}.

(** The constructor of [WhatsAppClientManager]. *)
Definition new_manager (id : string) : WhatsAppClientManager :=
  {| clientId := id; qrCode := None; client := true; status := "idle" |}.

Definition qr_key (id : string) : string := "qr_" +:+ id.

Definition recreated_on (st : string) : bool :=
  (st =? "destroyed")%string || (st =? "error")%string || (st =? "disconnected")%string.

Definition schedule (p : Pending) : Handler :=
  update (with_waiting (fun w => w ++ [Some p])).

Definition clear (k : nat) : Handler :=
  update (with_waiting (fun w => <[k := None]> w)).

Section Program.
Variable cfg : Config.

Definition notify (n : Notification) : Handler :=
  emits (sendTelegramMessageToAdmin cfg n).

(** [qrCode] is the third argument, [None] for [null] and for a missing
    argument; a string is truthy unless empty. *)
Definition updateClientStatus (id : string) (st : string) (qr : option string) : Handler :=
  fun s =>
    match JsMap.get id (whatsappClients s) with
    | Some a =>
        (update (with_managers (alter (set_status st) a)) ;;
         match qr with
         | Some q =>
             if negb (q =? "")%string then
               update (with_managers (alter (set_qrCode (Some q)) a)) ;;
               update (with_myCache (JsMap.set (qr_key id) q))
             else update (with_myCache (JsMap.delete (qr_key id)))
         | None => update (with_myCache (JsMap.delete (qr_key id)))
         end ;;
         if recreated_on st then
           emit (Console (log_reinitialize id st)) ;; schedule (Reinit id)
         else skip) s
    | None => (s, [])
    end.

(** The rest of whoever awaited [destroy()]. *)
Definition after_destroy (k : AfterDestroy) : Handler :=
  match k with
  | Detached => skip
  | RemoveHandler id =>
      update (with_whatsappClients (JsMap.delete id)) ;;
      notify (n_removed id) ;;
      emit (Respond 200 (b_removed id))
  end.

(** [destroy()] up to its [await this.client.destroy()]. *)
Definition destroy (a : addr) (k : AfterDestroy) : Handler :=
  fun s =>
    match managers s !! a with
    | Some m =>
        if client m then (emit (Call a c_destroy) ;; schedule (Destroying a k)) s
        else after_destroy k s
    | None => (s, [])
    end.

(** [destroy()] from the settling of [this.client.destroy()] on. *)
Definition destroy_settled (a : addr) (r : Settlement) : Handler :=
  fun s =>
    match managers s !! a with
    | Some m =>
        match r with
        | resolved | resolved_without_id _ =>
            (emit (Console (log_destroyed (clientId m))) ;;
             update (with_managers (alter (set_status "destroyed") a)) ;;
             updateClientStatus (clientId m) "destroyed" None) s
        | rejected _ => emit (Console (error_destroying (clientId m))) s
        end
    | None => (s, [])
    end.

Definition initializeWhatsAppClient (id : string) : Handler :=
  (fun s =>
     match JsMap.get id (whatsappClients s) with
     | Some a =>
         (emit (Console (log_already_exists id)) ;;
          destroy a Detached ;;
          update (with_whatsappClients (JsMap.delete id))) s
     | None => (s, [])
     end) ;;
  (fun s =>
     let a := length (managers s) in
     (update (with_managers (fun ms => ms ++ [new_manager id])) ;;
      emit (Call a c_initialize) ;;
      update (with_whatsappClients (JsMap.set id a)) ;;
      emit (Console (log_initialized id))) s).

(** The loop at the head of main.js. *)
Fixpoint startup_loop (n i : nat) : Handler :=
  match n with
  | O => skip
  | S n' => initializeWhatsAppClient ("client_" +:+ show_nat (i + 1)) ;; startup_loop n' (S i)
  end.

Definition startup : State * list Effect :=
  startup_loop (Z.to_nat (WHATSAPP_WORKERS_COUNT cfg)) 0 empty_state.
End Program.

(** ** whatsappClient.js: what the wrapped connection emits *)

Inductive ClientEvent :=
| on_qr (qr : string)
| on_ready
| on_authenticated
| on_auth_failure (msg : string)
| on_disconnected (reason : string)
| initialize_rejected (message : string).

Section Events.
Variable cfg : Config.

(** The listeners registered by [initializeClient] on the connection of
    the manager at [a], and the [catch] of [this.client.initialize()]. *)
Definition client_emits (a : addr) (e : ClientEvent) : Handler :=
  fun s =>
    match managers s !! a with
    | None => (s, [])
    | Some m =>
        let id := clientId m in
        let this_status st := update (with_managers (alter (set_status st) a)) in
        let this_qrCode q := update (with_managers (alter (set_qrCode q) a)) in
        match e with
        | on_qr qr =>
            (emit (Console (log_client_event id)) ;;
             this_qrCode (Some qr) ;;
             this_status "qr_ready" ;;
             updateClientStatus id "qr_ready" (Some qr)) s
        | on_ready =>
            (emit (Console (log_client_event id)) ;;
             this_status "ready" ;;
             this_qrCode None ;;
             updateClientStatus id "ready" None ;;
             notify cfg (n_ready id)) s
        | on_authenticated =>
            (emit (Console (log_client_event id)) ;;
             this_status "authenticating" ;;
             updateClientStatus id "authenticating" None) s
        | on_auth_failure msg =>
            (emit (Console (log_client_event id)) ;;
             this_status "error" ;;
             updateClientStatus id "error" (Some ("Auth failed: " +:+ msg)) ;;
             notify cfg (n_auth_failed id msg) ;;
             destroy cfg a Detached) s
        | on_disconnected reason =>
            (emit (Console (log_client_event id)) ;;
             this_status "disconnected" ;;
             updateClientStatus id "disconnected" (Some reason) ;;
             notify cfg (n_disconnected id reason) ;;
             destroy cfg a Detached) s
        | initialize_rejected message =>
            (emit (Console (log_client_event id)) ;;
             this_status "error" ;;
             updateClientStatus id "error" (Some ("Init error: " +:+ message))) s
        end
    end.

(** The promise of [this.client.destroy()] registered at [k] settles. *)
Definition destroy_settles (k : nat) (r : Settlement) : Handler :=
  fun s =>
    match waiting s !! k with
    | Some (Some (Destroying a cont)) =>
        (clear k ;; destroy_settled a r ;; after_destroy cfg cont) s
    | _ => (s, [])
    end.

(** ** main.js: the endpoints *)

Definition ready_at (s : State) (a : addr) : bool :=
  match managers s !! a with
  | Some m => is_ready m
  | None => false
  end.

(** [Array.from(whatsappClients.values()).filter(c => c.status === 'ready')] *)
Definition availableClients (s : State) : list addr :=
  List.filter (ready_at s) (JsMap.values (whatsappClients s)).

Definition status_body (s : State) : StatusBody := {|
  total := JsMap.size (whatsappClients s);
  active := length (availableClients s);
  statuses :=
    omap (fun a => (fun m => (clientId m, status m)) <$> managers s !! a)
         (JsMap.values (whatsappClients s));
  queueSize := 0;
  sb_activeOperations :=
    omap (fun o => operation <$> operations s !! o) (JsMap.values (activeOperations s))
|}.

Definition get_status : Handler :=
  fun s => emit (Respond 200 (b_status (status_body s))) s.

Definition newClientId (s : State) : string :=
  "client_" +:+ show_nat (JsMap.size (whatsappClients s) + 1).

(** [POST /whatsapp/add] up to its [await]: the interval that polls the
    cache is registered and the answer is left to it. *)
Definition post_add : Handler :=
  fun s =>
    let id := newClientId s in
    (initializeWhatsAppClient cfg id ;; schedule (PollQr id)) s.

(** [POST /whatsapp/remove]; the keys of [whatsappClients] are strings, so
    a [clientId] that is not a string is not found. *)
Definition post_remove (id : jsval) : Handler :=
  fun s =>
    match id with
    | JStr k =>
        match JsMap.get k (whatsappClients s) with
        | Some a => destroy cfg a (RemoveHandler k) s
        | None => emit (Respond 404 (b_not_found id)) s
        end
    | _ => emit (Respond 404 (b_not_found id)) s
    end.

Definition set_op_status (st : OpStatus) (op : Operation) : Operation :=
  {| op_id := op_id op; targetNumber := targetNumber op; banType := banType op;
     op_status := st; clientsUsed := clientsUsed op;
     startTime := startTime op; endTime := endTime op |}.

Definition set_endTime (t : Z) (op : Operation) : Operation :=
  {| op_id := op_id op; targetNumber := targetNumber op; banType := banType op;
     op_status := op_status op; clientsUsed := clientsUsed op;
     startTime := startTime op; endTime := Some t |}.

Definition push_clientsUsed (u : ClientUsed) (op : Operation) : Operation :=
  {| op_id := op_id op; targetNumber := targetNumber op; banType := banType op;
     op_status := op_status op; clientsUsed := clientsUsed op ++ [u];
     startTime := startTime op; endTime := endTime op |}.

(** [operation.status = 'completed'; operation.endTime = new Date()] *)
Definition complete (now : Z) (op : Operation) : Operation :=
  set_endTime now (set_op_status completed op).

Definition on_operation (f : Operation -> Operation) (c : OpCell) : OpCell :=
  {| operation := f (operation c); frame := frame c |}.

Definition on_promises (f : list ClientPromise -> list ClientPromise) (c : OpCell) : OpCell :=
  {| operation := operation c;
     frame :=
       (fun fr => {| f_operationId := f_operationId fr; f_targetNumber := f_targetNumber fr;
                     f_banType := f_banType fr; f_clients := f_clients fr;
                     clientPromises := f (clientPromises fr) |}) <$> frame c |}.

Definition is_settled (p : ClientPromise) : bool :=
  match p with Settled => true | Running _ _ => false end.

(** [config.WHATSAPP_WORKERS_COUNT || 1] *)
Definition worker_cap : Z :=
  if (WHATSAPP_WORKERS_COUNT cfg =? 0)%Z then 1%Z else WHATSAPP_WORKERS_COUNT cfg.

(** The [for ... of clients] loop with its [break]. *)
Fixpoint select_clients (usedClientCount : Z) (clients : list addr) : list addr :=
  match clients with
  | [] => []
  | c :: rest =>
      if (worker_cap <=? usedClientCount)%Z then []
      else c :: select_clients (usedClientCount + 1)%Z rest
  end.

(** The code after [await Promise.allSettled(clientPromises)], run when
    every promise is settled. *)
Definition join (now : Z) (o : addr) : Handler :=
  fun s =>
    match operations s !! o with
    | Some c =>
        match frame c with
        | Some fr =>
            if forallb is_settled (clientPromises fr) then
              (update (with_operations (alter (on_operation (complete now)) o)) ;;
               notify cfg (n_completed (f_operationId fr) (f_targetNumber fr) (f_banType fr)) ;;
               schedule (Purge (f_operationId fr))) s
            else (s, [])
        | None => (s, [])
        end
    | None => (s, [])
    end.

Definition executeBanStrategy (now : Z) (operationId : string) (target type : jsval)
           (clients : list addr) : Handler :=
  fun s =>
    match JsMap.get operationId (activeOperations s) with
    | None => (s, [])
    | Some o =>
        let fr := {| f_operationId := operationId; f_targetNumber := target;
                     f_banType := type; f_clients := clients;
                     clientPromises :=
                       map (fun c => Running c Jitter) (select_clients 0 clients) |} in
        (update (with_operations (alter (on_operation (set_op_status in_progress)) o)) ;;
         notify cfg (n_initiating type target (length clients)) ;;
         update (with_operations
                   (alter (fun c => {| operation := operation c; frame := Some fr |}) o)) ;;
         join now o) s
    end.

Definition new_operation (now : Z) (operationId : string) (target type : jsval) : Operation :=
  {| op_id := operationId; targetNumber := target; banType := type;
     op_status := pending; clientsUsed := []; startTime := now; endTime := None |}.

(** [activeOperations.set(operationId, {...})] with a new record. *)
Definition store_operation (now : Z) (operationId : string) (target type : jsval) : Handler :=
  fun s =>
    let o := length (operations s) in
    (update (with_operations
               (fun ops => ops ++ [{| operation := new_operation now operationId target type;
                                      frame := None |}])) ;;
     update (with_activeOperations (JsMap.set operationId o))) s.

(** [`op_${Date.now()}_${Math.random().toString(36).substring(7)}`] with
    the clock at [now] and the random suffix [rnd]. *)
Definition make_operationId (now : Z) (rnd : string) : string :=
  "op_" +:+ show_Z now +:+ "_" +:+ rnd.

Definition post_ban (now : Z) (target type : jsval) (rnd : string) : Handler :=
  fun s =>
    if negb (truthy target) || negb (truthy type) then emit (Respond 400 b_required) s
    else
      let clients := availableClients s in
      if length clients =? 0 then emit (Respond 503 b_no_clients_ready) s
      else
        let operationId := make_operationId now rnd in
        (store_operation now operationId target type ;;
         emit (Respond 200 (b_initiated operationId)) ;;
         executeBanStrategy now operationId target type clients) s.

(** The task [j] of the operation record at [o] is woken up. *)
Definition wake_task (now : Z) (o j : nat) (w : Wake) : Handler :=
  fun s =>
    match operations s !! o with
    | Some c =>
        match frame c with
        | Some fr =>
            match clientPromises fr !! j with
            | Some (Running a at_) =>
                match managers s !! a with
                | Some m =>
                    match task_step cfg fr a m at_ w with
                    | (Stay, _) => (s, [])
                    | (Next at', es) =>
                        (emits es ;;
                         update (with_operations
                                   (alter (on_promises (fun ps => <[j := Running a at']> ps)) o))) s
                    | (Finish u, es) =>
                        (emits es ;;
                         update (with_operations
                                   (alter (fun c => on_promises (fun ps => <[j := Settled]> ps)
                                                      (on_operation (push_clientsUsed u) c)) o)) ;;
                         join now o) s
                    end
                | None => (s, [])
                end
            | _ => (s, [])
            end
        | None => (s, [])
        end
    | None => (s, [])
    end.

(** A timer or interval registered at [k] fires. *)
Definition fires (k : nat) : Handler :=
  fun s =>
    match waiting s !! k with
    | Some (Some (Reinit id)) => (clear k ;; initializeWhatsAppClient cfg id) s
    | Some (Some (Purge operationId)) =>
        (clear k ;; update (with_activeOperations (JsMap.delete operationId))) s
    | Some (Some (PollQr id)) =>
        match JsMap.get (qr_key id) (myCache s) with
        | Some cachedQr =>
            if negb (cachedQr =? "")%string then
              (clear k ;; emit (Respond 200 (b_added id cachedQr))) s
            else (s, [])
        | None => (s, [])
        end
    | _ => (s, [])
    end.

(** ** The event loop *)

Inductive Event :=
| GetStatus
| PostAdd
| PostRemove (clientId : jsval)
| PostBan (targetNumber banType : jsval) (rnd : string)
| ClientEmits (mgr : addr) (e : ClientEvent)
| Fires (k : nat)
| DestroySettles (k : nat) (r : Settlement)
| TaskTimer (o j : nat)
| TaskAnswer (o j : nat) (r : Settlement)
| CacheExpires (key : string).

(** One macrotask at clock reading [now]. *)
Definition step (now : Z) (ev : Event) : Handler :=
  match ev with
  | GetStatus => get_status
  | PostAdd => post_add
  | PostRemove id => post_remove id
  | PostBan target type rnd => post_ban now target type rnd
  | ClientEmits a e => client_emits a e
  | Fires k => fires k
  | DestroySettles k r => destroy_settles k r
  | TaskTimer o j => wake_task now o j elapsed
  | TaskAnswer o j r => wake_task now o j (settles r)
  | CacheExpires key => update (with_myCache (JsMap.delete key))
  end.

Fixpoint run (evs : list (Z * Event)) : Handler :=
  match evs with
  | [] => skip
  | (now, ev) :: rest => step now ev ;; run rest
  end.
End Events.

(** * Vocabulary of the properties *)

Definition calls (es : list Effect) : list (addr * ClientCall) :=
  omap (fun e => match e with Call a c => Some (a, c) | _ => None end) es.

Definition pool_of_two : State := fst (startup (config None (Some 2%Z))).

Definition keeps_operations (h : Handler) : Prop :=
  forall s, operations (fst (h s)) = operations s.

Definition keeps_managers (h : Handler) : Prop :=
  forall s, managers (fst (h s)) = managers s.

Ltac break_matches :=
  repeat match goal with
         | |- context [match ?x with _ => _ end] => destruct x eqn:?
         end.

(** What [join] does to the record it is called for. *)
Definition join_cell (now : Z) (c : OpCell) : OpCell :=
  match frame c with
  | Some fr =>
      if forallb is_settled (clientPromises fr) then on_operation (complete now) c else c
  | None => c
  end.

(** What waking task [j] does to the record that holds it. *)
Definition wake_cell (cfg : Config) (ms : list WhatsAppClientManager) (now : Z) (j : nat)
           (w : Wake) (c : OpCell) : OpCell :=
  match frame c with
  | Some fr =>
      match clientPromises fr !! j with
      | Some (Running a at_) =>
          match ms !! a with
          | Some m =>
              match task_step cfg fr a m at_ w with
              | (Stay, _) => c
              | (Next at', _) => on_promises (fun ps => <[j := Running a at']> ps) c
              | (Finish u, _) =>
                  join_cell now (on_promises (fun ps => <[j := Settled]> ps)
                                             (on_operation (push_clientsUsed u) c))
              end
          | None => c
          end
      | _ => c
      end
  | None => c
  end.

Definition accepted (target type : jsval) (s : State) : Prop :=
  truthy target = true /\ truthy type = true /\ availableClients s <> [].

(** The frame [executeBanStrategy] builds for a submission. *)
Definition submitted_frame (cfg : Config) (operationId : string) (target type : jsval)
           (clients : list addr) : Frame :=
  {| f_operationId := operationId; f_targetNumber := target; f_banType := type;
     f_clients := clients;
     clientPromises := map (fun c => Running c Jitter) (select_clients cfg 0 clients) |}.

(** The record of a submission as [post_ban] leaves it. *)
Definition submitted_cell (cfg : Config) (now : Z) (operationId : string) (target type : jsval)
           (clients : list addr) : OpCell :=
  join_cell now
    {| operation := set_op_status in_progress (new_operation now operationId target type);
       frame := Some (submitted_frame cfg operationId target type clients) |}.

(** The task an event wakes, if any. *)
Definition woken (ev : Event) : option (nat * nat * Wake) :=
  match ev with
  | TaskTimer o j => Some (o, j, elapsed)
  | TaskAnswer o j r => Some (o, j, settles r)
  | _ => None
  end.

Definition promises_of (c : OpCell) : list ClientPromise :=
  match frame c with
  | Some fr => clientPromises fr
  | None => []
  end.

Definition settled_count (ps : list ClientPromise) : nat :=
  length (List.filter is_settled ps).

(** A record that [executeBanStrategy] has taken, with [k] selected clients:
    one entry of [clientsUsed] per settled promise, and [completed] exactly
    when every promise is settled. *)
Record cell_ok (k : nat) (c : OpCell) : Prop := {
  ok_frame : frame c <> None;
  ok_selected : length (promises_of c) = k;
  ok_clientsUsed : length (clientsUsed (operation c)) = settled_count (promises_of c);
  ok_status :
    op_status (operation c)
    = if forallb is_settled (promises_of c) then completed else in_progress
}.

(** The promise of task [j] of the record at [o]. *)
Definition promise_at (s : State) (o j : nat) : option ClientPromise :=
  match operations s !! o with
  | Some c => promises_of c !! j
  | None => None
  end.

Definition rank (st : OpStatus) : nat :=
  match st with
  | pending => 0
  | in_progress => 1
  | completed => 2
  end.

(** The count a ban type divides among the clients. *)
Definition total_count (cfg : Config) (type : jsval) : option Z :=
  match ban_kind type with
  | REPORT_FLOOD => Some (MASS_REPORT_COUNT cfg)
  | MESSAGE_DELUGE => Some (MESSAGE_FLOOD_COUNT cfg)
  | GROUP_POISON => Some (GROUP_INVITE_COUNT cfg)
  | PROBE_2FA | other_kind => None
  end.

(** The effects that are one action of a strategy on the target: a report
    (simulated, so only logged), a message sent or a group created through
    the wrapped connection. *)
Definition is_action (e : Effect) : bool :=
  match e with
  | Console (log_simulated_report _ _) => true
  | Call _ (c_sendMessage _) => true
  | Call _ (c_createGroup _) => true
  | _ => false
  end.

Definition is_warning (e : Effect) : bool :=
  match e with
  | Console (warn_unknown_ban_type _) => true
  | _ => false
  end.

Definition tally (f : Effect -> bool) (es : list Effect) : nat := length (List.filter f es).

Definition actions : list Effect -> nat := tally is_action.

(** The life of one task when nothing fails: every delay elapses and every
    promise of the connection resolves, the manager staying as it is. *)
Definition resume (drive : Suspended -> option ClientUsed * list Effect)
           (r : Progress * list Effect) : option ClientUsed * list Effect :=
  match r with
  | (Stay, es) => (None, es)
  | (Next at', es) => let r' := drive at' in (fst r', es ++ snd r')
  | (Finish u, es) => (Some u, es)
  end.

Fixpoint drive (cfg : Config) (fr : Frame) (a : addr) (m : WhatsAppClientManager)
         (fuel : nat) (at_ : Suspended) : option ClientUsed * list Effect :=
  match fuel with
  | O => (None, [])
  | S fuel' =>
      resume (drive cfg fr a m fuel')
             (task_step cfg fr a m at_
                        (match at_ with Answer _ => settles resolved | _ => elapsed end))
  end.

(** The least integer that is not below [count / len]. *)
Definition ceil_quot (count : Z) (len : nat) : Z :=
  ((count + Z.of_nat len - 1) / Z.of_nat len)%Z.

(** Only task [j] of the record at [o] is attended to: its delays elapse
    and the promises it awaits resolve, [fuel] times at most. *)
Fixpoint attend (cfg : Config) (now : Z) (fuel : nat) (o j : nat) : Handler :=
  fun s =>
    match fuel with
    | O => (s, [])
    | S fuel' =>
        match promise_at s o j with
        | Some (Running _ (Answer _)) =>
            (step cfg now (TaskAnswer o j resolved) ;; attend cfg now fuel' o j) s
        | Some (Running _ _) =>
            (step cfg now (TaskTimer o j) ;; attend cfg now fuel' o j) s
        | _ => (s, [])
        end
    end.

Definition same_call (fr1 fr2 : Frame) : Prop :=
  f_targetNumber fr1 = f_targetNumber fr2
  /\ f_banType fr1 = f_banType fr2
  /\ f_clients fr1 = f_clients fr2.

Definition clientId_at (s : State) (a : addr) : string :=
  match managers s !! a with
  | Some m => clientId m
  | None => ""
  end.

Definition cfg3 : Config := config None (Some 3%Z).

(** A pool of three clients, all ready. *)
Definition three_ready : State :=
  fst (run cfg3 [(1%Z, ClientEmits 0 on_ready); (2%Z, ClientEmits 1 on_ready);
                 (3%Z, ClientEmits 2 on_ready)]
           (fst (startup cfg3))).

(** A pool of three clients, two ready and one in error. *)
Definition two_ready_one_error : State :=
  fst (run cfg3 [(1%Z, ClientEmits 0 on_ready); (2%Z, ClientEmits 1 on_ready);
                 (3%Z, ClientEmits 2 (initialize_rejected "timeout"))]
           (fst (startup cfg3))).

Ltac accept := split; [reflexivity | split; [reflexivity | vm_compute; discriminate]].

(** One client succeeds, the other fails: the operation completes with two
    entries. *)
Definition one_fails : list (Z * Event) :=
  [(11%Z, TaskTimer 0 0); (12%Z, TaskAnswer 0 0 (rejected "boom")); (13%Z, TaskTimer 0 1);
   (14%Z, TaskAnswer 0 1 resolved); (15%Z, TaskTimer 0 1); (16%Z, TaskAnswer 0 1 resolved);
   (17%Z, TaskTimer 0 1); (18%Z, TaskAnswer 0 1 resolved); (19%Z, TaskTimer 0 1);
   (20%Z, TaskAnswer 0 1 resolved); (21%Z, TaskTimer 0 1); (22%Z, TaskAnswer 0 1 resolved);
   (23%Z, TaskTimer 0 1)].

Definition reachable (cfg : Config) (s : State) : Prop :=
  exists evs, s = fst (run cfg evs (fst (startup cfg))).

(** ** Vocabulary of the further properties *)

(** Every registered identity is served by a stored manager that carries
    that identity, and no identity is registered twice. *)
Definition registry_ok (s : State) : Prop :=
  List.NoDup (JsMap.keys (whatsappClients s))
  /\ forall id a, JsMap.get id (whatsappClients s) = Some a ->
                  exists m, managers s !! a = Some m /\ clientId m = id.

(** A handler that keeps the registry in that shape. *)
Definition keeps_registry (h : Handler) : Prop :=
  forall s, registry_ok s -> registry_ok (fst (h s)).

Create HintDb registry.

(** The coordinator leaves the pool and the cache alone. *)
Definition keeps_pool (h : Handler) : Prop :=
  forall s, whatsappClients (fst (h s)) = whatsappClients s
            /\ managers (fst (h s)) = managers s
            /\ myCache (fst (h s)) = myCache s.

(** The status of the manager at [a]. *)
Definition status_at (s : State) (a : addr) : string :=
  match managers s !! a with
  | Some m => status m
  | None => ""
  end.

(** The name the start-up loop gives its [i]-th client, counting from 0. *)
Definition client_name (i : nat) : string := "client_" +:+ show_nat (i + 1).

(** The pool holds "client_1" to "client_n" in this order, [n] its size. *)
Definition dense (s : State) : Prop :=
  JsMap.keys (whatsappClients s) = map client_name (seq 0 (JsMap.size (whatsappClients s))).

(** The third argument of the status callback as [if (qrCode)] sees it. *)
Definition truthy_detail (qr : option string) : option string :=
  match qr with
  | Some q => if negb (q =? "")%string then Some q else None
  | None => None
  end.

(** The events after which a client is re-created, with the status and the
    detail their listeners hand to the status callback. *)
Definition fatal (e : ClientEvent) : option (string * string) :=
  match e with
  | on_auth_failure msg => Some ("error", "Auth failed: " +:+ msg)
  | on_disconnected reason => Some ("disconnected", reason)
  | initialize_rejected message => Some ("error", "Init error: " +:+ message)
  | _ => None
  end.

(** The identity [id] is registered to the manager at [cur], which holds a
    connection, while the [destroy()] of a manager of the same identity is
    still awaited at [k] by nobody. *)
Definition superseded (id : string) (k : nat) (cur : addr) (s : State) : Prop :=
  (exists a m, waiting s !! k = Some (Some (Destroying a Detached))
               /\ managers s !! a = Some m /\ clientId m = id)
  /\ JsMap.get id (whatsappClients s) = Some cur
  /\ exists m', managers s !! cur = Some m' /\ clientId m' = id /\ client m' = true.

(** The third argument a listener hands to the status callback. *)
Definition detail (e : ClientEvent) : option string :=
  match e with
  | on_qr qr => Some qr
  | on_ready | on_authenticated => None
  | on_auth_failure msg => Some ("Auth failed: " +:+ msg)
  | on_disconnected reason => Some reason
  | initialize_rejected message => Some ("Init error: " +:+ message)
  end.

(** A record past [executeBanStrategy]: in progress without an end time, or
    completed with one. *)
Definition stamped (op : Operation) : Prop :=
  match op_status op with
  | pending => False
  | in_progress => endTime op = None
  | completed => endTime op <> None
  end.

(** The messages sent to the administrator. *)
Definition is_notify (e : Effect) : bool :=
  match e with
  | Notify _ => true
  | _ => false
  end.

(** [if (config.ADMIN_TELEGRAM_ID)] fails: the identifier is [null] or [0]. *)
Definition no_admin (cfg : Config) : Prop :=
  ADMIN_TELEGRAM_ID cfg = None \/ ADMIN_TELEGRAM_ID cfg = Some 0%Z.

(** A handler that sends nothing to the administrator. *)
Definition quiet (h : Handler) : Prop :=
  forall s, tally is_notify (snd (h s)) = 0.

(** The message of the error a rejected promise of the connection becomes:
    [sendMessage] lets the rejection through, [addTargetToGroup] wraps it. *)
Definition rejection_message (type : jsval) (e : string) : string :=
  match ban_kind type with
  | GROUP_POISON => "Failed to add target to group: " +:+ e
  | _ => e
  end.

(** Every key of [activeOperations] leads to a stored record that carries
    the key as its identifier, and so does the activation that holds it. *)
Definition listed_ok (s : State) : Prop :=
  forall id o, JsMap.get id (activeOperations s) = Some o ->
    exists c, operations s !! o = Some c
              /\ op_id (operation c) = id
              /\ forall fr, frame c = Some fr -> f_operationId fr = id.

(** Every completed record that is still listed has the timer pending that
    will delete it. *)
Definition purge_pending (s : State) : Prop :=
  forall id o c, JsMap.get id (activeOperations s) = Some o ->
    operations s !! o = Some c ->
    op_status (operation c) = completed ->
    exists k, waiting s !! k = Some (Some (Purge id)).

(** No timer that deletes an operation is lost from [s] to [s']. *)
Definition purges_kept (s s' : State) : Prop :=
  forall k id, waiting s !! k = Some (Some (Purge id)) ->
               waiting s' !! k = Some (Some (Purge id)).

(** A handler that leaves the operations alone. *)
Definition keeps_retention (h : Handler) : Prop :=
  forall s, operations (fst (h s)) = operations s
            /\ activeOperations (fst (h s)) = activeOperations s
            /\ purges_kept s (fst (h s)).

(** The status a listener hands to the status callback. *)
Definition reported (e : ClientEvent) : string :=
  match e with
  | on_qr _ => "qr_ready"
  | on_ready => "ready"
  | on_authenticated => "authenticating"
  | on_auth_failure _ => "error"
  | on_disconnected _ => "disconnected"
  | initialize_rejected _ => "error"
  end.

(** The manager at [x] exists and has status [st]. *)
Definition has_status (st : string) (x : addr) (ms : list WhatsAppClientManager) : Prop :=
  exists mx, ms !! x = Some mx /\ status mx = st.

(** One worker, no administrator. *)
Definition cfg1 : Config := config None (Some 1%Z).

(** A pool of one client, just started. *)
Definition pool_of_one : State := fst (startup cfg1).

(** The pool of one after its client failed to authenticate. *)
Definition auth_failed_pool : State :=
  fst (step cfg1 1 (ClientEmits 0 (on_auth_failure "bad session")) pool_of_one).

(** The same after the timer set by the failure has replaced the client:
    the manager at 0 is superseded by the manager at 1. *)
Definition replaced_pool : State := fst (step cfg1 5001 (Fires 0) auth_failed_pool).

(** The pool of one while [POST /whatsapp/add] polls for "client_2". *)
Definition adding_pool : State := fst (step cfg1 1 PostAdd pool_of_one).

(** A pool of three ready clients with one message deluge submitted and
    the first task waiting for the answer to its first message. *)
Definition deluge : list (Z * Event) :=
  [(1%Z, ClientEmits 0 on_ready); (2%Z, ClientEmits 1 on_ready); (3%Z, ClientEmits 2 on_ready);
   (4%Z, PostBan (JStr "T1") (JStr "MESSAGE_DELUGE") "k3x"); (5%Z, TaskTimer 0 0)].

Definition deluge_running : State := fst (run cfg3 deluge (fst (startup cfg3))).

(** A probe submitted to three ready clients and carried out by all. *)
Definition probe : list (Z * Event) :=
  [(1%Z, ClientEmits 0 on_ready); (2%Z, ClientEmits 1 on_ready); (3%Z, ClientEmits 2 on_ready);
   (4%Z, PostBan (JStr "T1") (JStr "2FA_PROBE") "k3x");
   (5%Z, TaskTimer 0 0); (6%Z, TaskTimer 0 1); (7%Z, TaskTimer 0 2)].

Definition probe_done : State := fst (run cfg3 probe (fst (startup cfg3))).

(** The message of the error the guard of a manager's action throws. *)
Definition guard_message (type : jsval) (m : WhatsAppClientManager) : string :=
  "Client " +:+ clientId m
    +:+ match ban_kind type with
        | REPORT_FLOOD => " is not ready to report. Status: "
        | MESSAGE_DELUGE => " is not ready to send messages. Status: "
        | _ => " is not ready to create/add to group. Status: "
        end
    +:+ status m.

(** The index of the loop test a delay leads to. *)
Definition next_index (at_ : Suspended) : option nat :=
  match at_ with
  | Jitter => Some 0
  | Pace i => Some (S i)
  | Answer _ => None
  end.

(** A probe submitted to three ready clients. *)
Definition probe_submitted : State := fst (run cfg3 (take 4 probe) (fst (startup cfg3))).

(** A report flood submitted to three ready clients, the first of which is
    disconnected before its task starts. *)
Definition flood_disconnected : State :=
  fst (run cfg3 [(1%Z, ClientEmits 0 on_ready); (2%Z, ClientEmits 1 on_ready);
                 (3%Z, ClientEmits 2 on_ready);
                 (4%Z, PostBan (JStr "T1") (JStr "REPORT_FLOOD") "k3x");
                 (5%Z, ClientEmits 0 (on_disconnected "LOGOUT"))]
           (fst (startup cfg3))).

(** ** Vocabulary: the tasks of an operation along a run *)

(** The client an entry of [clientsUsed] names. *)
Definition used_id (u : ClientUsed) : string :=
  match u with
  | success id => id
  | failed id _ => id
  end.

(** The selected clients whose promise is settled, in the order of
    selection. *)
Fixpoint settled_of (sel : list addr) (ps : list ClientPromise) : list addr :=
  match sel, ps with
  | a :: sel', p :: ps' => (if is_settled p then [a] else []) ++ settled_of sel' ps'
  | _, _ => []
  end.

(** A frame with other promises. *)
Definition set_promises (ps : list ClientPromise) (fr : Frame) : Frame :=
  {| f_operationId := f_operationId fr; f_targetNumber := f_targetNumber fr;
     f_banType := f_banType fr; f_clients := f_clients fr; clientPromises := ps |}.

(** Where a task of the call [fr] can be suspended: in its initial delay;
    after iteration [i] of a loop whose test held at [i]; on the promise of
    the connection in such an iteration of a loop that awaits one. *)
Definition at_ok (cfg : Config) (fr : Frame) (at_ : Suspended) : bool :=
  match at_ with
  | Jitter => true
  | Pace i =>
      match total_count cfg (f_banType fr) with
      | Some count => js_lt_quot i count (length (f_clients fr))
      | None => false
      end
  | Answer i =>
      match ban_kind (f_banType fr) with
      | MESSAGE_DELUGE => js_lt_quot i (MESSAGE_FLOOD_COUNT cfg) (length (f_clients fr))
      | GROUP_POISON => js_lt_quot i (GROUP_INVITE_COUNT cfg) (length (f_clients fr))
      | _ => false
      end
  end.

(** The record of the call [fr0] at some point of its life: its promises
    stand one for each selected client, a running task is the task of the
    client of its place and is suspended where it can be, the entries of
    [clientsUsed] name the clients whose promise is settled, each once, and
    the record is completed exactly when every promise is settled.  [idf]
    gives the identity of the manager at an address. *)
Definition slots_ok (cfg : Config) (idf : addr -> string) (fr0 : Frame) (c : OpCell) : Prop :=
  exists ps,
    frame c = Some (set_promises ps fr0)
    /\ length ps = length (select_clients cfg 0 (f_clients fr0))
    /\ (forall j a at_, ps !! j = Some (Running a at_) ->
          select_clients cfg 0 (f_clients fr0) !! j = Some a /\ at_ok cfg fr0 at_ = true)
    /\ Permutation (map used_id (clientsUsed (operation c)))
                   (map idf (settled_of (select_clients cfg 0 (f_clients fr0)) ps))
    /\ op_status (operation c)
       = if forallb is_settled ps then completed else in_progress.

(** The managers of [ms] are in [ms'], each with the identity it had. *)
Definition same_identities (ms ms' : list WhatsAppClientManager) : Prop :=
  forall a m, ms !! a = Some m -> exists m', ms' !! a = Some m' /\ clientId m' = clientId m.

Definition keeps_identities (h : Handler) : Prop :=
  forall s, same_identities (managers s) (managers (fst (h s))).

(** The selected clients of [sel] are stored, under the identities [idf]. *)
Definition identified (idf : addr -> string) (sel : list addr) (s : State) : Prop :=
  forall a, In a sel -> exists m, managers s !! a = Some m /\ clientId m = idf a.

(** The number of repeats of a loop of the call: the least integer not
    below [count / clients.length], and none for a call without a loop. *)
Definition repeats (cfg : Config) (type : jsval) (len : nat) : nat :=
  match total_count cfg type with
  | Some count => Z.to_nat (ceil_quot count len)
  | None => 0
  end.

(** The wakes a task suspended at [at_] can still take before it ends. *)
Definition remaining (k : nat) (at_ : Suspended) : nat :=
  match at_ with
  | Jitter => 2 * k + 1
  | Pace i => 2 * (k - S i) + 1
  | Answer i => 2 * (k - i)
  end.

(** Wakes enough to take any task of a call to its end. *)
Definition patience (cfg : Config) (type : jsval) (len : nat) : nat :=
  2 * repeats cfg type len + 1.

(** What wakes a task suspended at [at_]. *)
Definition wake_for (at_ : Suspended) : Wake :=
  match at_ with
  | Answer _ => settles resolved
  | _ => elapsed
  end.

(** The repeats a task suspended at [at_] has made. *)
Definition made (at_ : Suspended) : nat :=
  match at_ with
  | Jitter => 0
  | Pace i => S i
  | Answer i => S i
  end.

(** Every task of the list is attended to, one after the other. *)
Fixpoint attend_all (cfg : Config) (now : Z) (fuel : nat) (o : nat) (js : list nat) : Handler :=
  match js with
  | [] => skip
  | j :: rest => attend cfg now fuel o j ;; attend_all cfg now fuel o rest
  end.

(** The event wakes task [j] of the record at [o]. *)
Definition wakes_task (o j : nat) (ev : Event) : bool :=
  match woken ev with
  | Some (o', j', _) => (o' =? o) && (j' =? j)
  | None => false
  end.

(** What task [j] of the record at [o] emits along a run: the effects of
    the steps that wake it. *)
Fixpoint task_log (cfg : Config) (o j : nat) (evs : list (Z * Event)) (s : State) : list Effect :=
  match evs with
  | [] => []
  | (now, ev) :: rest =>
      (if wakes_task o j ev then snd (step cfg now ev s) else [])
        ++ task_log cfg o j rest (fst (step cfg now ev s))
  end.

(** A wake that is no failure: a delay that elapses, or a promise that
    resolves with a value the program can read. *)
Definition resolves (w : Wake) : bool :=
  match w with
  | elapsed | settles resolved => true
  | settles _ => false
  end.

(** None of the actions of task [j] fails along the run: whenever the task
    is woken, its client, at [a], is ready and the wake is no failure. *)
Fixpoint smooth (cfg : Config) (o j : nat) (a : addr) (evs : list (Z * Event)) (s : State) : bool :=
  match evs with
  | [] => true
  | (now, ev) :: rest =>
      match woken ev with
      | Some (o', j', w) =>
          if (o' =? o) && (j' =? j) then ready_at s a && resolves w else true
      | None => true
      end
      && smooth cfg o j a rest (fst (step cfg now ev s))
  end.

(** The repeats a task has made when its promise is [p], [k] once it has
    ended well. *)
Definition made_of (k : nat) (p : ClientPromise) : nat :=
  match p with
  | Settled => k
  | Running _ at_ => made at_
  end.

(** Task [j], once settled, has left a success for the client [id]. *)
Definition won (j : nat) (id : string) (c : OpCell) : Prop :=
  promises_of c !! j = Some Settled -> In (success id) (clientsUsed (operation c)).

(** The event wakes a task of the record at [o]. *)
Definition wakes_record (o : nat) (ev : Event) : bool :=
  match woken ev with
  | Some (o', _, _) => o' =? o
  | None => false
  end.

(** What the tasks of the record at [o] emit along a run. *)
Fixpoint record_log (cfg : Config) (o : nat) (evs : list (Z * Event)) (s : State) : list Effect :=
  match evs with
  | [] => []
  | (now, ev) :: rest =>
      (if wakes_record o ev then snd (step cfg now ev s) else [])
        ++ record_log cfg o rest (fst (step cfg now ev s))
  end.

Definition is_success (u : ClientUsed) : bool :=
  match u with
  | success _ => true
  | failed _ _ => false
  end.

(** The first client fails at its first action while the second has made
    one and waits for its answer. *)
Definition one_failed_one_waits : list (Z * Event) :=
  [(11%Z, TaskTimer 0 1); (12%Z, TaskTimer 0 0); (13%Z, TaskAnswer 0 0 (rejected "boom"))].

(** The tasks of two clients woken in turn, the second first, with a
    request in between, until both have ended. *)
Definition both_in_turn : list (Z * Event) :=
  [(11%Z, TaskTimer 0 1); (12%Z, TaskTimer 0 0); (13%Z, GetStatus);
   (14%Z, TaskAnswer 0 0 resolved); (15%Z, TaskAnswer 0 1 resolved);
   (16%Z, TaskTimer 0 1); (17%Z, TaskTimer 0 0);
   (18%Z, TaskAnswer 0 0 resolved); (19%Z, TaskAnswer 0 1 resolved);
   (20%Z, TaskTimer 0 1); (21%Z, TaskTimer 0 0);
   (22%Z, TaskAnswer 0 0 resolved); (23%Z, TaskAnswer 0 1 resolved);
   (24%Z, TaskTimer 0 1); (25%Z, TaskTimer 0 0);
   (26%Z, TaskAnswer 0 0 resolved); (27%Z, TaskAnswer 0 1 resolved);
   (28%Z, TaskTimer 0 1); (29%Z, TaskTimer 0 0);
   (30%Z, TaskAnswer 0 0 resolved); (31%Z, TaskAnswer 0 1 resolved);
   (32%Z, TaskTimer 0 1); (33%Z, TaskTimer 0 0)].

(** Two of three delays elapse, the last client's first, with a request in
    between. *)
Definition last_then_first : list (Z * Event) :=
  [(11%Z, TaskTimer 0 2); (12%Z, GetStatus); (13%Z, TaskTimer 0 0)].

(** ** Vocabulary: a removed identity *)




(** * Properties *)

(** ** Sequencing and maps *)

Lemma fst_andThen (h1 h2 : Handler) s : fst ((h1 ;; h2) s) = fst (h2 (fst (h1 s))).
Proof. reflexivity. Qed.

Lemma snd_andThen (h1 h2 : Handler) s :
  snd ((h1 ;; h2) s) = snd (h1 s) ++ snd (h2 (fst (h1 s))).
Proof. reflexivity. Qed.

Lemma run_app cfg evs1 evs2 s :
  fst (run cfg (evs1 ++ evs2) s) = fst (run cfg evs2 (fst (run cfg evs1 s))).
Proof.
  revert s. induction evs1 as [|[now ev] evs1 IH]; intros s; simpl; [reflexivity|].
  apply IH.
Qed.

Module JsMapFacts.
Section Facts.
Context {V : Type}.
Implicit Types (m : list (string * V)) (k : string) (v : V).

Lemma get_set_eq k v m : JsMap.get k (JsMap.set k v m) = Some v.
Proof.
  induction m as [|[k' v'] m IH]; simpl.
  - now rewrite String.eqb_refl.
  - destruct (k' =? k)%string eqn:E; simpl.
    + now rewrite String.eqb_refl.
    + now rewrite E.
Qed.

Lemma get_delete_eq k m : JsMap.get k (JsMap.delete k m) = None.
Proof.
  induction m as [|[k' v'] m IH]; simpl; [reflexivity|].
  destruct (k' =? k)%string eqn:E; simpl; [assumption|].
  now rewrite E.
Qed.

Lemma get_values k m v : JsMap.get k m = Some v -> In v (JsMap.values m).
Proof.
  induction m as [|[k' v'] m IH]; simpl; [discriminate|].
  destruct (k' =? k)%string; intros H.
  - left. congruence.
  - right. auto.
Qed.
End Facts.
End JsMapFacts.

(** ** C6 *)

Lemma calls_app es1 es2 : calls (es1 ++ es2) = calls es1 ++ calls es2.
Proof. apply omap_app. Qed.

Lemma calls_telegram cfg n : calls (sendTelegramMessageToAdmin cfg n) = [].
Proof.
  unfold sendTelegramMessageToAdmin.
  destruct (ADMIN_TELEGRAM_ID cfg) as [z|]; [destruct (z =? 0)%Z|]; reflexivity.
Qed.

Lemma caught_calls cfg fr m es message :
  calls (snd (caught cfg fr m es message)) = calls es.
Proof.
  unfold caught; cbn [snd]. rewrite !calls_app, calls_telegram.
  cbn. now rewrite app_nil_r.
Qed.

(** C6: on a manager whose status is not exactly "ready", each of the three
    guarded actions (send message, send report, add to group) throws its
    not-ready error and emits nothing, so no method of the wrapped connection
    is invoked; and whatever wakes a task of the coordinator whose manager is
    in such a status, the step invokes no method of the wrapped connection. *)
Theorem C6_not_ready_never_forwards (a : addr) (m : WhatsAppClientManager) (target : jsval) :
  status m <> "ready" ->
  sendMessage a m target =
    (Thrown ("Client " +:+ clientId m +:+ " is not ready to send messages. Status: " +:+ status m), [])
  /\ sendReport a m target =
    (Thrown ("Client " +:+ clientId m +:+ " is not ready to report. Status: " +:+ status m), [])
  /\ addTargetToGroup a m target =
    (Thrown ("Client " +:+ clientId m +:+ " is not ready to create/add to group. Status: " +:+ status m), [])
  /\ forall cfg fr at_ w, calls (snd (task_step cfg fr a m at_ w)) = [].
Proof.
  intros Hst. apply String.eqb_neq in Hst.
  assert (Hit : forall cfg fr i, calls (snd (iteration cfg fr a m i)) = []).
  { intros cfg fr i. unfold iteration, sendReport, sendMessage, addTargetToGroup.
    rewrite Hst; simpl.
    destruct (ban_kind (f_banType fr)); try reflexivity;
      match goal with |- context [if ?b then _ else _] => destruct b end;
      try reflexivity; apply caught_calls. }
  unfold sendMessage, sendReport, addTargetToGroup. rewrite Hst; simpl.
  repeat split.
  intros cfg fr at_ w. destruct at_ as [|i|i], w as [|r]; simpl; try reflexivity.
  - unfold enter_switch. destruct (ban_kind (f_banType fr)) eqn:K; try apply Hit.
    + unfold after_switch; simpl. apply calls_telegram.
    + reflexivity.
  - apply Hit.
  - unfold answered.
    destruct (ban_kind (f_banType fr)); try reflexivity; destruct r; simpl;
      try reflexivity; rewrite ?calls_app, ?calls_telegram; reflexivity.
Qed.

Lemma C6_witness :
  let m := set_status "authenticating" (new_manager "client_1") in
  status m <> "ready"
  /\ sendMessage 0 m (JStr "T1")
     = (Thrown "Client client_1 is not ready to send messages. Status: authenticating", [])
  /\ sendReport 0 m (JStr "T1")
     = (Thrown "Client client_1 is not ready to report. Status: authenticating", [])
  /\ addTargetToGroup 0 m (JStr "T1")
     = (Thrown "Client client_1 is not ready to create/add to group. Status: authenticating", []).
Proof.
  intros m.
  assert (H : status m <> "ready") by discriminate.
  split; [exact H|].
  destruct (C6_not_ready_never_forwards 0 m (JStr "T1") H) as (H1 & H2 & H3 & _).
  split; [exact H1|]. split; [exact H2|exact H3].
Defined.

(** ** C8 *)

(** C8: removing an identity that is not a key of [whatsappClients] answers
    404 at once and leaves the whole state as it was: the clients, the
    cache, the operations and everything the event loop is waiting for. *)
Theorem C8_remove_absent (cfg : Config) (now : Z) (id : jsval) (s : State) :
  (forall k, id = JStr k -> JsMap.get k (whatsappClients s) = None) ->
  step cfg now (PostRemove id) s = (s, [Respond 404 (b_not_found id)]).
Proof.
  intros Habs. simpl. unfold post_remove.
  destruct id as [| |b|n|k|]; try reflexivity.
  now rewrite (Habs k eq_refl).
Qed.

Lemma C8_witness :
  (forall k, JStr "w9" = JStr k -> JsMap.get k (whatsappClients pool_of_two) = None)
  /\ step (config None (Some 2%Z)) 0 (PostRemove (JStr "w9")) pool_of_two
     = (pool_of_two, [Respond 404 (b_not_found (JStr "w9"))]).
Proof.
  assert (H : forall k, JStr "w9" = JStr k -> JsMap.get k (whatsappClients pool_of_two) = None).
  { intros k [= <-]. reflexivity. }
  split; [exact H|].
  exact (C8_remove_absent (config None (Some 2%Z)) 0 (JStr "w9") pool_of_two H).
Defined.

(** ** C5 *)

(** C5: a submission that passed the check of its fields ([targetNumber]
    and [banType] given) and is made while no client is ready is answered
    503 "No WhatsApp clients are ready" and nothing else happens: the state
    is left as it was, no operation record is created, and whatever events
    follow, the run goes on as if the submission had not been made. *)
Theorem C5_no_ready_clients (cfg : Config) (now : Z) (target type : jsval) (rnd : string) (s : State) :
  truthy target = true ->
  truthy type = true ->
  availableClients s = [] ->
  step cfg now (PostBan target type rnd) s = (s, [Respond 503 b_no_clients_ready])
  /\ forall evs,
       fst (run cfg ((now, PostBan target type rnd) :: evs) s) = fst (run cfg evs s).
Proof.
  intros Ht Hy Hnone.
  assert (H : step cfg now (PostBan target type rnd) s = (s, [Respond 503 b_no_clients_ready])).
  { cbn [step]. unfold post_ban. rewrite Ht, Hy, Hnone. reflexivity. }
  split; [exact H|]. intros evs. cbn [run]. rewrite fst_andThen. now rewrite H.
Qed.

Lemma C5_witness :
  availableClients pool_of_two = []
  /\ step (config None (Some 2%Z)) 7 (PostBan (JStr "T1") (JStr "REPORT_FLOOD") "k3x") pool_of_two
     = (pool_of_two, [Respond 503 b_no_clients_ready])
  /\ operations pool_of_two = [].
Proof.
  split; [reflexivity|]. split; [|reflexivity].
  exact (proj1 (C5_no_ready_clients (config None (Some 2%Z)) 7 (JStr "T1") (JStr "REPORT_FLOOD") "k3x"
                       pool_of_two eq_refl eq_refl eq_refl)).
Defined.

(** The check of the fields comes first: a submission without a target is
    answered 400 also while no client is ready. *)
Example missing_field_answered_first :
  availableClients empty_state = []
  /\ step (config None None) 0 (PostBan (JStr "") (JStr "REPORT_FLOOD") "x") empty_state
     = (empty_state, [Respond 400 b_required]).
Proof. split; reflexivity. Qed.

(** ** What each handler does to the store of operation records *)

Lemma keeps_operations_andThen h1 h2 :
  keeps_operations h1 -> keeps_operations h2 -> keeps_operations (h1 ;; h2).
Proof. intros H1 H2 s. rewrite fst_andThen, H2. apply H1. Qed.

Lemma updateClientStatus_operations id st qr : keeps_operations (updateClientStatus id st qr).
Proof. intros s. unfold updateClientStatus. break_matches; reflexivity. Qed.

Lemma after_destroy_operations cfg k : keeps_operations (after_destroy cfg k).
Proof. intros s. destruct k; reflexivity. Qed.

Lemma destroy_operations cfg a k : keeps_operations (destroy cfg a k).
Proof.
  intros s. unfold destroy. break_matches; try reflexivity.
  apply after_destroy_operations.
Qed.

Lemma destroy_settled_operations a r : keeps_operations (destroy_settled a r).
Proof.
  intros s. unfold destroy_settled. break_matches; try reflexivity;
    rewrite !fst_andThen; now rewrite updateClientStatus_operations.
Qed.

Lemma initializeWhatsAppClient_operations cfg id :
  keeps_operations (initializeWhatsAppClient cfg id).
Proof.
  intros s. unfold initializeWhatsAppClient. rewrite fst_andThen. cbn.
  destruct (JsMap.get id (whatsappClients s)); [|reflexivity].
  rewrite !fst_andThen. cbn. now rewrite destroy_operations.
Qed.

Lemma client_emits_operations cfg a e : keeps_operations (client_emits cfg a e).
Proof.
  intros s. unfold client_emits.
  destruct (managers s !! a) as [m|]; [|reflexivity].
  destruct e; rewrite !fst_andThen;
    rewrite ?destroy_operations; cbn [fst emit emits notify];
    rewrite ?updateClientStatus_operations; reflexivity.
Qed.

Lemma destroy_settles_operations cfg k r : keeps_operations (destroy_settles cfg k r).
Proof.
  intros s. unfold destroy_settles. break_matches; try reflexivity.
  rewrite !fst_andThen, after_destroy_operations, destroy_settled_operations.
  reflexivity.
Qed.

Lemma fires_operations cfg k : keeps_operations (fires cfg k).
Proof.
  intros s. unfold fires. break_matches; try reflexivity.
  rewrite fst_andThen. rewrite initializeWhatsAppClient_operations. reflexivity.
Qed.

Lemma post_add_operations cfg : keeps_operations (post_add cfg).
Proof.
  intros s. unfold post_add. rewrite fst_andThen. cbn.
  apply initializeWhatsAppClient_operations.
Qed.

Lemma post_remove_operations cfg id : keeps_operations (post_remove cfg id).
Proof.
  intros s. unfold post_remove. break_matches; try reflexivity.
  apply destroy_operations.
Qed.

(** ** The step of one operation record *)

Lemma alter_same {A} (f : A -> A) (i : nat) (l : list A) :
  (forall x, l !! i = Some x -> f x = x) -> alter f i l = l.
Proof.
  intros H. rewrite <- (list_alter_id id l i) at 2 by reflexivity.
  apply list_alter_ext; [|reflexivity]. intros x Hx. now apply H.
Qed.

Lemma join_operations cfg now o s :
  operations (fst (join cfg now o s)) = alter (join_cell now) o (operations s).
Proof.
  unfold join.
  destruct (operations s !! o) as [c|] eqn:Hc.
  - destruct (frame c) as [fr|] eqn:Hfr.
    + destruct (forallb is_settled (clientPromises fr)) eqn:Hall.
      * cbn. apply list_alter_ext; [|reflexivity].
        intros x Hx. rewrite Hc in Hx. injection Hx as <-.
        unfold join_cell. now rewrite Hfr, Hall.
      * cbn. symmetry. apply alter_same. intros x Hx. rewrite Hc in Hx.
        injection Hx as <-. unfold join_cell. now rewrite Hfr, Hall.
    + cbn. symmetry. apply alter_same. intros x Hx. rewrite Hc in Hx.
      injection Hx as <-. unfold join_cell. now rewrite Hfr.
  - cbn. symmetry. apply alter_same. intros x Hx. congruence.
Qed.

Lemma join_managers cfg now o : keeps_managers (join cfg now o).
Proof. intros s. unfold join. break_matches; reflexivity. Qed.

Lemma wake_task_operations cfg now o j w s :
  operations (fst (wake_task cfg now o j w s))
  = alter (wake_cell cfg (managers s) now j w) o (operations s).
Proof.
  unfold wake_task.
  destruct (operations s !! o) as [c|] eqn:Hc;
    [|cbn [fst]; symmetry; apply alter_same; intros x Hx; congruence].
  assert (Hsame : wake_cell cfg (managers s) now j w c = c ->
                  operations s = alter (wake_cell cfg (managers s) now j w) o (operations s)).
  { intros E. symmetry. apply alter_same. intros x Hx. congruence. }
  destruct (frame c) as [fr|] eqn:Hfr;
    [|apply Hsame; unfold wake_cell; now rewrite Hfr].
  destruct (clientPromises fr !! j) as [[|a at_]|] eqn:Hj;
    try (apply Hsame; unfold wake_cell; now rewrite Hfr, Hj).
  destruct (managers s !! a) as [m|] eqn:Hm;
    [|apply Hsame; unfold wake_cell; now rewrite Hfr, Hj, Hm].
  destruct (task_step cfg fr a m at_ w) as [[|at'|u] es] eqn:Hstep.
  - apply Hsame; unfold wake_cell; now rewrite Hfr, Hj, Hm, Hstep.
  - cbn. apply list_alter_ext; [|reflexivity].
    intros x Hx. rewrite Hc in Hx. injection Hx as <-.
    unfold wake_cell. now rewrite Hfr, Hj, Hm, Hstep.
  - rewrite !fst_andThen. rewrite join_operations. cbn.
    rewrite list_alter_alter_eq. apply list_alter_ext; [|reflexivity].
    intros x Hx. rewrite Hc in Hx. injection Hx as <-.
    unfold wake_cell. now rewrite Hfr, Hj, Hm, Hstep.
Qed.

Lemma wake_task_managers cfg now o j w : keeps_managers (wake_task cfg now o j w).
Proof.
  intros s. unfold wake_task. break_matches; try reflexivity.
  rewrite !fst_andThen. now rewrite join_managers.
Qed.

(** ** An accepted submission *)

Lemma post_ban_accepted cfg now target type rnd s :
  accepted target type s ->
  post_ban cfg now target type rnd s
  = (store_operation now (make_operationId now rnd) target type ;;
     emit (Respond 200 (b_initiated (make_operationId now rnd))) ;;
     executeBanStrategy cfg now (make_operationId now rnd) target type (availableClients s)) s.
Proof.
  intros (Ht & Hb & Hc). unfold post_ban. rewrite Ht, Hb. cbn [negb orb].
  destruct (availableClients s); [congruence|reflexivity].
Qed.

Lemma executeBanStrategy_operations cfg now id target type clients s o :
  JsMap.get id (activeOperations s) = Some o ->
  operations (fst (executeBanStrategy cfg now id target type clients s))
  = alter (fun c => join_cell now
                      {| operation := set_op_status in_progress (operation c);
                         frame := Some (submitted_frame cfg id target type clients) |})
          o (operations s).
Proof.
  intros Hget. unfold executeBanStrategy. rewrite Hget.
  rewrite !fst_andThen, join_operations. cbn.
  rewrite !list_alter_alter_eq. reflexivity.
Qed.

Lemma post_ban_operations cfg now target type rnd s :
  accepted target type s ->
  operations (fst (post_ban cfg now target type rnd s))
  = operations s
      ++ [submitted_cell cfg now (make_operationId now rnd) target type (availableClients s)].
Proof.
  intros Hacc. rewrite post_ban_accepted by assumption.
  rewrite !fst_andThen.
  rewrite (executeBanStrategy_operations _ _ _ _ _ _ _ (length (operations s))).
  - cbn. rewrite <- (Nat.add_0_r (length (operations s))) at 1.
    rewrite alter_app_r. reflexivity.
  - cbn. apply JsMapFacts.get_set_eq.
Qed.

(** What one step does to the store of operation records: it wakes one task
    of one record, or appends the record of an accepted submission, or
    leaves the store alone. *)
Lemma step_operations cfg now ev s :
  match woken ev with
  | Some (o, j, w) =>
      operations (fst (step cfg now ev s))
      = alter (wake_cell cfg (managers s) now j w) o (operations s)
  | None =>
      operations (fst (step cfg now ev s)) = operations s
      \/ exists target type rnd,
          ev = PostBan target type rnd /\ accepted target type s
          /\ operations (fst (step cfg now ev s))
             = operations s
                 ++ [submitted_cell cfg now (make_operationId now rnd) target type
                                    (availableClients s)]
  end.
Proof.
  destruct ev as [| |id|target type rnd|a e|k|k r|o j|o j r|key];
    cbn [woken step]; try apply wake_task_operations.
  - now left.
  - left. apply post_add_operations.
  - left. apply post_remove_operations.
  - destruct (truthy target) eqn:Ht; [destruct (truthy type) eqn:Hb|].
    + destruct (availableClients s) as [|a l] eqn:Ha.
      * left. unfold post_ban. now rewrite Ht, Hb, Ha.
      * right. exists target, type, rnd.
        assert (accepted target type s) by (repeat split; auto; congruence).
        repeat split; auto; try congruence.
        rewrite post_ban_operations by assumption. now rewrite Ha.
    + left. unfold post_ban. now rewrite Ht, Hb.
    + left. unfold post_ban. now rewrite Ht.
  - left. apply client_emits_operations.
  - left. apply fires_operations.
  - left. apply destroy_settles_operations.
  - now left.
Qed.

(** Every step leaves a stored record alone or wakes one of its tasks. *)
Lemma step_cell cfg now ev s o c :
  operations s !! o = Some c ->
  operations (fst (step cfg now ev s)) !! o = Some c
  \/ exists j w, operations (fst (step cfg now ev s)) !! o
                 = Some (wake_cell cfg (managers s) now j w c).
Proof.
  intros Hc. pose proof (step_operations cfg now ev s) as H.
  destruct (woken ev) as [[[o' j] w]|].
  - rewrite H. destruct (decide (o' = o)) as [->|Hne].
    + right. exists j, w. now rewrite list_lookup_alter_eq, Hc.
    + left. now rewrite list_lookup_alter_ne.
  - left. destruct H as [->|(t & b & rnd & _ & _ & ->)]; [exact Hc|].
    rewrite lookup_app_l; [exact Hc|]. eapply lookup_lt_Some; eauto.
Qed.

(** ** The invariant of an operation record *)

Lemma forallb_running ps j a at_ :
  ps !! j = Some (Running a at_) -> forallb is_settled ps = false.
Proof.
  revert j. induction ps as [|p ps IH]; intros [|j] H; try discriminate; simpl in *.
  - injection H as ->. reflexivity.
  - rewrite (IH j H). apply andb_false_r.
Qed.

Lemma forallb_insert_running ps j a at_ :
  j < length ps -> forallb is_settled (<[j := Running a at_]> ps) = false.
Proof.
  intros Hj. apply (forallb_running _ j a at_). now apply list_lookup_insert_eq.
Qed.

Lemma settled_count_insert_running ps j a at_ a' at' :
  ps !! j = Some (Running a at_) ->
  settled_count (<[j := Running a' at']> ps) = settled_count ps.
Proof.
  unfold settled_count.
  revert j. induction ps as [|p ps IH]; intros [|j] H; try discriminate; simpl in *.
  - injection H as ->. reflexivity.
  - destruct (is_settled p); simpl; rewrite (IH j H); reflexivity.
Qed.

Lemma settled_count_insert_settled ps j a at_ :
  ps !! j = Some (Running a at_) ->
  settled_count (<[j := Settled]> ps) = S (settled_count ps).
Proof.
  unfold settled_count.
  revert j. induction ps as [|p ps IH]; intros [|j] H; try discriminate; simpl in *.
  - injection H as ->. reflexivity.
  - destruct (is_settled p); simpl; rewrite (IH j H); reflexivity.
Qed.

Lemma settled_count_all ps :
  forallb is_settled ps = true -> settled_count ps = length ps.
Proof.
  intros H. unfold settled_count. now rewrite forallb_filter_id.
Qed.

Lemma promises_of_on_operation f c : promises_of (on_operation f c) = promises_of c.
Proof. reflexivity. Qed.

Lemma promises_of_on_promises f c :
  promises_of (on_promises f c) = match frame c with Some _ => f (promises_of c) | None => [] end.
Proof. unfold promises_of, on_promises. destruct (frame c); reflexivity. Qed.

Lemma frame_join_cell now c : frame (join_cell now c) = frame c.
Proof.
  unfold join_cell. destruct (frame c) as [fr|] eqn:E; [|now rewrite E].
  destruct (forallb is_settled (clientPromises fr)); cbn; now rewrite E.
Qed.

Lemma promises_of_join_cell now c : promises_of (join_cell now c) = promises_of c.
Proof. unfold promises_of. now rewrite frame_join_cell. Qed.

Lemma clientsUsed_join_cell now c :
  clientsUsed (operation (join_cell now c)) = clientsUsed (operation c).
Proof.
  unfold join_cell. destruct (frame c) as [fr|]; [|reflexivity].
  destruct (forallb is_settled (clientPromises fr)); reflexivity.
Qed.

Lemma op_status_join_cell now c :
  frame c <> None ->
  op_status (operation (join_cell now c))
  = if forallb is_settled (promises_of c) then completed else op_status (operation c).
Proof.
  unfold join_cell, promises_of. destruct (frame c) as [fr|]; [|congruence].
  intros _. destruct (forallb is_settled (clientPromises fr)); reflexivity.
Qed.

(** The record of a submission satisfies the invariant for the clients
    selected from those that were ready. *)
Lemma submitted_cell_ok cfg now id target type clients :
  cell_ok (length (select_clients cfg 0 clients))
          (submitted_cell cfg now id target type clients).
Proof.
  unfold submitted_cell.
  set (c := {| operation := _; frame := _ |}).
  assert (Hps : promises_of c = map (fun a => Running a Jitter) (select_clients cfg 0 clients))
    by reflexivity.
  split.
  - rewrite frame_join_cell. discriminate.
  - rewrite promises_of_join_cell, Hps. apply length_map.
  - rewrite clientsUsed_join_cell, promises_of_join_cell, Hps.
    unfold settled_count. cbn [c operation set_op_status new_operation clientsUsed].
    clear Hps. induction (select_clients cfg 0 clients); [reflexivity|simpl; assumption].
  - rewrite op_status_join_cell, promises_of_join_cell by discriminate.
    reflexivity.
Qed.

(** Waking a task keeps the invariant. *)
Lemma wake_cell_ok cfg ms now j w k c :
  cell_ok k c -> cell_ok k (wake_cell cfg ms now j w c).
Proof.
  intros Hok. pose proof Hok as [Hfr Hk Hused Hst]. unfold wake_cell.
  destruct (frame c) as [fr|] eqn:Efr; [|congruence].
  assert (Hps : promises_of c = clientPromises fr) by (unfold promises_of; now rewrite Efr).
  destruct (clientPromises fr !! j) as [[|a at_]|] eqn:Hj; try exact Hok.
  destruct (ms !! a) as [m|]; [|exact Hok].
  assert (Hlt : j < length (promises_of c)).
  { rewrite Hps. eapply lookup_lt_Some; eauto. }
  rewrite <- Hps in Hj.
  destruct (task_step cfg fr a m at_ w) as [[|at'|u] es]; [exact Hok| |].
  - split.
    + cbn. rewrite Efr. discriminate.
    + rewrite promises_of_on_promises, Efr, length_insert. exact Hk.
    + rewrite promises_of_on_promises, Efr.
      rewrite (settled_count_insert_running _ _ _ _ _ _ Hj). exact Hused.
    + rewrite promises_of_on_promises, Efr, forallb_insert_running by assumption.
      cbn. rewrite Hst. now rewrite (forallb_running _ _ _ _ Hj).
  - set (c1 := on_promises _ _).
    assert (Hp1 : promises_of c1 = <[j := Settled]> (promises_of c)).
    { unfold c1. rewrite promises_of_on_promises. cbn [frame on_operation]. now rewrite Efr. }
    assert (Hf1 : frame c1 <> None).
    { unfold c1. cbn. rewrite Efr. discriminate. }
    split.
    + now rewrite frame_join_cell.
    + rewrite promises_of_join_cell, Hp1, length_insert. exact Hk.
    + rewrite clientsUsed_join_cell, promises_of_join_cell, Hp1.
      rewrite (settled_count_insert_settled _ _ _ _ Hj).
      unfold c1. cbn. rewrite length_app. cbn. lia.
    + rewrite op_status_join_cell, promises_of_join_cell by assumption.
      destruct (forallb is_settled (promises_of c1)); [reflexivity|].
      unfold c1. cbn. rewrite Hst. now rewrite (forallb_running _ _ _ _ Hj).
Qed.

(** A completed record is not changed by waking a task. *)
Lemma wake_cell_completed cfg ms now j w k c :
  cell_ok k c -> op_status (operation c) = completed ->
  wake_cell cfg ms now j w c = c.
Proof.
  intros [Hfr Hk Hused Hst] Hdone. unfold wake_cell.
  destruct (frame c) as [fr|] eqn:Efr; [|reflexivity].
  destruct (clientPromises fr !! j) as [[|a at_]|] eqn:Hj; try reflexivity.
  exfalso. rewrite Hdone in Hst. unfold promises_of in Hst. rewrite Efr in Hst.
  now rewrite (forallb_running _ _ _ _ Hj) in Hst.
Qed.

(** Along any run a record keeps its invariant. *)
Lemma run_cell_ok cfg evs : forall s o k c,
  operations s !! o = Some c -> cell_ok k c ->
  exists c', operations (fst (run cfg evs s)) !! o = Some c' /\ cell_ok k c'.
Proof.
  induction evs as [|[now ev] evs IH]; intros s o k c Hc Hok.
  - exists c. split; assumption.
  - cbn [run]. rewrite fst_andThen.
    destruct (step_cell cfg now ev s o c Hc) as [H|(j & w & H)].
    + eapply IH; eauto.
    + eapply IH; eauto. now apply wake_cell_ok.
Qed.

(** ** C4 *)

Lemma wake_cell_other cfg ms now j w c j' :
  j <> j' -> promises_of (wake_cell cfg ms now j w c) !! j' = promises_of c !! j'.
Proof.
  intros Hne. unfold wake_cell.
  destruct (frame c) as [fr|] eqn:Efr; [|reflexivity].
  destruct (clientPromises fr !! j) as [[|a at_]|]; try reflexivity.
  destruct (ms !! a) as [m|]; [|reflexivity].
  destruct (task_step cfg fr a m at_ w) as [[|at'|u] es]; [reflexivity| |].
  - rewrite promises_of_on_promises, Efr. now apply list_lookup_insert_ne.
  - rewrite promises_of_join_cell, promises_of_on_promises. cbn [frame on_operation].
    rewrite Efr. now apply list_lookup_insert_ne.
Qed.

Lemma step_other_promise cfg now ev s o j p :
  promise_at s o j = Some p ->
  (forall w, woken ev <> Some (o, j, w)) ->
  promise_at (fst (step cfg now ev s)) o j = Some p.
Proof.
  unfold promise_at. intros Hp Hev.
  destruct (operations s !! o) as [c|] eqn:Hc; [|discriminate].
  pose proof (step_operations cfg now ev s) as H.
  destruct (woken ev) as [[[o1 j1] w1]|].
  - rewrite H. destruct (decide (o1 = o)) as [->|Hne].
    + rewrite list_lookup_alter_eq, Hc. cbn.
      rewrite wake_cell_other; [exact Hp|]. intros ->. now apply (Hev w1).
    + rewrite list_lookup_alter_ne, Hc by assumption. exact Hp.
  - destruct H as [->|(t & b & rnd & _ & _ & ->)]; [now rewrite Hc|].
    rewrite lookup_app_l, Hc; [exact Hp|]. eapply lookup_lt_Some; eauto.
Qed.

(** One client fails, the other works through its five repeats. *)
Example one_fails_other_completes :
  (operation <$>
     operations (fst (run cfg3 ((10%Z, PostBan (JStr "T1") (JStr "GROUP_POISON") "k3x") :: one_fails)
                          two_ready_one_error)) !! 0)
  = Some {| op_id := "op_10_k3x"; targetNumber := JStr "T1"; banType := JStr "GROUP_POISON";
            op_status := completed;
            clientsUsed := [failed "client_1" "Failed to add target to group: boom";
                            success "client_2"];
            startTime := 10; endTime := Some 23%Z |}.
Proof. reflexivity. Qed.

(** ** C7 *)

Lemma join_activeOperations cfg now o s :
  activeOperations (fst (join cfg now o s)) = activeOperations s.
Proof. unfold join. break_matches; reflexivity. Qed.

Lemma post_ban_activeOperations cfg now target type rnd s :
  accepted target type s ->
  activeOperations (fst (post_ban cfg now target type rnd s))
  = JsMap.set (make_operationId now rnd) (length (operations s)) (activeOperations s).
Proof.
  intros Hacc. rewrite post_ban_accepted by assumption.
  rewrite !fst_andThen. unfold executeBanStrategy. cbn.
  rewrite JsMapFacts.get_set_eq. rewrite !fst_andThen, join_activeOperations.
  reflexivity.
Qed.

Lemma post_ban_respond cfg now target type rnd s :
  accepted target type s ->
  In (Respond 200 (b_initiated (make_operationId now rnd)))
     (snd (post_ban cfg now target type rnd s)).
Proof.
  intros Hacc. rewrite post_ban_accepted by assumption.
  rewrite !snd_andThen. cbn. now left.
Qed.

Lemma submitted_cell_status cfg now id target type clients :
  op_status (operation (submitted_cell cfg now id target type clients))
  = match select_clients cfg 0 clients with [] => completed | _ :: _ => in_progress end.
Proof.
  unfold submitted_cell. rewrite op_status_join_cell by discriminate.
  unfold promises_of. cbn. destruct (select_clients cfg 0 clients); reflexivity.
Qed.

Lemma submitted_cell_id cfg now id target type clients :
  op_id (operation (submitted_cell cfg now id target type clients)) = id.
Proof.
  unfold submitted_cell, join_cell. cbn.
  destruct (forallb _ _); reflexivity.
Qed.

(** C7: an accepted submission answers with the identifier of the new
    operation, and the answer [GET /status] gives in the state the submission
    leaves lists a record under that identifier whose status is
    [in_progress], or [completed] when (and only when) no client was
    selected; it is never missing. *)
Theorem C7_status_after_submit
        (cfg : Config) (now now' : Z) (target type : jsval) (rnd : string) (s : State) :
  accepted target type s ->
  let id := make_operationId now rnd in
  let s' := fst (step cfg now (PostBan target type rnd) s) in
  In (Respond 200 (b_initiated id)) (snd (step cfg now (PostBan target type rnd) s))
  /\ exists op,
      step cfg now' GetStatus s' = (s', [Respond 200 (b_status (status_body s'))])
      /\ In op (sb_activeOperations (status_body s'))
      /\ op_id op = id
      /\ op_status op
         = match select_clients cfg 0 (availableClients s) with
           | [] => completed
           | _ :: _ => in_progress
           end.
Proof.
  intros Hacc id s'. split; [now apply post_ban_respond|].
  exists (operation (submitted_cell cfg now id target type (availableClients s))).
  split; [reflexivity|]. split; [|split].
  - unfold status_body; cbn [sb_activeOperations]. apply list_elem_of_In.
    apply list_elem_of_omap. exists (length (operations s)). split.
    + apply list_elem_of_In. apply (JsMapFacts.get_values id).
      subst s'. cbn [step]. rewrite post_ban_activeOperations by assumption.
      apply JsMapFacts.get_set_eq.
    + subst s'. cbn [step]. rewrite post_ban_operations by assumption.
      rewrite lookup_app_r, Nat.sub_diag by lia. reflexivity.
  - apply submitted_cell_id.
  - apply submitted_cell_status.
Qed.

Lemma C7_witness :
  accepted (JStr "T1") (JStr "GROUP_POISON") two_ready_one_error
  /\ exists op,
      In op (sb_activeOperations
               (status_body (fst (step cfg3 10 (PostBan (JStr "T1") (JStr "GROUP_POISON") "k3x")
                                       two_ready_one_error))))
      /\ op_id op = "op_10_k3x"
      /\ op_status op = in_progress.
Proof.
  assert (H : accepted (JStr "T1") (JStr "GROUP_POISON") two_ready_one_error) by accept.
  split; [exact H|].
  destruct (proj2 (C7_status_after_submit cfg3 10 11 (JStr "T1") (JStr "GROUP_POISON") "k3x"
                     two_ready_one_error H)) as (op & _ & Hin & Hid & Hst).
  exists op. split; [exact Hin|]. split; [exact Hid|exact Hst].
Defined.

(** ** C10 *)

Lemma cell_ok_rank k c : cell_ok k c -> 1 <= rank (op_status (operation c)).
Proof.
  intros [_ _ _ Hst]. rewrite Hst. destruct (forallb _ _); cbn; lia.
Qed.

(** C10: the record of a submission is stored with status [pending]; the
    call of [executeBanStrategy] in the same handler takes that record and
    leaves it [in_progress] (or already [completed] when no client was
    selected); from then on, whatever events follow, no step lowers the
    status, and once the status is [completed] no step changes the record. *)
Theorem C10_status_never_goes_back
        (cfg : Config) (now : Z) (target type : jsval) (rnd : string) (s : State) :
  accepted target type s ->
  let id := make_operationId now rnd in
  let o := length (operations s) in
  let submitted := fst (step cfg now (PostBan target type rnd) s) in
  operations (fst (store_operation now id target type s)) !! o
    = Some {| operation := new_operation now id target type; frame := None |}
  /\ op_status (new_operation now id target type) = pending
  /\ JsMap.get id (activeOperations (fst (store_operation now id target type s))) = Some o
  /\ (exists c, operations submitted !! o = Some c
                /\ op_status (operation c)
                   = match select_clients cfg 0 (availableClients s) with
                     | [] => completed
                     | _ :: _ => in_progress
                     end)
  /\ forall evs now' ev,
      let s1 := fst (run cfg evs submitted) in
      exists c1 c2,
        operations s1 !! o = Some c1
        /\ operations (fst (step cfg now' ev s1)) !! o = Some c2
        /\ rank (op_status (operation c1)) <= rank (op_status (operation c2))
        /\ (op_status (operation c1) = completed -> operation c2 = operation c1).
Proof.
  intros Hacc id o submitted.
  assert (Hsub : operations submitted !! o
                 = Some (submitted_cell cfg now id target type (availableClients s))).
  { subst submitted o. cbn [step]. rewrite post_ban_operations by assumption.
    rewrite lookup_app_r, Nat.sub_diag by lia. reflexivity. }
  pose proof (submitted_cell_ok cfg now id target type (availableClients s)) as Hok.
  split; [|split; [|split; [|split]]].
  - cbn. subst o. rewrite lookup_app_r, Nat.sub_diag by lia. reflexivity.
  - reflexivity.
  - cbn. apply JsMapFacts.get_set_eq.
  - eexists. split; [exact Hsub|]. apply submitted_cell_status.
  - intros evs now' ev s1.
    destruct (run_cell_ok cfg evs submitted o _ _ Hsub Hok) as (c1 & Hc1 & Hok1).
    fold s1 in Hc1. exists c1.
    destruct (step_cell cfg now' ev s1 o c1 Hc1) as [H|(j & w & H)].
    + exists c1. repeat split; auto.
    + exists (wake_cell cfg (managers s1) now' j w c1). repeat split; auto.
      * pose proof (wake_cell_ok cfg (managers s1) now' j w _ _ Hok1) as Hok2.
        destruct (op_status (operation c1)) eqn:Hst1.
        -- cbn. lia.
        -- apply (cell_ok_rank _ _ Hok2).
        -- now rewrite (wake_cell_completed cfg (managers s1) now' j w _ c1 Hok1 Hst1), Hst1.
      * intros Hdone. now rewrite (wake_cell_completed cfg (managers s1) now' j w _ c1 Hok1).
Qed.

Lemma C10_witness :
  accepted (JStr "T1") (JStr "GROUP_POISON") two_ready_one_error
  /\ exists c1 c2,
      operations (fst (run cfg3 one_fails
                           (fst (step cfg3 10 (PostBan (JStr "T1") (JStr "GROUP_POISON") "k3x")
                                      two_ready_one_error)))) !! 0 = Some c1
      /\ operations
           (fst (step cfg3 30 (TaskTimer 0 1)
                      (fst (run cfg3 one_fails
                                (fst (step cfg3 10 (PostBan (JStr "T1") (JStr "GROUP_POISON") "k3x")
                                           two_ready_one_error)))))) !! 0 = Some c2
      /\ rank (op_status (operation c1)) <= rank (op_status (operation c2))
      /\ (op_status (operation c1) = completed -> operation c2 = operation c1).
Proof.
  assert (H : accepted (JStr "T1") (JStr "GROUP_POISON") two_ready_one_error) by accept.
  split; [exact H|].
  exact (proj2 (proj2 (proj2 (proj2
           (C10_status_never_goes_back cfg3 10 (JStr "T1") (JStr "GROUP_POISON") "k3x"
              two_ready_one_error H)))) one_fails 30%Z (TaskTimer 0 1)).
Defined.

(** ** C1 *)

Lemma tally_app f es1 es2 : tally f (es1 ++ es2) = tally f es1 + tally f es2.
Proof. unfold tally. now rewrite List.filter_app, length_app. Qed.

Lemma js_lt_quot_spec i count len :
  0 < len -> js_lt_quot i count len = (Z.of_nat i * Z.of_nat len <? count)%Z.
Proof.
  destruct len as [|n]; [lia|]. intros _. unfold js_lt_quot, Qcompare. cbn [Qnum Qden inject_Z].
  rewrite Z.mul_1_r. unfold Z.ltb.
  replace (Z.pos (Pos.of_nat (S n))) with (Z.of_nat (S n)); [reflexivity|].
  rewrite <- Pos.of_nat_succ. now rewrite Zpos_P_of_succ_nat, Nat2Z.inj_succ.
Qed.

Lemma lt_ceil_quot i count len :
  0 < len ->
  (Z.of_nat i * Z.of_nat len < count)%Z <-> (Z.of_nat i < ceil_quot count len)%Z.
Proof.
  intros Hlen. unfold ceil_quot.
  assert (Hr : (0 < Z.of_nat len)%Z) by lia.
  set (r := Z.of_nat len) in *. set (x := Z.of_nat i). split; intros H.
  - assert (x + 1 <= (count + r - 1) / r)%Z; [|lia].
    apply Z.div_le_lower_bound; [exact Hr|]. nia.
  - assert (~ (count <= x * r)%Z); [|lia]. intros Hge.
    assert ((count + r - 1) / r < x + 1)%Z; [|lia].
    apply Z.div_lt_upper_bound; [exact Hr|]. nia.
Qed.

Lemma js_lt_quot_ceil i count len :
  0 < len -> js_lt_quot i count len = true <-> i < Z.to_nat (ceil_quot count len).
Proof.
  intros Hlen. rewrite js_lt_quot_spec by assumption.
  rewrite Z.ltb_lt, lt_ceil_quot by assumption. lia.
Qed.

Lemma drive_Jitter cfg fr a m fuel :
  drive cfg fr a m (S fuel) Jitter
  = resume (drive cfg fr a m fuel) (enter_switch cfg fr a m).
Proof. reflexivity. Qed.

Lemma drive_Pace cfg fr a m fuel i :
  drive cfg fr a m (S fuel) (Pace i)
  = resume (drive cfg fr a m fuel) (iteration cfg fr a m (S i)).
Proof. reflexivity. Qed.

Lemma drive_Answer cfg fr a m fuel i :
  drive cfg fr a m (S fuel) (Answer i)
  = resume (drive cfg fr a m fuel) (answered cfg fr m i resolved).
Proof. reflexivity. Qed.

Section Undisturbed.
Variable cfg : Config.
Variable fr : Frame.
Variable a : addr.
Variable m : WhatsAppClientManager.
Variable count : Z.
Hypothesis Hready : status m = "ready".
Hypothesis Hclients : 0 < length (f_clients fr).
Hypothesis Hcount : total_count cfg (f_banType fr) = Some count.

Let k := Z.to_nat (ceil_quot count (length (f_clients fr))).

(** From the loop test at index [i] on, [k - i] actions follow and the
    task ends with a success. *)
Lemma iterations_undisturbed n : forall i fuel,
  i + n = k -> 2 * n <= fuel ->
  fst (resume (drive cfg fr a m fuel) (iteration cfg fr a m i))
  = Some (success (clientId m))
  /\ actions (snd (resume (drive cfg fr a m fuel) (iteration cfg fr a m i))) = n.
Proof.
  unfold total_count in Hcount.
  induction n as [|n IH]; intros i fuel Hi Hfuel.
  - assert (Hstop : js_lt_quot i count (length (f_clients fr)) = false).
    { apply not_true_iff_false. rewrite js_lt_quot_ceil by assumption. fold k. lia. }
    unfold iteration.
    destruct (ban_kind (f_banType fr)); try discriminate;
      injection Hcount as ->; rewrite Hstop; split; reflexivity.
  - assert (Hgo : js_lt_quot i count (length (f_clients fr)) = true).
    { rewrite js_lt_quot_ceil by assumption. fold k. lia. }
    destruct fuel as [|[|fuel]]; try lia.
    pose proof (IH (S i) (S fuel) ltac:(lia) ltac:(lia)) as [IH1 IH1'].
    pose proof (IH (S i) fuel ltac:(lia) ltac:(lia)) as [IH2 IH2'].
    unfold iteration at 1 2. unfold sendReport, sendMessage, addTargetToGroup.
    rewrite Hready. cbn [String.eqb Ascii.eqb Bool.eqb negb].
    destruct (ban_kind (f_banType fr)) eqn:K; try discriminate;
      injection Hcount as ->; rewrite Hgo; cbn [resume fst snd].
    + rewrite drive_Pace. split; [exact IH1|].
      unfold actions in *. rewrite tally_app, IH1'. reflexivity.
    + rewrite drive_Answer. unfold answered. rewrite K. cbn [sendMessage_settled resume fst snd].
      rewrite drive_Pace. split; [exact IH2|].
      unfold actions in *. rewrite !tally_app, IH2'. reflexivity.
    + rewrite drive_Answer. unfold answered. rewrite K.
      cbn [addTargetToGroup_settled resume fst snd].
      rewrite drive_Pace. split; [exact IH2|].
      unfold actions in *. rewrite !tally_app, IH2'. reflexivity.
Qed.

(** A task that nothing disturbs performs [k] actions and succeeds. *)
Lemma drive_undisturbed fuel :
  2 * k + 1 <= fuel ->
  fst (drive cfg fr a m fuel Jitter) = Some (success (clientId m))
  /\ actions (snd (drive cfg fr a m fuel Jitter)) = k.
Proof.
  intros Hfuel. destruct fuel as [|fuel]; [lia|].
  rewrite drive_Jitter.
  assert (Hsw : enter_switch cfg fr a m = iteration cfg fr a m 0).
  { unfold enter_switch. unfold total_count in Hcount.
    destruct (ban_kind (f_banType fr)); try discriminate; reflexivity. }
  rewrite Hsw. apply iterations_undisturbed; lia.
Qed.
End Undisturbed.

Lemma post_ban_managers cfg now target type rnd : keeps_managers (post_ban cfg now target type rnd).
Proof.
  intros s. unfold post_ban.
  destruct (negb (truthy target) || negb (truthy type)); [reflexivity|].
  destruct (length (availableClients s) =? 0); [reflexivity|].
  rewrite !fst_andThen. unfold executeBanStrategy.
  destruct (JsMap.get _ _); [|reflexivity].
  rewrite !fst_andThen. now rewrite join_managers.
Qed.

Lemma select_clients_incl cfg clients : forall used a,
  In a (select_clients cfg used clients) -> In a clients.
Proof.
  induction clients as [|c rest IH]; intros used a; simpl; [tauto|].
  destruct (worker_cap cfg <=? used)%Z; simpl; [tauto|].
  intros [->|H]; [now left|right; eauto].
Qed.

(** The loop stops at the cap: it selects the first [worker_cap] clients. *)
Lemma select_clients_take cfg clients : forall used,
  select_clients cfg used clients = take (Z.to_nat (worker_cap cfg - used)) clients.
Proof.
  induction clients as [|c rest IH]; intros used; simpl.
  - now rewrite take_nil.
  - destruct (worker_cap cfg <=? used)%Z eqn:E.
    + apply Z.leb_le in E. now replace (Z.to_nat (worker_cap cfg - used)) with 0 by lia.
    + apply Z.leb_gt in E.
      replace (Z.to_nat (worker_cap cfg - used)) with (S (Z.to_nat (worker_cap cfg - (used + 1))))
        by lia.
      simpl. now rewrite IH.
Qed.

Lemma select_clients_all cfg clients :
  (Z.of_nat (length clients) <= worker_cap cfg)%Z -> select_clients cfg 0 clients = clients.
Proof.
  intros H. rewrite select_clients_take. apply take_ge. lia.
Qed.

Lemma availableClients_ready s a :
  In a (availableClients s) -> exists m, managers s !! a = Some m /\ status m = "ready".
Proof.
  unfold availableClients. rewrite filter_In. intros [_ H]. unfold ready_at in H.
  destruct (managers s !! a) as [m|]; [|discriminate].
  exists m. split; [reflexivity|]. now apply String.eqb_eq.
Qed.

Lemma ceil_quot_exact count len :
  0 < len -> (count mod Z.of_nat len = 0)%Z -> ceil_quot count len = (count / Z.of_nat len)%Z.
Proof.
  intros Hlen Hmod. unfold ceil_quot.
  assert (Hr : (0 < Z.of_nat len)%Z) by lia. set (r := Z.of_nat len) in *.
  pose proof (Z.div_mod count r ltac:(lia)) as Hdm. rewrite Hmod in Hdm.
  symmetry. apply (Z.div_unique _ _ _ (r - 1)); lia.
Qed.

(** What the join and the notifications add to a tally. *)
Lemma tally_telegram f cfg n :
  (forall n', f (Notify n') = false) -> tally f (sendTelegramMessageToAdmin cfg n) = 0.
Proof.
  intros Hf. unfold sendTelegramMessageToAdmin, tally.
  destruct (ADMIN_TELEGRAM_ID cfg) as [z|]; [destruct (z =? 0)%Z|]; simpl;
    rewrite ?Hf; reflexivity.
Qed.

Lemma tally_join f cfg now o s :
  (forall n', f (Notify n') = false) -> tally f (snd (join cfg now o s)) = 0.
Proof.
  intros Hf. unfold join.
  destruct (operations s !! o) as [c|]; [|reflexivity].
  destruct (frame c) as [fr|]; [|reflexivity].
  destruct (forallb is_settled (clientPromises fr)); [|reflexivity].
  rewrite !snd_andThen. cbn [snd update schedule]. unfold notify, emits. cbn [snd fst].
  rewrite !tally_app, tally_telegram by assumption. reflexivity.
Qed.

(** The one task and the event loop. *)
Lemma task_step_same_call cfg fr1 fr2 a m at_ w :
  same_call fr1 fr2 -> task_step cfg fr1 a m at_ w = task_step cfg fr2 a m at_ w.
Proof.
  intros (Ht & Hb & Hc).
  unfold task_step, enter_switch, iteration, answered, caught, after_switch.
  now rewrite Ht, Hb, Hc.
Qed.

Lemma drive_same_call cfg fr1 fr2 a m fuel : forall at_,
  same_call fr1 fr2 -> drive cfg fr1 a m fuel at_ = drive cfg fr2 a m fuel at_.
Proof.
  induction fuel as [|fuel IH]; intros at_ Hsame; [reflexivity|].
  cbn [drive]. rewrite (task_step_same_call cfg fr1 fr2) by assumption.
  destruct (task_step cfg fr2 a m _ _) as [[|at'|u] es]; cbn [resume]; try reflexivity.
  now rewrite IH.
Qed.

Lemma attend_settled cfg now fuel o j s :
  promise_at s o j = Some Settled -> attend cfg now fuel o j s = (s, []).
Proof. intros H. destruct fuel; cbn [attend]; [reflexivity|]. now rewrite H. Qed.

Lemma task_step_stay cfg fr a m at_ w es :
  task_step cfg fr a m at_ w = (Stay, es) -> es = [].
Proof.
  unfold task_step, enter_switch, answered, iteration, caught, after_switch,
    sendReport, sendMessage, addTargetToGroup, sendMessage_settled, addTargetToGroup_settled.
  destruct at_ as [|i|i], w as [|[|e|e]]; try congruence;
    destruct (ban_kind (f_banType fr)); try congruence;
    repeat match goal with
           | |- context [if ?b then _ else _] => destruct b
           end; cbn; congruence.
Qed.

(** Waking a task, seen from the task. *)
Lemma wake_task_running cfg now o j w s c fr a at_ m :
  operations s !! o = Some c -> frame c = Some fr ->
  clientPromises fr !! j = Some (Running a at_) ->
  managers s !! a = Some m ->
  let r := wake_task cfg now o j w s in
  managers (fst r) = managers s
  /\ operations (fst r) !! o = Some (wake_cell cfg (managers s) now j w c)
  /\ actions (snd r) = actions (snd (task_step cfg fr a m at_ w)).
Proof.
  intros Hc Hfr Hj Hm r. split; [apply wake_task_managers|]. split.
  - subst r. now rewrite wake_task_operations, list_lookup_alter_eq, Hc.
  - subst r. unfold wake_task. rewrite Hc, Hfr, Hj, Hm.
    destruct (task_step cfg fr a m at_ w) as [[|at'|u] es] eqn:E; cbn [snd].
    + now rewrite (task_step_stay _ _ _ _ _ _ _ E).
    + rewrite snd_andThen. cbn. now rewrite app_nil_r.
    + rewrite !snd_andThen. cbn [emits update fst snd]. unfold actions.
      rewrite !tally_app, tally_join by reflexivity. cbn. lia.
Qed.

(** Attending to one task does to it what [drive] says, when [drive] ends. *)
Lemma attend_drive cfg now o j : forall fuel s c fr a at_ m u,
  operations s !! o = Some c -> frame c = Some fr ->
  clientPromises fr !! j = Some (Running a at_) ->
  managers s !! a = Some m ->
  fst (drive cfg fr a m fuel at_) = Some u ->
  let r := attend cfg now fuel o j s in
  actions (snd r) = actions (snd (drive cfg fr a m fuel at_))
  /\ promise_at (fst r) o j = Some Settled
  /\ exists c', operations (fst r) !! o = Some c'
                /\ clientsUsed (operation c') = clientsUsed (operation c) ++ [u].
Proof.
  induction fuel as [|fuel IH]; intros s c fr a at_ m u Hc Hfr Hj Hm Hu r; [discriminate|].
  assert (Hp : promise_at s o j = Some (Running a at_)).
  { unfold promise_at, promises_of. now rewrite Hc, Hfr. }
  set (w := match at_ with Answer _ => settles resolved | _ => elapsed end).
  assert (Hatt : attend cfg now (S fuel) o j s
                 = (wake_task cfg now o j w ;; attend cfg now fuel o j) s).
  { cbn [attend]. rewrite Hp. subst w. destruct at_; reflexivity. }
  destruct (wake_task_running cfg now o j w s c fr a at_ m Hc Hfr Hj Hm)
    as (Hman & Hops & Hact).
  subst r. rewrite Hatt, fst_andThen, snd_andThen.
  cbn [drive] in Hu |- *. fold w in Hu |- *.
  unfold wake_cell in Hops. rewrite Hfr, Hj, Hm in Hops.
  destruct (task_step cfg fr a m at_ w) as [[|at'|v] es] eqn:E; cbn [resume fst snd] in *.
  - discriminate.
  - set (s2 := fst (wake_task cfg now o j w s)) in *.
    set (c2 := on_promises _ c) in Hops.
    assert (Hfr2 : frame c2
                   = Some {| f_operationId := f_operationId fr;
                             f_targetNumber := f_targetNumber fr;
                             f_banType := f_banType fr; f_clients := f_clients fr;
                             clientPromises := <[j := Running a at']> (clientPromises fr) |}).
    { unfold c2. cbn. now rewrite Hfr. }
    set (fr2 := {| f_operationId := _ |}) in Hfr2.
    assert (Hsame : same_call fr2 fr) by (repeat split).
    rewrite <- (drive_same_call cfg fr2 fr) in Hu |- * by assumption.
    assert (Hj2 : clientPromises fr2 !! j = Some (Running a at')).
    { cbn. apply list_lookup_insert_eq. eapply lookup_lt_Some; eauto. }
    assert (Hm2 : managers s2 !! a = Some m) by now rewrite Hman.
    destruct (IH s2 c2 fr2 a at' m u Hops Hfr2 Hj2 Hm2 Hu) as (Ha & Hs & c' & Hc' & Hused).
    split; [|split; [exact Hs|]].
    + unfold actions in *. rewrite !tally_app, Hact, Ha. reflexivity.
    + exists c'. split; [exact Hc'|]. now rewrite Hused.
  - injection Hu as ->.
    set (s2 := fst (wake_task cfg now o j w s)) in *.
    set (c2 := join_cell _ _) in Hops.
    assert (Hs2 : promise_at s2 o j = Some Settled).
    { unfold promise_at. rewrite Hops. unfold c2.
      rewrite promises_of_join_cell, promises_of_on_promises.
      unfold promises_of. cbn [frame on_operation]. rewrite Hfr.
      apply list_lookup_insert_eq. eapply lookup_lt_Some; eauto. }
    rewrite (attend_settled _ _ _ _ _ _ Hs2). cbn [fst snd].
    split; [|split; [exact Hs2|]].
    + now rewrite app_nil_r.
    + exists c2. split; [exact Hops|]. unfold c2. now rewrite clientsUsed_join_cell.
Qed.

(** C1 as stated fails: with three ready clients, all selected, and the
    configured count of 50 reports, the first client performs 17 reports
    before it is recorded as a success, not floor (50 / 3) = 16. *)
Lemma C1_counterexample :
  let r := run cfg3 ((10%Z, PostBan (JStr "T1") (JStr "REPORT_FLOOD") "k3x")
                       :: repeat (11%Z, TaskTimer 0 0) 18) three_ready in
  select_clients cfg3 0 (availableClients three_ready) = [0; 1; 2]
  /\ total_count cfg3 (JStr "REPORT_FLOOD") = Some 50%Z
  /\ (clientsUsed <$> (operation <$> operations (fst r) !! 0)) = Some [success "client_1"]
  /\ actions (snd r) = 17
  /\ actions (snd r) <> Z.to_nat (50 / 3).
Proof. vm_compute. repeat split. discriminate. Qed.

(** ** C2 *)

(** One task of an operation of unknown ban type is woken from its delay. *)
Lemma wake_unknown cfg now o j s c fr a m :
  operations s !! o = Some c -> frame c = Some fr ->
  clientPromises fr !! j = Some (Running a Jitter) ->
  managers s !! a = Some m ->
  ban_kind (f_banType fr) = other_kind ->
  let r := wake_task cfg now o j elapsed s in
  managers (fst r) = managers s
  /\ operations (fst r) !! o
     = Some (join_cell now (on_promises (fun ps => <[j := Settled]> ps)
                                        (on_operation (push_clientsUsed (success (clientId m))) c)))
  /\ actions (snd r) = 0
  /\ tally is_warning (snd r) = 1.
Proof.
  intros Hc Hfr Hj Hm K r.
  assert (Hstep : task_step cfg fr a m Jitter elapsed
                  = (Finish (success (clientId m)), [Console (warn_unknown_ban_type (f_banType fr))])).
  { cbn [task_step]. unfold enter_switch. now rewrite K. }
  split; [apply wake_task_managers|]. split.
  - subst r. rewrite wake_task_operations, list_lookup_alter_eq, Hc. cbn [fmap option_fmap option_map].
    unfold wake_cell. now rewrite Hfr, Hj, Hm, Hstep.
  - subst r. unfold wake_task. rewrite Hc, Hfr, Hj, Hm, Hstep.
    rewrite !snd_andThen. cbn [snd emits update fst].
    unfold actions. rewrite !tally_app, !tally_join by reflexivity.
    split; reflexivity.
Qed.

Lemma unknown_kind_run cfg o (ticks : nat -> Z) : forall rest pre s c fr,
  operations s !! o = Some c -> frame c = Some fr ->
  ban_kind (f_banType fr) = other_kind ->
  clientPromises fr = replicate pre Settled ++ map (fun a => Running a Jitter) rest ->
  (forall a, In a rest -> managers s !! a <> None) ->
  let r := run cfg (map (fun j => (ticks j, TaskTimer o j)) (seq pre (length rest))) s in
  exists c',
    operations (fst r) !! o = Some c'
    /\ promises_of c' = replicate (pre + length rest) Settled
    /\ clientsUsed (operation c')
       = clientsUsed (operation c) ++ map (fun a => success (clientId_at s a)) rest
    /\ actions (snd r) = 0
    /\ tally is_warning (snd r) = length rest.
Proof.
  induction rest as [|a rest IH]; intros pre s c fr Hc Hfr K Hps Hms r.
  - exists c. subst r. cbn. rewrite Nat.add_0_r, app_nil_r in *.
    repeat split; auto. unfold promises_of. now rewrite Hfr, Hps.
  - destruct (managers s !! a) as [m|] eqn:Hm; [|now exfalso; apply (Hms a); [left|]].
    assert (Hj : clientPromises fr !! pre = Some (Running a Jitter)).
    { rewrite Hps, lookup_app_r, length_replicate, Nat.sub_diag by (rewrite length_replicate; lia).
      reflexivity. }
    destruct (wake_unknown cfg (ticks pre) o pre s c fr a m Hc Hfr Hj Hm K)
      as (Hman & Hops & Hact & Hwarn).
    set (s2 := fst (wake_task cfg (ticks pre) o pre elapsed s)) in *.
    set (c2 := join_cell _ _) in Hops.
    assert (Hfr2 : frame c2
                   = Some {| f_operationId := f_operationId fr; f_targetNumber := f_targetNumber fr;
                             f_banType := f_banType fr; f_clients := f_clients fr;
                             clientPromises := <[pre := Settled]> (clientPromises fr) |}).
    { unfold c2. rewrite frame_join_cell. cbn. now rewrite Hfr. }
    destruct (IH (S pre) s2 c2 _ Hops Hfr2 K) as (c' & Hc' & Hps' & Hused' & Hact' & Hwarn').
    + cbn [clientPromises]. rewrite Hps.
      rewrite <- (Nat.add_0_r pre) at 1.
      rewrite <- (length_replicate pre Settled) at 1.
      rewrite insert_app_r, replicate_S_end, <- app_assoc. reflexivity.
    + intros a' Ha'. fold s2 in Hman. rewrite Hman. apply Hms. now right.
    + exists c'. subst r. cbn [length seq map run]. rewrite fst_andThen, snd_andThen.
      cbn [step]. fold s2.
      split; [exact Hc'|]. split; [|split; [|split]].
      * rewrite Hps'. f_equal. lia.
      * rewrite Hused'. unfold c2. rewrite clientsUsed_join_cell. cbn.
        rewrite <- app_assoc. cbn. unfold clientId_at at 2. rewrite Hm.
        do 2 f_equal. apply map_ext_in. intros a' _. unfold clientId_at.
        fold s2 in Hman. now rewrite Hman.
      * unfold actions in *. rewrite tally_app, Hact, Hact'. reflexivity.
      * rewrite tally_app, Hwarn, Hwarn'. reflexivity.
Qed.

(** C2 as stated fails: with one ready client, a submission of an unknown
    ban type ends [completed] with one entry in [clientsUsed], a success. *)
Lemma C2_counterexample :
  let cfg := config None (Some 1%Z) in
  let s := fst (run cfg [(1%Z, ClientEmits 0 on_ready)] (fst (startup cfg))) in
  let r := run cfg [(2%Z, PostBan (JStr "T1") (JStr "A") "k3x"); (3%Z, TaskTimer 0 0)] s in
  accepted (JStr "T1") (JStr "A") s
  /\ ban_kind (JStr "A") = other_kind
  /\ select_clients cfg 0 (availableClients s) = [0]
  /\ exists op,
      (operation <$> operations (fst r) !! 0) = Some op
      /\ op_status op = completed
      /\ clientsUsed op = [success "client_1"]
      /\ clientsUsed op <> [].
Proof.
  intros cfg s r. split; [accept|]. split; [reflexivity|]. split; [reflexivity|].
  eexists. split; [reflexivity|]. repeat split. discriminate.
Qed.

(** ** C9 *)

Lemma destroy_detached_managers cfg a : keeps_managers (destroy cfg a Detached).
Proof. intros s. unfold destroy. break_matches; reflexivity. Qed.

(** C9: [POST /whatsapp/add] always names the new client "client_" followed
    by the size of [whatsappClients] plus one, stores a new manager under
    that name and leaves the answer to the interval polling for its QR code;
    and there is a reachable state (a pool of two from which "client_1" was
    removed) where that name is the name of a live, ready client, which the
    request destroys and replaces, the pool keeping its size. *)
Theorem C9_add_reuses_identity :
  (forall cfg now s,
      let id := "client_" +:+ show_nat (JsMap.size (whatsappClients s) + 1) in
      let s' := fst (step cfg now PostAdd s) in
      JsMap.get id (whatsappClients s') = Some (length (managers s))
      /\ managers s' !! length (managers s) = Some (new_manager id)
      /\ In (Some (PollQr id)) (waiting s'))
  /\ exists cfg s a m,
      reachable cfg s
      /\ JsMap.get (newClientId s) (whatsappClients s) = Some a
      /\ managers s !! a = Some m
      /\ status m = "ready"
      /\ In (Call a c_destroy) (snd (step cfg 9 PostAdd s))
      /\ JsMap.get (newClientId s) (whatsappClients (fst (step cfg 9 PostAdd s)))
         = Some (length (managers s))
      /\ a <> length (managers s)
      /\ JsMap.size (whatsappClients (fst (step cfg 9 PostAdd s)))
         = JsMap.size (whatsappClients s).
Proof.
  split.
  - intros cfg now s id s'. subst s'. cbn [step]. unfold post_add.
    fold (newClientId s). change (newClientId s) with id.
    unfold initializeWhatsAppClient. rewrite !fst_andThen.
    set (s1 := fst (match JsMap.get id (whatsappClients s) with
                    | Some a => _
                    | None => _
                    end)).
    assert (Hm : managers s1 = managers s).
    { subst s1. destruct (JsMap.get id (whatsappClients s)); [|reflexivity].
      rewrite !fst_andThen. cbn. apply destroy_detached_managers. }
    cbn. rewrite Hm. split; [apply JsMapFacts.get_set_eq|]. split.
    + rewrite lookup_app_r, Nat.sub_diag by lia. reflexivity.
    + apply in_or_app. right. now left.
  - exists (config None (Some 2%Z)).
    exists (fst (run (config None (Some 2%Z))
                     [(1%Z, ClientEmits 0 on_ready); (2%Z, ClientEmits 1 on_ready);
                      (3%Z, PostRemove (JStr "client_1")); (4%Z, DestroySettles 0 resolved)]
                     (fst (startup (config None (Some 2%Z)))))).
    exists 1, {| clientId := "client_2"; qrCode := None; client := true; status := "ready" |}.
    split; [eexists; reflexivity|].
    vm_compute. repeat split; auto. discriminate.
Qed.

(** ** C3 *)

Lemma updateClientStatus_destroyed id a s :
  JsMap.get id (whatsappClients s) = Some a ->
  updateClientStatus id "destroyed" None s
  = (with_waiting (fun w => w ++ [Some (Reinit id)])
       (with_myCache (JsMap.delete (qr_key id))
          (with_managers (alter (set_status "destroyed") a) s)),
     [Console (log_reinitialize id "destroyed")]).
Proof. intros Hget. unfold updateClientStatus. rewrite Hget. reflexivity. Qed.

Lemma post_remove_present cfg id a m s :
  JsMap.get id (whatsappClients s) = Some a ->
  managers s !! a = Some m ->
  client m = true ->
  post_remove cfg (JStr id) s
  = (with_waiting (fun w => w ++ [Some (Destroying a (RemoveHandler id))]) s,
     [Call a c_destroy]).
Proof.
  intros Hget Hm Hclient. unfold post_remove. rewrite Hget. unfold destroy.
  now rewrite Hm, Hclient.
Qed.

Lemma destroy_settled_resolved a m s :
  managers s !! a = Some m ->
  JsMap.get (clientId m) (whatsappClients s) = Some a ->
  destroy_settled a resolved s
  = (with_waiting (fun w => w ++ [Some (Reinit (clientId m))])
       (with_myCache (JsMap.delete (qr_key (clientId m)))
          (with_managers (alter (set_status "destroyed") a)
             (with_managers (alter (set_status "destroyed") a) s))),
     [Console (log_destroyed (clientId m));
      Console (log_reinitialize (clientId m) "destroyed")]).
Proof.
  intros Hm Hget. unfold destroy_settled. rewrite Hm.
  apply injective_projections.
  - rewrite !fst_andThen. cbn [emit update fst].
    now rewrite (updateClientStatus_destroyed _ a).
  - rewrite ?snd_andThen, ?fst_andThen. cbn [emit update fst snd].
    now rewrite (updateClientStatus_destroyed _ a).
Qed.

Lemma initializeWhatsAppClient_absent cfg id s :
  JsMap.get id (whatsappClients s) = None ->
  initializeWhatsAppClient cfg id s
  = (with_whatsappClients (JsMap.set id (length (managers s)))
       (with_managers (fun ms => ms ++ [new_manager id]) s),
     [Call (length (managers s)) c_initialize; Console (log_initialized id)]).
Proof.
  intros Hget. unfold initializeWhatsAppClient.
  apply injective_projections.
  - rewrite fst_andThen. rewrite Hget. reflexivity.
  - rewrite snd_andThen. rewrite Hget. reflexivity.
Qed.

(** C3 fails on the code: when an identity [id] is removed whose manager
    holds its connection, and the connection's [destroy()] resolves, the
    request is answered 200 and [id] is gone from [whatsappClients]; but the
    status callback of that very [destroy()] ran while [id] was still there
    and has left the timer [Reinit id] behind, and when it fires [id] is
    stored again, under a new manager, without any request to add it. *)
Theorem C3_removed_identity_returns (cfg : Config) (s : State) (id : string) (a : addr)
        (m : WhatsAppClientManager) (t1 t2 t3 : Z) :
  JsMap.get id (whatsappClients s) = Some a ->
  managers s !! a = Some m ->
  client m = true ->
  clientId m = id ->
  let k := length (waiting s) in
  let r1 := run cfg [(t1, PostRemove (JStr id)); (t2, DestroySettles k resolved)] s in
  let r2 := step cfg t3 (Fires (S k)) (fst r1) in
  In (Respond 200 (b_removed id)) (snd r1)
  /\ JsMap.get id (whatsappClients (fst r1)) = None
  /\ waiting (fst r1) !! S k = Some (Some (Reinit id))
  /\ JsMap.get id (whatsappClients (fst r2)) = Some (length (managers s))
  /\ managers (fst r2) !! length (managers s) = Some (new_manager id).
Proof.
  intros Hget Hm Hclient Hid k r1 r2. subst id.
  set (id := clientId m) in *.
  set (s1 := with_waiting (fun w => w ++ [Some (Destroying a (RemoveHandler id))]) s).
  set (s2 := with_waiting (fun w => <[k := None]> w) s1).
  set (s3 := with_waiting (fun w => w ++ [Some (Reinit id)])
               (with_myCache (JsMap.delete (qr_key id))
                  (with_managers (alter (set_status "destroyed") a)
                     (with_managers (alter (set_status "destroyed") a) s2)))).
  set (s4 := with_whatsappClients (JsMap.delete id) s3).
  assert (H1 : step cfg t1 (PostRemove (JStr id)) s = (s1, [Call a c_destroy])).
  { cbn [step]. now apply (post_remove_present cfg id a m). }
  assert (H2 : step cfg t2 (DestroySettles k resolved) s1
               = (s4, [Console (log_destroyed id); Console (log_reinitialize id "destroyed")]
                        ++ sendTelegramMessageToAdmin cfg (n_removed id)
                        ++ [Respond 200 (b_removed id)])).
  { cbn [step]. unfold destroy_settles.
    replace (waiting s1 !! k) with (Some (Some (Destroying a (RemoveHandler id)))).
    2:{ subst s1 k. cbn. rewrite lookup_app_r, Nat.sub_diag by lia. reflexivity. }
    assert (Hds : destroy_settled a resolved s2
                  = (s3, [Console (log_destroyed id);
                          Console (log_reinitialize id "destroyed")])).
    { apply destroy_settled_resolved; [exact Hm|exact Hget]. }
    apply injective_projections.
    - rewrite !fst_andThen. cbn [clear update fst]. fold s2. rewrite Hds. reflexivity.
    - rewrite ?snd_andThen, ?fst_andThen. cbn [clear update fst snd]. fold s2. rewrite Hds.
      reflexivity. }
  assert (Hr1 : r1 = (s4, [Call a c_destroy]
                            ++ ([Console (log_destroyed id);
                                 Console (log_reinitialize id "destroyed")]
                                  ++ sendTelegramMessageToAdmin cfg (n_removed id)
                                  ++ [Respond 200 (b_removed id)]) ++ [])).
  { subst r1. cbn [run]. apply injective_projections.
    - rewrite !fst_andThen, H1. cbn [fst]. now rewrite H2.
    - rewrite ?snd_andThen, ?fst_andThen, H1. cbn [fst snd]. now rewrite H2. }
  assert (Hgone : JsMap.get id (whatsappClients s4) = None)
    by apply JsMapFacts.get_delete_eq.
  assert (Htimer : waiting s4 !! S k = Some (Some (Reinit id))).
  { subst s4 s3 s2 s1 k. cbn.
    rewrite lookup_app_r; rewrite length_insert, length_app; cbn [length]; [|lia].
    replace (S (length (waiting s)) - (length (waiting s) + 1)) with 0 by lia. reflexivity. }
  subst r2. rewrite Hr1. cbn [fst snd].
  split; [|split; [exact Hgone|split; [exact Htimer|]]].
  - rewrite !in_app_iff. right. left. right. right. now left.
  - cbn [step]. unfold fires. rewrite Htimer. rewrite fst_andThen.
    rewrite initializeWhatsAppClient_absent by exact Hgone.
    cbn. rewrite !length_alter. split.
    + apply JsMapFacts.get_set_eq.
    + rewrite lookup_app_r; rewrite !length_alter; [|lia].
      now rewrite Nat.sub_diag.
Qed.

Lemma C3_witness :
  let cfg := config None (Some 1%Z) in
  let s0 := fst (startup cfg) in
  let r1 := run cfg [(1%Z, PostRemove (JStr "client_1")); (2%Z, DestroySettles 0 resolved)] s0 in
  JsMap.get "client_1" (whatsappClients s0) = Some 0
  /\ In (Respond 200 (b_removed "client_1")) (snd r1)
  /\ JsMap.get "client_1" (whatsappClients (fst r1)) = None
  /\ waiting (fst r1) !! 1 = Some (Some (Reinit "client_1"))
  /\ JsMap.get "client_1" (whatsappClients (fst (step cfg 5002 (Fires 1) (fst r1)))) = Some 1
  /\ managers (fst (step cfg 5002 (Fires 1) (fst r1))) !! 1 = Some (new_manager "client_1").
Proof.
  intros cfg s0 r1. split; [reflexivity|].
  exact (C3_removed_identity_returns cfg s0 "client_1" 0 (new_manager "client_1") 1 2 5002
           eq_refl eq_refl eq_refl eq_refl).
Defined.

(** The same in a pool of one client, with everything the program emits. *)
Example remove_undone_by_timer :
  let cfg := config None (Some 1%Z) in
  let s0 := fst (startup cfg) in
  let r1 := run cfg [(1%Z, PostRemove (JStr "client_1")); (2%Z, DestroySettles 0 resolved)] s0 in
  let r2 := step cfg 5002 (Fires 1) (fst r1) in
  JsMap.has "client_1" (whatsappClients s0) = true
  /\ snd r1 = [Call 0 c_destroy; Console (log_destroyed "client_1");
               Console (log_reinitialize "client_1" "destroyed");
               Respond 200 (b_removed "client_1")]
  /\ JsMap.has "client_1" (whatsappClients (fst r1)) = false
  /\ waiting (fst r1) = [None; Some (Reinit "client_1")]
  /\ JsMap.has "client_1" (whatsappClients (fst r2)) = true
  /\ snd r2 = [Call 1 c_initialize; Console (log_initialized "client_1")].
Proof. vm_compute. repeat split. Qed.

(** * Further properties *)

(** ** More on maps *)

Module JsMapMore.
Section More.
Context {V : Type}.
Implicit Types (m : list (string * V)) (k : string) (v : V).

Lemma get_set_ne k k' v m : k <> k' -> JsMap.get k (JsMap.set k' v m) = JsMap.get k m.
Proof.
  intros Hne. induction m as [|[k0 v0] m IH]; simpl.
  - destruct (k' =? k)%string eqn:E; [apply String.eqb_eq in E; congruence|reflexivity].
  - destruct (k0 =? k')%string eqn:E0; simpl.
    + apply String.eqb_eq in E0. subst k0.
      destruct (k' =? k)%string eqn:E; [apply String.eqb_eq in E; congruence|reflexivity].
    + destruct (k0 =? k)%string; [reflexivity|exact IH].
Qed.

Lemma get_delete_ne k k' m : k <> k' -> JsMap.get k (JsMap.delete k' m) = JsMap.get k m.
Proof.
  intros Hne. induction m as [|[k0 v0] m IH]; simpl; [reflexivity|].
  destruct (k0 =? k')%string eqn:E0; simpl.
  - apply String.eqb_eq in E0. subst k0.
    destruct (k' =? k)%string eqn:E; [apply String.eqb_eq in E; congruence|exact IH].
  - destruct (k0 =? k)%string; [reflexivity|exact IH].
Qed.

Lemma get_None_keys k m : JsMap.get k m = None <-> ~ In k (JsMap.keys m).
Proof.
  induction m as [|[k0 v0] m IH]; simpl; [tauto|].
  destruct (k0 =? k)%string eqn:E.
  - apply String.eqb_eq in E. split; [discriminate|]. intros H. exfalso. apply H. now left.
  - apply String.eqb_neq in E. rewrite IH. tauto.
Qed.

Lemma set_absent k v m : JsMap.get k m = None -> JsMap.set k v m = m ++ [(k, v)].
Proof.
  induction m as [|[k0 v0] m IH]; simpl; [reflexivity|].
  destruct (k0 =? k)%string; [discriminate|]. intros H. now rewrite IH.
Qed.

Lemma keys_set_present k v m :
  JsMap.get k m <> None -> JsMap.keys (JsMap.set k v m) = JsMap.keys m.
Proof.
  induction m as [|[k0 v0] m IH]; simpl; [congruence|].
  destruct (k0 =? k)%string eqn:E; simpl.
  - apply String.eqb_eq in E. now subst.
  - intros H. now rewrite IH.
Qed.

Lemma keys_delete_subset k k' m : In k (JsMap.keys (JsMap.delete k' m)) -> In k (JsMap.keys m).
Proof.
  induction m as [|[k0 v0] m IH]; simpl; [tauto|].
  destruct (k0 =? k')%string; simpl; intuition.
Qed.

Lemma NoDup_keys_delete k m :
  List.NoDup (JsMap.keys m) -> List.NoDup (JsMap.keys (JsMap.delete k m)).
Proof.
  induction m as [|[k0 v0] m IH]; simpl; intros H; [constructor|].
  apply NoDup_cons_iff in H as [Hin Hnd].
  destruct (k0 =? k)%string; simpl; [auto|].
  apply NoDup_cons_iff. split; [|auto]. intros Hin'. apply Hin.
  eapply keys_delete_subset; eauto.
Qed.

Lemma NoDup_keys_set k v m :
  List.NoDup (JsMap.keys m) -> List.NoDup (JsMap.keys (JsMap.set k v m)).
Proof.
  intros Hnd. destruct (JsMap.get k m) as [v0|] eqn:E.
  - rewrite keys_set_present by congruence. exact Hnd.
  - rewrite set_absent by assumption. unfold JsMap.keys. rewrite map_app. simpl.
    apply List.NoDup_app; [exact Hnd|repeat constructor; simpl; tauto|].
    intros x Hx [->|[]]. now apply get_None_keys in E.
Qed.

Lemma size_delete_absent k m : JsMap.get k m = None -> JsMap.delete k m = m.
Proof.
  induction m as [|[k0 v0] m IH]; simpl; [reflexivity|].
  destruct (k0 =? k)%string; [discriminate|]. intros H. now rewrite IH.
Qed.
End More.
End JsMapMore.

(** ** The registry of clients *)

Lemma keeps_registry_andThen h1 h2 :
  keeps_registry h1 -> keeps_registry h2 -> keeps_registry (h1 ;; h2).
Proof. intros H1 H2 s Hok. rewrite fst_andThen. auto. Qed.

Lemma keeps_registry_pool h :
  (forall s, whatsappClients (fst (h s)) = whatsappClients s) ->
  (forall s, managers (fst (h s)) = managers s) ->
  keeps_registry h.
Proof.
  intros Hw Hm s [Hnd Hget]. split; rewrite Hw; [exact Hnd|].
  intros id a Ha. rewrite Hm. auto.
Qed.

Lemma keeps_registry_skip : keeps_registry skip.
Proof. now apply keeps_registry_pool. Qed.

Lemma keeps_registry_emit e : keeps_registry (emit e).
Proof. now apply keeps_registry_pool. Qed.

Lemma keeps_registry_emits es : keeps_registry (emits es).
Proof. now apply keeps_registry_pool. Qed.

Lemma keeps_registry_notify cfg n : keeps_registry (notify cfg n).
Proof. now apply keeps_registry_pool. Qed.

Lemma keeps_registry_schedule p : keeps_registry (schedule p).
Proof. now apply keeps_registry_pool. Qed.

Lemma keeps_registry_clear k : keeps_registry (clear k).
Proof. now apply keeps_registry_pool. Qed.

Lemma keeps_registry_myCache f : keeps_registry (update (with_myCache f)).
Proof. now apply keeps_registry_pool. Qed.

Lemma keeps_registry_activeOperations f : keeps_registry (update (with_activeOperations f)).
Proof. now apply keeps_registry_pool. Qed.

Lemma keeps_registry_operations f : keeps_registry (update (with_operations f)).
Proof. now apply keeps_registry_pool. Qed.

Lemma keeps_registry_alter f a :
  (forall m, clientId (f m) = clientId m) ->
  keeps_registry (update (with_managers (alter f a))).
Proof.
  intros Hf s [Hnd Hget]. split; [exact Hnd|]. cbn. intros id a' Ha'.
  destruct (Hget id a' Ha') as (m & Hm & Hid).
  destruct (decide (a = a')) as [->|Hne].
  - exists (f m). rewrite list_lookup_alter_eq, Hm. split; [reflexivity|]. now rewrite Hf.
  - exists m. now rewrite list_lookup_alter_ne.
Qed.

Lemma keeps_registry_delete id : keeps_registry (update (with_whatsappClients (JsMap.delete id))).
Proof.
  intros s [Hnd Hget]. split; cbn.
  - now apply JsMapMore.NoDup_keys_delete.
  - intros id' a Ha. destruct (String.eqb_spec id' id) as [->|Hne].
    + now rewrite JsMapFacts.get_delete_eq in Ha.
    + rewrite JsMapMore.get_delete_ne in Ha by assumption. auto.
Qed.

#[local] Hint Resolve keeps_registry_andThen keeps_registry_skip keeps_registry_emit
  keeps_registry_emits keeps_registry_notify keeps_registry_schedule keeps_registry_clear
  keeps_registry_myCache keeps_registry_activeOperations keeps_registry_operations
  keeps_registry_delete : registry.

Lemma keeps_registry_set_status st a :
  keeps_registry (update (with_managers (alter (set_status st) a))).
Proof. now apply keeps_registry_alter. Qed.

Lemma keeps_registry_set_qrCode q a :
  keeps_registry (update (with_managers (alter (set_qrCode q) a))).
Proof. now apply keeps_registry_alter. Qed.

#[local] Hint Resolve keeps_registry_set_status keeps_registry_set_qrCode : registry.

Lemma updateClientStatus_registry id st qr : keeps_registry (updateClientStatus id st qr).
Proof.
  intros s Hok. unfold updateClientStatus.
  destruct (JsMap.get id (whatsappClients s)) as [a|]; [|exact Hok].
  revert s Hok. change (keeps_registry
    (update (with_managers (alter (set_status st) a)) ;;
     match qr with
     | Some q =>
         if negb (q =? "")%string
         then update (with_managers (alter (set_qrCode (Some q)) a)) ;;
              update (with_myCache (JsMap.set (qr_key id) q))
         else update (with_myCache (JsMap.delete (qr_key id)))
     | None => update (with_myCache (JsMap.delete (qr_key id)))
     end ;;
     (if recreated_on st
      then emit (Console (log_reinitialize id st)) ;; schedule (Reinit id)
      else skip))).
  destruct qr as [q|]; [destruct (negb (q =? "")%string)|]; destruct (recreated_on st);
    auto 10 with registry.
Qed.

Lemma after_destroy_registry cfg k : keeps_registry (after_destroy cfg k).
Proof. destruct k; cbn [after_destroy]; auto 10 with registry. Qed.

Lemma destroy_registry cfg a k : keeps_registry (destroy cfg a k).
Proof.
  intros s Hok. unfold destroy. destruct (managers s !! a) as [m|]; [|exact Hok].
  destruct (client m); [exact Hok|]. now apply after_destroy_registry.
Qed.

Lemma destroy_settled_registry a r : keeps_registry (destroy_settled a r).
Proof.
  intros s Hok. unfold destroy_settled. destruct (managers s !! a) as [m|]; [|exact Hok].
  destruct r; try exact Hok;
    (revert s Hok;
     change (keeps_registry
               (emit (Console (log_destroyed (clientId m))) ;;
                update (with_managers (alter (set_status "destroyed") a)) ;;
                updateClientStatus (clientId m) "destroyed" None));
     pose proof updateClientStatus_registry; auto 10 with registry).
Qed.

(** The half of [initializeWhatsAppClient] that stores the new manager. *)
Lemma store_manager_registry id s :
  registry_ok s ->
  registry_ok (with_whatsappClients (JsMap.set id (length (managers s)))
                 (with_managers (fun ms => ms ++ [new_manager id]) s)).
Proof.
  intros [Hnd Hget]. split; cbn.
  - now apply JsMapMore.NoDup_keys_set.
  - intros id' a Ha. destruct (String.eqb_spec id' id) as [->|Hne].
    + rewrite JsMapFacts.get_set_eq in Ha. injection Ha as <-.
      exists (new_manager id). split; [|reflexivity].
      rewrite lookup_app_r, Nat.sub_diag by lia. reflexivity.
    + rewrite JsMapMore.get_set_ne in Ha by assumption.
      destruct (Hget id' a Ha) as (m & Hm & Hid). exists m. split; [|exact Hid].
      rewrite lookup_app_l; [exact Hm|]. eapply lookup_lt_Some; eauto.
Qed.

Lemma initializeWhatsAppClient_registry cfg id : keeps_registry (initializeWhatsAppClient cfg id).
Proof.
  intros s Hok. unfold initializeWhatsAppClient. rewrite fst_andThen.
  set (s1 := fst (match JsMap.get id (whatsappClients s) with
                  | Some a => _
                  | None => _
                  end)).
  assert (Hok1 : registry_ok s1).
  { subst s1. destruct (JsMap.get id (whatsappClients s)) as [a|]; [|exact Hok].
    revert s Hok.
    change (keeps_registry (emit (Console (log_already_exists id)) ;;
                            destroy cfg a Detached ;;
                            update (with_whatsappClients (JsMap.delete id)))).
    pose proof destroy_registry. auto 10 with registry. }
  now apply store_manager_registry.
Qed.

Lemma client_emits_registry cfg a e : keeps_registry (client_emits cfg a e).
Proof.
  intros s Hok. unfold client_emits. destruct (managers s !! a) as [m|]; [|exact Hok].
  pose proof updateClientStatus_registry. pose proof destroy_registry.
  destruct e; revert s Hok;
    match goal with |- forall s, registry_ok s -> registry_ok (fst (?h s)) =>
      change (keeps_registry h) end; auto 12 with registry.
Qed.

Lemma destroy_settles_registry cfg k r : keeps_registry (destroy_settles cfg k r).
Proof.
  intros s Hok. unfold destroy_settles.
  destruct (waiting s !! k) as [[[| | |a cont]|]|]; try exact Hok.
  revert s Hok.
  change (keeps_registry (clear k ;; destroy_settled a r ;; after_destroy cfg cont)).
  pose proof destroy_settled_registry. pose proof after_destroy_registry.
  auto 10 with registry.
Qed.

Lemma fires_registry cfg k : keeps_registry (fires cfg k).
Proof.
  intros s Hok. unfold fires.
  destruct (waiting s !! k) as [[[id|id|id|a cont]|]|]; try exact Hok.
  - rewrite fst_andThen. now apply initializeWhatsAppClient_registry.
  - destruct (JsMap.get (qr_key id) (myCache s)) as [q|]; [|exact Hok].
    destruct (negb (q =? "")%string); exact Hok.
Qed.

Lemma join_pool cfg now o : keeps_pool (join cfg now o).
Proof. intros s. unfold join. break_matches; repeat split. Qed.

Lemma wake_task_pool cfg now o j w : keeps_pool (wake_task cfg now o j w).
Proof.
  intros s. unfold wake_task. break_matches; try (repeat split; fail).
  rewrite !fst_andThen.
  match goal with |- context [join cfg now o ?s1] =>
    destruct (join_pool cfg now o s1) as (-> & -> & ->) end.
  repeat split.
Qed.

Lemma post_ban_pool cfg now target type rnd : keeps_pool (post_ban cfg now target type rnd).
Proof.
  intros s. unfold post_ban.
  destruct (negb (truthy target) || negb (truthy type)); [repeat split|].
  destruct (length (availableClients s) =? 0); [repeat split|].
  rewrite !fst_andThen. unfold executeBanStrategy.
  destruct (JsMap.get _ _); [|repeat split].
  rewrite !fst_andThen.
  match goal with |- context [join cfg now ?o ?s1] =>
    destruct (join_pool cfg now o s1) as (-> & -> & ->) end.
  repeat split.
Qed.

Lemma keeps_pool_registry h : keeps_pool h -> keeps_registry h.
Proof. intros H. apply keeps_registry_pool; intros s; apply (H s). Qed.

Lemma step_registry cfg now ev : keeps_registry (step cfg now ev).
Proof.
  destruct ev as [| |id|target type rnd|a e|k|k r|o j|o j r|key]; cbn [step].
  - now apply keeps_registry_pool.
  - intros s Hok. unfold post_add. rewrite fst_andThen.
    now apply initializeWhatsAppClient_registry.
  - intros s Hok. unfold post_remove. destruct id as [| | | |key|]; try exact Hok.
    destruct (JsMap.get key (whatsappClients s)); [|exact Hok].
    now apply destroy_registry.
  - apply keeps_pool_registry, post_ban_pool.
  - apply client_emits_registry.
  - apply fires_registry.
  - apply destroy_settles_registry.
  - apply keeps_pool_registry, wake_task_pool.
  - apply keeps_pool_registry, wake_task_pool.
  - auto with registry.
Qed.

Lemma run_registry cfg evs : keeps_registry (run cfg evs).
Proof.
  induction evs as [|[now ev] evs IH]; cbn [run].
  - apply keeps_registry_skip.
  - apply keeps_registry_andThen; [apply step_registry|exact IH].
Qed.

Lemma startup_loop_registry cfg n : forall i, keeps_registry (startup_loop cfg n i).
Proof.
  induction n as [|n IH]; intros i; cbn [startup_loop].
  - apply keeps_registry_skip.
  - apply keeps_registry_andThen; [apply initializeWhatsAppClient_registry|apply IH].
Qed.

Lemma reachable_registry_ok cfg s : reachable cfg s -> registry_ok s.
Proof.
  intros [evs ->]. apply run_registry. unfold startup. apply startup_loop_registry.
  split; [constructor|]. intros id a H. discriminate H.
Qed.

(** X1: in every state the program reaches, no identity is
    registered twice and every registered identity is served by a stored
    manager whose [clientId] is that identity; so two identities never share
    a manager. *)
Theorem registry_consistent (cfg : Config) (s : State) :
  reachable cfg s ->
  List.NoDup (JsMap.keys (whatsappClients s))
  /\ (forall id a, JsMap.get id (whatsappClients s) = Some a ->
                   exists m, managers s !! a = Some m /\ clientId m = id)
  /\ forall id1 id2 a,
      JsMap.get id1 (whatsappClients s) = Some a ->
      JsMap.get id2 (whatsappClients s) = Some a ->
      id1 = id2.
Proof.
  intros Hr. destruct (reachable_registry_ok cfg s Hr) as [Hnd Hget].
  split; [exact Hnd|]. split; [exact Hget|]. intros id1 id2 a H1 H2.
  destruct (Hget id1 a H1) as (m1 & Hm1 & <-).
  destruct (Hget id2 a H2) as (m2 & Hm2 & <-).
  congruence.
Qed.

Lemma registry_consistent_witness :
  reachable (config None (Some 2%Z)) pool_of_two
  /\ List.NoDup (JsMap.keys (whatsappClients pool_of_two))
  /\ forall id1 id2 a,
      JsMap.get id1 (whatsappClients pool_of_two) = Some a ->
      JsMap.get id2 (whatsappClients pool_of_two) = Some a ->
      id1 = id2.
Proof.
  assert (H : reachable (config None (Some 2%Z)) pool_of_two) by (exists []; reflexivity).
  split; [exact H|].
  split; [exact (proj1 (registry_consistent _ _ H))
         |exact (proj2 (proj2 (registry_consistent _ _ H)))].
Defined.

(** ** The answer of GET /status *)

Lemma In_get {V} (m : list (string * V)) k v :
  List.NoDup (JsMap.keys m) -> In (k, v) m -> JsMap.get k m = Some v.
Proof.
  induction m as [|[k0 v0] m IH]; simpl; [tauto|].
  intros Hnd [Heq|Hin].
  - injection Heq as -> ->. now rewrite String.eqb_refl.
  - apply NoDup_cons_iff in Hnd as [Hnot Hnd].
    destruct (k0 =? k)%string eqn:E.
    + apply String.eqb_eq in E. subst k0. exfalso. apply Hnot.
      change k with (fst (k, v)). now apply in_map.
    + auto.
Qed.

Lemma statuses_entries s :
  registry_ok s ->
  statuses (status_body s)
  = map (fun e => (fst e, status_at s (snd e))) (whatsappClients s).
Proof.
  intros [Hnd Hget]. unfold status_body; cbn [statuses].
  assert (H : forall id a, In (id, a) (whatsappClients s) ->
                           exists m, managers s !! a = Some m /\ clientId m = id).
  { intros id a Hin. apply Hget. now apply In_get. }
  clear Hnd Hget. unfold JsMap.values.
  induction (whatsappClients s) as [|[id a] wc IH]; [reflexivity|].
  cbn [map omap list_omap snd fst].
  destruct (H id a (or_introl eq_refl)) as (m & Hm & Hid).
  unfold status_at at 1. rewrite Hm. cbn. rewrite Hid. f_equal.
  apply IH. intros id' a' Hin. apply H. now right.
Qed.

(** X2: the answer of [GET /status] in a reachable state lists every
    registered identity once, in the order of registration, each with the
    status of the manager registered under it; [total] is the length of
    the list, [active] the number of listed clients whose status is
    "ready", and the request changes nothing. *)
Theorem status_lists_the_pool (cfg : Config) (now : Z) (s : State) :
  reachable cfg s ->
  let b := status_body s in
  step cfg now GetStatus s = (s, [Respond 200 (b_status b)])
  /\ map fst (statuses b) = JsMap.keys (whatsappClients s)
  /\ (forall id st, In (id, st) (statuses b) ->
        exists a m, JsMap.get id (whatsappClients s) = Some a
                    /\ managers s !! a = Some m /\ status m = st)
  /\ total b = length (statuses b)
  /\ active b = length (List.filter (fun e => (snd e =? "ready")%string) (statuses b))
  /\ active b <= total b.
Proof.
  intros Hreach b. pose proof (reachable_registry_ok cfg s Hreach) as Hok.
  pose proof (statuses_entries s Hok) as Hst. fold b in Hst.
  assert (Hact : active b
                 = length (List.filter (fun e => (snd e =? "ready")%string) (statuses b))).
  { rewrite Hst. unfold b, status_body; cbn [active]. unfold availableClients, JsMap.values.
    clear Hst. destruct Hok as [Hnd Hget].
    assert (H : forall id a, In (id, a) (whatsappClients s) -> managers s !! a <> None).
    { intros id a Hin. destruct (Hget id a (In_get _ _ _ Hnd Hin)) as (m & -> & _). discriminate. }
    clear Hnd Hget. induction (whatsappClients s) as [|[id a] wc IH]; [reflexivity|].
    cbn [map List.filter fst snd].
    assert (Hr : ready_at s a = (status_at s a =? "ready")%string).
    { unfold ready_at, status_at, is_ready.
      destruct (managers s !! a) eqn:E; [reflexivity|]. exfalso. eapply H; [now left|exact E]. }
    rewrite Hr. destruct (status_at s a =? "ready")%string; cbn [length];
      rewrite IH; auto; intros id' a' Hin; apply (H id'); now right. }
  split; [reflexivity|]. split; [|split; [|split; [|split]]].
  - rewrite Hst, map_map. reflexivity.
  - intros id st Hin. rewrite Hst in Hin. apply in_map_iff in Hin as ([id' a] & Heq & Hin).
    cbn in Heq. injection Heq as -> <-.
    destruct Hok as [Hnd Hget]. pose proof (In_get _ _ _ Hnd Hin) as Hg.
    destruct (Hget id a Hg) as (m & Hm & _).
    exists a, m. repeat split; auto. unfold status_at. now rewrite Hm.
  - rewrite Hst, length_map. reflexivity.
  - exact Hact.
  - rewrite Hact. etransitivity; [apply filter_length_le|].
    rewrite Hst, length_map. reflexivity.
Qed.

Lemma status_lists_the_pool_witness :
  reachable cfg3 two_ready_one_error
  /\ statuses (status_body two_ready_one_error)
     = [("client_1", "ready"); ("client_2", "ready"); ("client_3", "error")]
  /\ active (status_body two_ready_one_error)
     = length (List.filter (fun e => (snd e =? "ready")%string)
                           (statuses (status_body two_ready_one_error)))
  /\ active (status_body two_ready_one_error) <= total (status_body two_ready_one_error).
Proof.
  assert (H : reachable cfg3 two_ready_one_error) by (eexists; reflexivity).
  split; [exact H|]. split; [reflexivity|].
  pose proof (status_lists_the_pool cfg3 0 two_ready_one_error H) as (_ & _ & _ & _ & Ha & Hle).
  split; [exact Ha|exact Hle].
Defined.

(** ** Start-up and POST /whatsapp/add *)

Lemma show_nat_inj n m : show_nat n = show_nat m -> n = m.
Proof.
  unfold show_nat. intros H.
  assert (Hn : forall k, Nat.to_uint k <> Decimal.Nil).
  { intros k Hk. pose proof (Unsigned.of_to k) as Hof. rewrite Hk in Hof.
    pose proof (Unsigned.to_of Decimal.Nil) as Hto. cbn in Hof. subst k.
    cbn in Hk. discriminate. }
  pose proof (NilZero.usu _ (Hn n)) as H1. pose proof (NilZero.usu _ (Hn m)) as H2.
  rewrite H in H1. rewrite H1 in H2. injection H2 as H2.
  rewrite <- (Unsigned.of_to n), <- (Unsigned.of_to m). now rewrite H2.
Qed.

Lemma client_name_inj i j : client_name i = client_name j -> i = j.
Proof.
  unfold client_name. intros H. cbn in H. injection H as H.
  apply show_nat_inj in H. lia.
Qed.

Lemma client_name_fresh n : ~ In (client_name n) (map client_name (seq 0 n)).
Proof.
  intros H. apply in_map_iff in H as (i & Hi & Hin).
  apply client_name_inj in Hi. apply in_seq in Hin. lia.
Qed.

Lemma newClientId_dense s : newClientId s = client_name (JsMap.size (whatsappClients s)).
Proof. reflexivity. Qed.

(** Storing a manager under a name the pool does not hold. *)
Lemma initialize_fresh cfg id s :
  JsMap.get id (whatsappClients s) = None ->
  initializeWhatsAppClient cfg id s
  = (with_whatsappClients (fun wc => wc ++ [(id, length (managers s))])
       (with_managers (fun ms => ms ++ [new_manager id]) s),
     [Call (length (managers s)) c_initialize; Console (log_initialized id)]).
Proof.
  intros Hget. rewrite initializeWhatsAppClient_absent by assumption.
  unfold with_whatsappClients. cbn. now rewrite JsMapMore.set_absent.
Qed.

(** X3: on a pool that holds "client_1" to "client_n", [POST /whatsapp/add]
    destroys nothing: it calls [initialize] on one new connection, stores a
    new idle manager under "client_(n+1)" after the others, and the pool is
    again of that shape, one larger. *)
Theorem add_grows_dense_pool (cfg : Config) (now : Z) (s : State) :
  dense s ->
  let n := JsMap.size (whatsappClients s) in
  let r := step cfg now PostAdd s in
  snd r = [Call (length (managers s)) c_initialize; Console (log_initialized (client_name n))]
  /\ whatsappClients (fst r) = whatsappClients s ++ [(client_name n, length (managers s))]
  /\ managers (fst r) = managers s ++ [new_manager (client_name n)]
  /\ JsMap.size (whatsappClients (fst r)) = S n
  /\ dense (fst r).
Proof.
  intros Hd n r.
  assert (Hfresh : JsMap.get (client_name n) (whatsappClients s) = None).
  { apply JsMapMore.get_None_keys. rewrite Hd. apply client_name_fresh. }
  assert (Hr : r = (with_waiting (fun w => w ++ [Some (PollQr (client_name n))])
                      (with_whatsappClients (fun wc => wc ++ [(client_name n, length (managers s))])
                         (with_managers (fun ms => ms ++ [new_manager (client_name n)]) s)),
                    [Call (length (managers s)) c_initialize;
                     Console (log_initialized (client_name n))])).
  { subst r. cbn [step]. unfold post_add. rewrite newClientId_dense. fold n.
    apply injective_projections.
    - rewrite fst_andThen, initialize_fresh by assumption. reflexivity.
    - rewrite snd_andThen, initialize_fresh by assumption. reflexivity. }
  rewrite Hr. cbn [fst snd whatsappClients managers with_waiting with_whatsappClients with_managers].
  repeat split.
  - unfold JsMap.size. rewrite length_app. cbn. fold (JsMap.size (whatsappClients s)). lia.
  - unfold dense, JsMap.keys, JsMap.size.
    cbn [whatsappClients with_waiting with_whatsappClients with_managers].
    rewrite map_app, length_app. cbn [length map fst].
    replace (length (whatsappClients s) + 1) with (S (length (whatsappClients s))) by lia.
    rewrite seq_S, map_app. cbn [map]. f_equal. exact Hd.
Qed.

Lemma add_grows_dense_pool_witness :
  dense pool_of_two
  /\ whatsappClients (fst (step (config None (Some 2%Z)) 1 PostAdd pool_of_two))
     = whatsappClients pool_of_two ++ [("client_3", 2)]
  /\ dense (fst (step (config None (Some 2%Z)) 1 PostAdd pool_of_two)).
Proof.
  assert (H : dense pool_of_two) by reflexivity.
  split; [exact H|].
  pose proof (add_grows_dense_pool (config None (Some 2%Z)) 1 pool_of_two H)
    as (_ & Hw & _ & _ & Hd).
  split; [exact Hw|exact Hd].
Defined.

Lemma startup_loop_dense cfg n : forall s,
  dense s ->
  let k := JsMap.size (whatsappClients s) in
  let r := startup_loop cfg n k s in
  whatsappClients (fst r)
  = whatsappClients s
      ++ map (fun i => (client_name (k + i), length (managers s) + i)) (seq 0 n)
  /\ managers (fst r)
     = managers s ++ map (fun i => new_manager (client_name (k + i))) (seq 0 n)
  /\ calls (snd r) = map (fun i => (length (managers s) + i, c_initialize)) (seq 0 n)
  /\ waiting (fst r) = waiting s.
Proof.
  induction n as [|n IH]; intros s Hd k r.
  - subst r. cbn. now rewrite !app_nil_r.
  - subst r. cbn [startup_loop].
    change ("client_" +:+ show_nat (k + 1)) with (client_name k).
    assert (Hfresh : JsMap.get (client_name k) (whatsappClients s) = None).
    { apply JsMapMore.get_None_keys. rewrite Hd. apply client_name_fresh. }
    rewrite fst_andThen, snd_andThen, initialize_fresh by assumption. cbn [fst snd].
    set (s1 := with_whatsappClients _ _).
    assert (Hk1 : JsMap.size (whatsappClients s1) = S k).
    { subst s1. cbn. unfold JsMap.size. rewrite length_app. cbn. subst k.
      unfold JsMap.size. lia. }
    assert (Hd1 : dense s1).
    { unfold dense. rewrite Hk1. subst s1. cbn [whatsappClients with_whatsappClients with_managers].
      unfold JsMap.keys. rewrite map_app, seq_S, map_app. cbn [map fst]. f_equal. exact Hd. }
    specialize (IH s1 Hd1). cbn zeta in IH. rewrite Hk1 in IH.
    destruct IH as (H1 & H2 & H3 & H4).
    assert (Hlen : length (managers s1) = S (length (managers s))).
    { subst s1. cbn. rewrite length_app. cbn. lia. }
    rewrite Hlen in *.
    split; [|split; [|split]].
    + rewrite H1. subst s1. cbn [whatsappClients with_whatsappClients with_managers].
      rewrite <- app_assoc. f_equal. rewrite <- cons_seq. cbn [map app].
      rewrite !Nat.add_0_r. f_equal. rewrite <- seq_shift, map_map.
      apply map_ext. intros i. f_equal; [f_equal|]; lia.
    + rewrite H2. subst s1. cbn [managers with_whatsappClients with_managers].
      rewrite <- app_assoc. f_equal. rewrite <- cons_seq. cbn [map app].
      rewrite !Nat.add_0_r. f_equal. rewrite <- seq_shift, map_map.
      apply map_ext. intros i. do 2 f_equal. lia.
    + rewrite calls_app, H3. cbn [calls omap list_omap app].
      rewrite <- cons_seq. cbn [map]. rewrite Nat.add_0_r. f_equal.
      rewrite <- seq_shift, map_map. apply map_ext. intros i. f_equal. lia.
    + rewrite H4. reflexivity.
Qed.

(** X4: start-up with [WHATSAPP_WORKERS_COUNT = w] leaves a pool of
    [max 0 w] clients named "client_1", "client_2", ... in this order, each
    with a new idle manager of its own; it calls [initialize] once on each
    connection and nothing else on any connection; no client is ready yet
    and nothing is waiting. *)
Theorem startup_pool (cfg : Config) :
  let w := Z.to_nat (WHATSAPP_WORKERS_COUNT cfg) in
  let s := fst (startup cfg) in
  whatsappClients s = map (fun i => (client_name i, i)) (seq 0 w)
  /\ managers s = map (fun i => new_manager (client_name i)) (seq 0 w)
  /\ calls (snd (startup cfg)) = map (fun i => (i, c_initialize)) (seq 0 w)
  /\ availableClients s = []
  /\ waiting s = []
  /\ dense s.
Proof.
  intros w s. subst s. unfold startup. fold w.
  destruct (startup_loop_dense cfg w empty_state eq_refl) as (Hwc & Hm & Hc & Hw).
  cbn [empty_state whatsappClients managers waiting JsMap.size length app Nat.add] in *.
  set (s := fst (startup_loop cfg w 0 empty_state)) in *.
  split; [exact Hwc|]. split; [exact Hm|]. split; [exact Hc|]. split; [|split; [exact Hw|]].
  - unfold availableClients. rewrite Hwc. unfold JsMap.values. rewrite map_map. cbn [snd].
    rewrite map_id.
    assert (H : forall i, In i (seq 0 w) -> ready_at s i = false).
    { intros i Hi. apply in_seq in Hi. unfold ready_at. rewrite Hm.
      change map with (@fmap list _). rewrite list_lookup_fmap, lookup_seq_lt by lia.
      reflexivity. }
    revert H. generalize (seq 0 w). intros l. induction l as [|i l IH]; intros H; [reflexivity|].
    cbn [List.filter]. rewrite (H i) by now left. apply IH. intros j Hj. apply H. now right.
  - unfold dense, JsMap.keys, JsMap.size. rewrite Hwc, length_map, length_seq, map_map.
    reflexivity.
Qed.

(** ** initializeWhatsAppClient and the status callback *)

(** What [updateClientStatus] does for a registered identity, field by
    field. *)
Lemma updateClientStatus_registered id a st qr s :
  JsMap.get id (whatsappClients s) = Some a ->
  let r := updateClientStatus id st qr s in
  whatsappClients (fst r) = whatsappClients s
  /\ managers (fst r)
     = match truthy_detail qr with
       | Some q => alter (set_qrCode (Some q)) a (alter (set_status st) a (managers s))
       | None => alter (set_status st) a (managers s)
       end
  /\ myCache (fst r)
     = match truthy_detail qr with
       | Some q => JsMap.set (qr_key id) q (myCache s)
       | None => JsMap.delete (qr_key id) (myCache s)
       end
  /\ waiting (fst r) = waiting s ++ (if recreated_on st then [Some (Reinit id)] else [])
  /\ operations (fst r) = operations s
  /\ activeOperations (fst r) = activeOperations s
  /\ calls (snd r) = [].
Proof.
  intros Hget r. subst r. unfold updateClientStatus, truthy_detail. rewrite Hget.
  destruct qr as [q|]; [destruct (negb (q =? "")%string)|]; destruct (recreated_on st);
    cbn; rewrite ?app_nil_r; repeat split.
Qed.

(** What [updateClientStatus] does for an identity that is not registered:
    nothing. *)
Lemma updateClientStatus_unregistered id st qr s :
  JsMap.get id (whatsappClients s) = None -> updateClientStatus id st qr s = (s, []).
Proof. intros Hget. unfold updateClientStatus. now rewrite Hget. Qed.

Lemma initialize_first_half cfg id s :
  let h := fun s : State =>
             match JsMap.get id (whatsappClients s) with
             | Some a =>
                 (emit (Console (log_already_exists id)) ;;
                  destroy cfg a Detached ;;
                  update (with_whatsappClients (JsMap.delete id))) s
             | None => (s, [])
             end in
  whatsappClients (fst (h s)) = JsMap.delete id (whatsappClients s)
  /\ managers (fst (h s)) = managers s
  /\ myCache (fst (h s)) = myCache s
  /\ operations (fst (h s)) = operations s
  /\ activeOperations (fst (h s)) = activeOperations s
  /\ waiting (fst (h s))
     = waiting s
         ++ match JsMap.get id (whatsappClients s) with
            | Some a =>
                match managers s !! a with
                | Some m => if client m then [Some (Destroying a Detached)] else []
                | None => []
                end
            | None => []
            end
  /\ calls (snd (h s))
     = match JsMap.get id (whatsappClients s) with
       | Some a =>
           match managers s !! a with
           | Some m => if client m then [(a, c_destroy)] else []
           | None => []
           end
       | None => []
       end.
Proof.
  intros h. subst h. cbn beta.
  destruct (JsMap.get id (whatsappClients s)) as [a|] eqn:Hget.
  - rewrite !fst_andThen, !snd_andThen. unfold destroy. cbn [emit fst snd managers].
    destruct (managers s !! a) as [m|]; [destruct (client m)|];
      cbn; rewrite ?app_nil_r; repeat split.
  - cbn. rewrite app_nil_r. repeat split. symmetry.
    now apply JsMapMore.size_delete_absent.
Qed.

Lemma size_delete_set {V} k (v : V) m :
  List.NoDup (JsMap.keys m) ->
  JsMap.size (JsMap.set k v (JsMap.delete k m))
  = match JsMap.get k m with Some _ => JsMap.size m | None => S (JsMap.size m) end.
Proof.
  intros Hnd. rewrite JsMapMore.set_absent by apply JsMapFacts.get_delete_eq.
  unfold JsMap.size. rewrite length_app. cbn [length].
  induction m as [|[k0 v0] m IH]; [reflexivity|]. cbn in Hnd |- *.
  apply NoDup_cons_iff in Hnd as [Hnot Hnd]. specialize (IH Hnd).
  destruct (k0 =? k)%string eqn:E.
  - apply String.eqb_eq in E. subst k0.
    assert (Hk : JsMap.get k m = None) by now apply JsMapMore.get_None_keys.
    rewrite Hk in IH. rewrite JsMapMore.size_delete_absent in * by assumption. lia.
  - cbn [length]. destruct (JsMap.get k m); lia.
Qed.

(** X5: whatever the pool holds, [initializeWhatsAppClient id]
    leaves [id] registered to a new idle manager appended to the store and
    calls [initialize] on its connection; a manager registered under [id]
    before has [destroy] called on its connection, which nobody awaits, and
    loses the name; the other names, the cache and the operations are left
    alone; and the pool grows by one exactly when [id] was not registered. *)
Theorem initialize_leaves_one_new_manager (cfg : Config) (id : string) (s : State) :
  let b := length (managers s) in
  let r := initializeWhatsAppClient cfg id s in
  JsMap.get id (whatsappClients (fst r)) = Some b
  /\ managers (fst r) = managers s ++ [new_manager id]
  /\ (forall id', id' <> id ->
        JsMap.get id' (whatsappClients (fst r)) = JsMap.get id' (whatsappClients s))
  /\ calls (snd r)
     = match JsMap.get id (whatsappClients s) with
       | Some a =>
           match managers s !! a with
           | Some m => if client m then [(a, c_destroy)] else []
           | None => []
           end
       | None => []
       end ++ [(b, c_initialize)]
  /\ myCache (fst r) = myCache s
  /\ operations (fst r) = operations s
  /\ waiting (fst r)
     = waiting s
         ++ match JsMap.get id (whatsappClients s) with
            | Some a =>
                match managers s !! a with
                | Some m => if client m then [Some (Destroying a Detached)] else []
                | None => []
                end
            | None => []
            end
  /\ (List.NoDup (JsMap.keys (whatsappClients s)) ->
      JsMap.size (whatsappClients (fst r))
      = match JsMap.get id (whatsappClients s) with
        | Some _ => JsMap.size (whatsappClients s)
        | None => S (JsMap.size (whatsappClients s))
        end).
Proof.
  intros b r. subst r. unfold initializeWhatsAppClient.
  rewrite fst_andThen, snd_andThen.
  destruct (initialize_first_half cfg id s) as (Hw & Hm & Hc & Ho & Ha & Hwait & Hcalls).
  cbn zeta beta in Hw, Hm, Hc, Ho, Ha, Hwait, Hcalls.
  set (r1 := match JsMap.get id (whatsappClients s) with
             | Some a => _
             | None => (s, [])
             end) in *.
  rewrite !fst_andThen, !snd_andThen.
  cbn [update emit fst snd whatsappClients managers myCache operations waiting with_managers
              with_whatsappClients].
  rewrite Hm, Hw, Hc, Ho. fold b.
  split; [apply JsMapFacts.get_set_eq|]. split; [reflexivity|]. split.
  { intros id' Hne. rewrite JsMapMore.get_set_ne, JsMapMore.get_delete_ne by assumption.
    reflexivity. }
  split.
  { rewrite calls_app, Hcalls. reflexivity. }
  split; [reflexivity|]. split; [reflexivity|]. split; [exact Hwait|].
  apply size_delete_set.
Qed.

(** ** Destroying and re-creating *)

Lemma destroy_settles_detached cfg k a m cur s :
  waiting s !! k = Some (Some (Destroying a Detached)) ->
  managers s !! a = Some m ->
  JsMap.get (clientId m) (whatsappClients s) = Some cur ->
  destroy_settles cfg k resolved s
  = (with_waiting (fun w => w ++ [Some (Reinit (clientId m))])
       (with_myCache (JsMap.delete (qr_key (clientId m)))
          (with_managers (alter (set_status "destroyed") cur)
             (with_managers (alter (set_status "destroyed") a)
                (with_waiting (fun w => <[k := None]> w) s)))),
     [Console (log_destroyed (clientId m));
      Console (log_reinitialize (clientId m) "destroyed")]).
Proof.
  intros Hk Hm Hget. unfold destroy_settles. rewrite Hk.
  apply injective_projections.
  - rewrite !fst_andThen. cbn [clear update after_destroy skip fst].
    unfold destroy_settled. cbn [managers with_waiting]. rewrite Hm.
    rewrite !fst_andThen. cbn [emit update fst].
    now rewrite (updateClientStatus_destroyed _ cur).
  - rewrite ?snd_andThen, ?fst_andThen. cbn [clear update after_destroy skip fst snd].
    unfold destroy_settled. cbn [managers with_waiting]. rewrite Hm.
    rewrite ?snd_andThen, ?fst_andThen. cbn [emit update fst snd].
    now rewrite (updateClientStatus_destroyed _ cur).
Qed.

Lemma initializeWhatsAppClient_present cfg id a m s :
  JsMap.get id (whatsappClients s) = Some a ->
  managers s !! a = Some m ->
  client m = true ->
  initializeWhatsAppClient cfg id s
  = (with_whatsappClients (fun w => JsMap.set id (length (managers s)) (JsMap.delete id w))
       (with_managers (fun ms => ms ++ [new_manager id])
          (with_waiting (fun w => w ++ [Some (Destroying a Detached)]) s)),
     [Console (log_already_exists id); Call a c_destroy;
      Call (length (managers s)) c_initialize; Console (log_initialized id)]).
Proof.
  intros Hget Hm Hc. unfold initializeWhatsAppClient.
  apply injective_projections.
  - rewrite fst_andThen. rewrite Hget. cbn beta. rewrite !fst_andThen.
    unfold destroy. cbn [emit fst managers]. rewrite Hm, Hc. reflexivity.
  - rewrite snd_andThen. rewrite Hget. cbn beta.
    rewrite ?snd_andThen, ?fst_andThen.
    unfold destroy. cbn [emit fst snd managers]. rewrite Hm, Hc. reflexivity.
Qed.

(** X6: while the connection of a superseded manager of [id] is being
    destroyed, [id] cannot settle: when that [destroy()] resolves the status
    callback marks the manager now registered under [id] as destroyed and
    sets the timer, and when the timer fires that manager is destroyed and
    replaced in turn, which leaves the pool in the same situation one
    manager later. *)
Theorem destroy_replace_cycle (cfg : Config) (t1 t2 : Z) (id : string) (k : nat) (cur : addr)
        (s : State) :
  superseded id k cur s ->
  let r := run cfg [(t1, DestroySettles k resolved); (t2, Fires (length (waiting s)))] s in
  superseded id (S (length (waiting s))) (length (managers s)) (fst r)
  /\ calls (snd r) = [(cur, c_destroy); (length (managers s), c_initialize)]
  /\ (status <$> managers (fst r) !! cur) = Some "destroyed"
  /\ managers (fst r) !! length (managers s) = Some (new_manager id).
Proof.
  intros ((a & m & Hk & Hm & Hid) & Hget & (m' & Hcur & Hid' & Hc)) r. subst r id.
  assert (Hlt : k < length (waiting s)) by (apply lookup_lt_is_Some; eauto).
  cbn [run step]. rewrite !fst_andThen, !snd_andThen. cbn [skip fst snd].
  rewrite (destroy_settles_detached cfg k a m cur s Hk Hm Hget). cbn [fst snd].
  set (s1 := with_waiting _ _).
  assert (Hw1 : waiting s1 = <[k := None]> (waiting s) ++ [Some (Reinit (clientId m))])
    by reflexivity.
  assert (Hms1 : managers s1
                 = alter (set_status "destroyed") cur
                     (alter (set_status "destroyed") a (managers s))) by reflexivity.
  assert (Hcur1 : exists m1, managers s1 !! cur = Some (set_status "destroyed" m1)
                             /\ clientId m1 = clientId m /\ client m1 = true).
  { rewrite Hms1. destruct (decide (a = cur)) as [->|Hne].
    - exists (set_status "destroyed" m'). rewrite !list_lookup_alter_eq, Hcur.
      repeat split; first [reflexivity | assumption].
    - exists m'. rewrite list_lookup_alter_eq, list_lookup_alter_ne, Hcur by congruence.
      repeat split; first [reflexivity | assumption]. }
  destruct Hcur1 as (m1 & Hcur1 & Hid1 & Hc1).
  assert (Ha1 : exists ma, managers s1 !! a = Some ma /\ clientId ma = clientId m).
  { rewrite Hms1. destruct (decide (a = cur)) as [->|Hne].
    - rewrite <- Hms1, Hcur1. eexists; split; [reflexivity|exact Hid1].
    - rewrite list_lookup_alter_ne, list_lookup_alter_eq, Hm by congruence.
      eexists; split; reflexivity. }
  assert (Hfire : waiting s1 !! length (waiting s) = Some (Some (Reinit (clientId m)))).
  { rewrite Hw1. rewrite lookup_app_r; rewrite length_insert; [|lia].
    now rewrite Nat.sub_diag. }
  unfold fires. rewrite Hfire. rewrite !fst_andThen, !snd_andThen.
  cbn [clear update fst snd app].
  set (s2 := with_waiting _ s1).
  assert (Hget2 : JsMap.get (clientId m) (whatsappClients s2) = Some cur) by exact Hget.
  assert (Hcur2 : managers s2 !! cur = Some (set_status "destroyed" m1)) by exact Hcur1.
  rewrite (initializeWhatsAppClient_present cfg _ cur _ s2 Hget2 Hcur2 Hc1).
  cbn [fst snd].
  assert (Hlen : length (managers s2) = length (managers s)).
  { change (managers s2) with (managers s1). rewrite Hms1. now rewrite !length_alter. }
  rewrite Hlen.
  assert (Hlw : length (waiting s2) = S (length (waiting s))).
  { change (waiting s2) with (<[length (waiting s) := None]> (waiting s1)).
    rewrite length_insert, Hw1, length_app, length_insert. cbn. lia. }
  split; [|split; [|split]].
  - split; [|split].
    + exists cur, (set_status "destroyed" m1).
      cbn [waiting managers with_whatsappClients with_managers with_waiting].
      split; [|split].
      * rewrite lookup_app_r by lia. rewrite Hlw, Nat.sub_diag. reflexivity.
      * apply lookup_app_l_Some. exact Hcur2.
      * exact Hid1.
    + cbn [whatsappClients with_whatsappClients with_managers with_waiting].
      apply JsMapFacts.get_set_eq.
    + exists (new_manager (clientId m)).
      cbn [managers with_whatsappClients with_managers with_waiting].
      split; [|split; reflexivity].
      rewrite lookup_app_r by lia. rewrite Hlen, Nat.sub_diag. reflexivity.
  - reflexivity.
  - cbn [managers with_whatsappClients with_managers with_waiting].
    rewrite (lookup_app_l_Some _ _ _ _ Hcur2). reflexivity.
  - cbn [managers with_whatsappClients with_managers with_waiting].
    rewrite lookup_app_r by lia. rewrite Hlen, Nat.sub_diag. reflexivity.
Qed.

Lemma destroy_replace_cycle_witness :
  superseded "client_1" 1 0 auth_failed_pool
  /\ superseded "client_1" 3 1
       (fst (run cfg1 [(2%Z, DestroySettles 1 resolved); (5001%Z, Fires 2)] auth_failed_pool)).
Proof.
  assert (H : superseded "client_1" 1 0 auth_failed_pool).
  { split; [|split].
    - exists 0. eexists. split; [reflexivity|]. split; reflexivity.
    - reflexivity.
    - eexists. split; [reflexivity|]. split; reflexivity. }
  split; [exact H|].
  exact (proj1 (destroy_replace_cycle cfg1 2 5001 "client_1" 1 0 auth_failed_pool H)).
Defined.

(** ** Fatal events *)

Lemma lookup_alter_status st a (ms : list WhatsAppClientManager) m :
  ms !! a = Some m -> alter (set_status st) a ms !! a = Some (set_status st m).
Proof. intros H. now rewrite list_lookup_alter_eq, H. Qed.

Lemma lookup_alter_qrCode q a (ms : list WhatsAppClientManager) m :
  ms !! a = Some m -> alter (set_qrCode q) a ms !! a = Some (set_qrCode q m).
Proof. intros H. now rewrite list_lookup_alter_eq, H. Qed.

(** The status callback after [this.status = st] for a status that asks
    for re-creation, on the registered manager. *)
Lemma status_callback_recreates a m st d s :
  managers s !! a = Some m ->
  JsMap.get (clientId m) (whatsappClients s) = Some a ->
  client m = true ->
  recreated_on st = true ->
  let r := updateClientStatus (clientId m) st (Some d)
             (with_managers (alter (set_status st) a) s) in
  whatsappClients (fst r) = whatsappClients s
  /\ length (managers (fst r)) = length (managers s)
  /\ (exists m1, managers (fst r) !! a = Some m1 /\ clientId m1 = clientId m
                 /\ client m1 = true /\ status m1 = st)
  /\ myCache (fst r)
     = match truthy_detail (Some d) with
       | Some q => JsMap.set (qr_key (clientId m)) q (myCache s)
       | None => JsMap.delete (qr_key (clientId m)) (myCache s)
       end
  /\ waiting (fst r) = waiting s ++ [Some (Reinit (clientId m))]
  /\ calls (snd r) = [].
Proof.
  intros Hm Hget Hc Hst r. subst r.
  set (s0 := with_managers (alter (set_status st) a) s).
  assert (Hget0 : JsMap.get (clientId m) (whatsappClients s0) = Some a) by exact Hget.
  pose proof (updateClientStatus_registered (clientId m) a st (Some d) s0 Hget0) as Hu.
  cbn zeta in Hu. rewrite Hst in Hu.
  destruct Hu as (Hw & Hms & Hcache & Hwait & _ & _ & Hcalls).
  assert (Hm0 : managers s0 !! a = Some (set_status st m))
    by (apply lookup_alter_status; exact Hm).
  split; [exact Hw|]. split.
  { rewrite Hms. change (managers s0) with (alter (set_status st) a (managers s)).
    destruct (truthy_detail (Some d)); now rewrite !length_alter. }
  split.
  { rewrite Hms. destruct (truthy_detail (Some d)) as [q|].
    - exists (set_qrCode (Some q) (set_status st (set_status st m))).
      split; [|repeat split; assumption].
      apply lookup_alter_qrCode, lookup_alter_status, Hm0.
    - exists (set_status st (set_status st m)).
      split; [|repeat split; assumption].
      apply lookup_alter_status, Hm0. }
  repeat split; assumption.
Qed.

(** A fatal event of the registered manager, field by field. *)
Lemma client_emits_fatal cfg a m e st d s :
  managers s !! a = Some m ->
  JsMap.get (clientId m) (whatsappClients s) = Some a ->
  client m = true ->
  fatal e = Some (st, d) ->
  let r := client_emits cfg a e s in
  whatsappClients (fst r) = whatsappClients s
  /\ length (managers (fst r)) = length (managers s)
  /\ (exists m1, managers (fst r) !! a = Some m1 /\ clientId m1 = clientId m
                 /\ client m1 = true /\ status m1 = st)
  /\ myCache (fst r)
     = match truthy_detail (Some d) with
       | Some q => JsMap.set (qr_key (clientId m)) q (myCache s)
       | None => JsMap.delete (qr_key (clientId m)) (myCache s)
       end
  /\ waiting (fst r)
     = waiting s ++ Some (Reinit (clientId m))
                 :: match e with
                    | initialize_rejected _ => []
                    | _ => [Some (Destroying a Detached)]
                    end
  /\ calls (snd r) = match e with
                     | initialize_rejected _ => []
                     | _ => [(a, c_destroy)]
                     end.
Proof.
  intros Hm Hget Hc Hf r. subst r. unfold client_emits. rewrite Hm. cbn zeta.
  destruct e as [qr| | |msg|reason|message]; cbn in Hf; inversion Hf; subst st d; clear Hf;
    rewrite ?fst_andThen, ?snd_andThen; cbn [emit update fst snd].
  - destruct (status_callback_recreates a m "error" ("Auth failed: " +:+ msg) s Hm Hget Hc
                eq_refl) as (Hw & Hlen & (m1 & Hm1 & Hid1 & Hc1 & Hst1) & Hcache & Hwait & Hcalls).
    cbn zeta in Hw, Hlen, Hm1, Hcache, Hwait, Hcalls.
    set (r1 := updateClientStatus _ _ _ _) in *.
    unfold notify, emits. cbn [fst snd]. unfold destroy. rewrite Hm1, Hc1.
    rewrite ?fst_andThen, ?snd_andThen. cbn [emit schedule update fst snd].
    cbn [whatsappClients managers myCache waiting with_waiting].
    rewrite Hwait, <- app_assoc, !calls_app, Hcalls, calls_telegram.
    repeat split; eauto.
  - destruct (status_callback_recreates a m "disconnected" reason s Hm Hget Hc
                eq_refl) as (Hw & Hlen & (m1 & Hm1 & Hid1 & Hc1 & Hst1) & Hcache & Hwait & Hcalls).
    cbn zeta in Hw, Hlen, Hm1, Hcache, Hwait, Hcalls.
    set (r1 := updateClientStatus _ _ _ _) in *.
    unfold notify, emits. cbn [fst snd]. unfold destroy. rewrite Hm1, Hc1.
    rewrite ?fst_andThen, ?snd_andThen. cbn [emit schedule update fst snd].
    cbn [whatsappClients managers myCache waiting with_waiting].
    rewrite Hwait, <- app_assoc, !calls_app, Hcalls, calls_telegram.
    repeat split; eauto.
  - destruct (status_callback_recreates a m "error" ("Init error: " +:+ message) s Hm Hget Hc
                eq_refl) as (Hw & Hlen & (m1 & Hm1 & Hid1 & Hc1 & Hst1) & Hcache & Hwait & Hcalls).
    cbn zeta in Hw, Hlen, Hm1, Hcache, Hwait, Hcalls.
    set (r1 := updateClientStatus _ _ _ _) in *.
    rewrite Hwait, !calls_app, Hcalls. repeat split; eauto.
Qed.

(** X7: when the registered manager of an identity reports an
    authentication failure, a disconnection or a failed [initialize()], it
    leaves the ready set with the status of the event, the detail of the
    event is what the cache holds under [qr_<id>] (nothing if the detail is
    empty), and the timer set by the status callback, once it fires, calls
    [destroy()] on the old connection and registers the identity to a new
    idle manager whose connection is initialised. *)
Theorem fatal_event_recreates (cfg : Config) (a : addr) (m : WhatsAppClientManager)
        (e : ClientEvent) (st d : string) (s : State) :
  managers s !! a = Some m ->
  JsMap.get (clientId m) (whatsappClients s) = Some a ->
  client m = true ->
  fatal e = Some (st, d) ->
  let id := clientId m in
  let r1 := client_emits cfg a e s in
  let r2 := fires cfg (length (waiting s)) (fst r1) in
  (status <$> managers (fst r1) !! a) = Some st
  /\ ready_at (fst r1) a = false
  /\ JsMap.get (qr_key id) (myCache (fst r1)) = truthy_detail (Some d)
  /\ waiting (fst r1) !! length (waiting s) = Some (Some (Reinit id))
  /\ calls (snd r2) = [(a, c_destroy); (length (managers s), c_initialize)]
  /\ JsMap.get id (whatsappClients (fst r2)) = Some (length (managers s))
  /\ managers (fst r2) !! length (managers s) = Some (new_manager id).
Proof.
  intros Hm Hget Hc Hf id r1 r2.
  destruct (client_emits_fatal cfg a m e st d s Hm Hget Hc Hf)
    as (Hw & Hlen & (m1 & Hm1 & Hid1 & Hc1 & Hst1) & Hcache & Hwait & Hcalls).
  cbn zeta in Hw, Hlen, Hm1, Hcache, Hwait, Hcalls. fold r1 in Hw, Hlen, Hm1, Hcache, Hwait, Hcalls.
  assert (Hk : waiting (fst r1) !! length (waiting s) = Some (Some (Reinit id))).
  { rewrite Hwait. rewrite lookup_app_r by lia. now rewrite Nat.sub_diag. }
  split; [rewrite Hm1; cbn; now rewrite Hst1|]. split.
  { unfold ready_at, is_ready. rewrite Hm1, Hst1.
    destruct e; cbn in Hf; inversion Hf; reflexivity. }
  split.
  { rewrite Hcache. destruct (truthy_detail (Some d)).
    - apply JsMapFacts.get_set_eq.
    - apply JsMapFacts.get_delete_eq. }
  split; [exact Hk|].
  subst r2. unfold fires. rewrite Hk.
  rewrite fst_andThen, snd_andThen. cbn [clear update fst snd app].
  set (s2 := with_waiting _ (fst r1)).
  assert (Hget2 : JsMap.get id (whatsappClients s2) = Some a).
  { change (whatsappClients s2) with (whatsappClients (fst r1)). now rewrite Hw. }
  assert (Hm2 : managers s2 !! a = Some m1) by exact Hm1.
  rewrite (initializeWhatsAppClient_present cfg id a m1 s2 Hget2 Hm2 Hc1).
  change (managers s2) with (managers (fst r1)). rewrite Hlen.
  cbn [fst snd whatsappClients managers with_whatsappClients with_managers with_waiting].
  split; [reflexivity|]. split; [apply JsMapFacts.get_set_eq|].
  change (managers s2) with (managers (fst r1)).
  rewrite lookup_app_r by (rewrite Hlen; lia). now rewrite Hlen, Nat.sub_diag.
Qed.

Lemma fatal_event_recreates_witness :
  managers pool_of_one !! 0 = Some (new_manager "client_1")
  /\ fatal (on_disconnected "NAVIGATION") = Some ("disconnected", "NAVIGATION")
  /\ ready_at (fst (client_emits cfg1 0 (on_disconnected "NAVIGATION") pool_of_one)) 0 = false
  /\ calls (snd (fires cfg1 0 (fst (client_emits cfg1 0 (on_disconnected "NAVIGATION")
                                                  pool_of_one))))
     = [(0, c_destroy); (1, c_initialize)].
Proof.
  split; [reflexivity|]. split; [reflexivity|].
  pose proof (fatal_event_recreates cfg1 0 (new_manager "client_1") (on_disconnected "NAVIGATION")
                "disconnected" "NAVIGATION" pool_of_one eq_refl eq_refl eq_refl eq_refl)
    as (_ & Hr & _ & _ & Hc & _).
  split; [exact Hr|exact Hc].
Defined.

(** ** POST /whatsapp/remove when destroy fails *)
































(** The timer set by a failure is not cancelled by the removal: removed
    while the timer of its authentication failure is pending, "client_1" is
    answered 200 "removed" and is registered again, with a new manager, when
    the timer fires. *)
Example removed_identity_returns_with_pending_timer :
  let evs := [(2%Z, PostRemove (JStr "client_1"));
              (3%Z, DestroySettles 2 (rejected "boom"))] in
  waiting auth_failed_pool !! 0 = Some (Some (Reinit "client_1"))
  /\ snd (run cfg1 evs auth_failed_pool)
     = [Call 0 c_destroy; Console (error_destroying "client_1");
        Respond 200 (b_removed "client_1")]
  /\ JsMap.get "client_1" (whatsappClients (fst (run cfg1 evs auth_failed_pool))) = None
  /\ JsMap.get "client_1"
       (whatsappClients (fst (run cfg1 (evs ++ [(5001%Z, Fires 0)]) auth_failed_pool)))
     = Some 1.
Proof. vm_compute. repeat split. Qed.

(** ** The poll of POST /whatsapp/add *)

Lemma destroy_detached_cache cfg a s :
  myCache (fst (destroy cfg a Detached s)) = myCache s
  /\ exists extra, waiting (fst (destroy cfg a Detached s)) = waiting s ++ extra.
Proof.
  unfold destroy. destruct (managers s !! a) as [m|]; [destruct (client m)|].
  - split; [reflexivity|]. now exists [Some (Destroying a Detached)].
  - split; [reflexivity|]. exists []. cbn. now rewrite app_nil_r.
  - split; [reflexivity|]. exists []. cbn. now rewrite app_nil_r.
Qed.

Lemma status_callback_cache id cur st qr s :
  JsMap.get id (whatsappClients s) = Some cur ->
  let r := updateClientStatus id st qr s in
  JsMap.get (qr_key id) (myCache (fst r)) = truthy_detail qr
  /\ exists extra, waiting (fst r) = waiting s ++ extra.
Proof.
  intros Hget r. subst r.
  destruct (updateClientStatus_registered id cur st qr s Hget) as (_ & _ & Hc & Hw & _).
  cbn zeta in Hc, Hw. rewrite Hc, Hw. split; [|eauto].
  destruct (truthy_detail qr).
  - apply JsMapFacts.get_set_eq.
  - apply JsMapFacts.get_delete_eq.
Qed.

(** After an event of a manager whose identity is registered, the cache
    holds under [qr_<id>] the non-empty detail of the event and nothing
    otherwise; what was awaited before still is. *)
Lemma client_emits_cache cfg a m cur e s :
  managers s !! a = Some m ->
  JsMap.get (clientId m) (whatsappClients s) = Some cur ->
  let s1 := fst (client_emits cfg a e s) in
  JsMap.get (qr_key (clientId m)) (myCache s1) = truthy_detail (detail e)
  /\ exists extra, waiting s1 = waiting s ++ extra.
Proof.
  intros Hm Hget s1. subst s1. unfold client_emits. rewrite Hm. cbn zeta.
  destruct e as [qr| | |msg|reason|message]; cbn [detail];
    rewrite ?fst_andThen; cbn [emit update fst notify emits];
    try match goal with
        | |- context [destroy cfg a Detached ?s1] =>
            destruct (destroy_detached_cache cfg a s1) as (-> & (x1 & ->))
        end;
    match goal with
    | |- context [updateClientStatus ?id ?st ?qr ?s0] =>
        destruct (status_callback_cache id cur st qr s0 Hget) as (Hc & (x2 & Hw))
    end;
    cbn zeta in Hc, Hw; (split; [exact Hc|]);
    first [ exists x2; exact Hw
          | exists (x2 ++ x1); rewrite Hw, <- app_assoc; reflexivity ].
Qed.

(** X9: while [POST /whatsapp/add] polls the cache for the
    identity it created, any event of a manager of that identity decides
    the next poll: it answers exactly when the event carried a non-empty
    detail, and with that detail as [qrCode], be it a QR code or the text
    of an error; otherwise ([ready], [authenticated], an empty detail) it
    answers nothing and goes on polling. *)
Theorem poll_answers_with_last_detail (cfg : Config) (k : nat) (a cur : addr)
        (m : WhatsAppClientManager) (e : ClientEvent) (s : State) :
  waiting s !! k = Some (Some (PollQr (clientId m))) ->
  managers s !! a = Some m ->
  JsMap.get (clientId m) (whatsappClients s) = Some cur ->
  let s1 := fst (client_emits cfg a e s) in
  fires cfg k s1
  = match truthy_detail (detail e) with
    | Some d => (with_waiting (fun w => <[k := None]> w) s1,
                 [Respond 200 (b_added (clientId m) d)])
    | None => (s1, [])
    end.
Proof.
  intros Hk Hm Hget s1.
  destruct (client_emits_cache cfg a m cur e s Hm Hget) as (Hc & (extra & Hw)).
  cbn zeta in Hc, Hw. fold s1 in Hc, Hw.
  unfold fires. rewrite Hw, (lookup_app_l_Some _ _ _ _ Hk), Hc.
  unfold truthy_detail. destruct (detail e) as [d|]; [|reflexivity].
  destruct (negb (d =? "")%string) eqn:E; rewrite ?E; reflexivity.
Qed.

Lemma poll_answers_with_last_detail_witness :
  waiting adding_pool !! 0 = Some (Some (PollQr "client_2"))
  /\ snd (fires cfg1 0 (fst (client_emits cfg1 1 (initialize_rejected "timeout") adding_pool)))
     = [Respond 200 (b_added "client_2" "Init error: timeout")].
Proof.
  split; [reflexivity|].
  exact (f_equal snd
           (poll_answers_with_last_detail cfg1 0 1 1 (new_manager "client_2")
              (initialize_rejected "timeout") adding_pool eq_refl eq_refl eq_refl)).
Defined.

(** ** Selection of clients and the shape of records *)

Lemma availableClients_ready_at s a : In a (availableClients s) -> ready_at s a = true.
Proof. unfold availableClients. rewrite filter_In. tauto. Qed.

(** X10: an accepted submission starts one task per selected
    client, each in its initial delay, and the selected clients are the
    first [WHATSAPP_WORKERS_COUNT || 1] of the clients that were ready, in
    the order of [whatsappClients]: all of them when they are no more than
    the cap, none when the configured count is negative. *)
Theorem ban_selects_first_ready_up_to_cap
        (cfg : Config) (now : Z) (target type : jsval) (rnd : string) (s : State) :
  accepted target type s ->
  let sel := take (Z.to_nat (worker_cap cfg)) (availableClients s) in
  let s' := fst (post_ban cfg now target type rnd s) in
  (promises_of <$> operations s' !! length (operations s))
  = Some (map (fun a => Running a Jitter) sel)
  /\ length sel = Nat.min (Z.to_nat (worker_cap cfg)) (length (availableClients s))
  /\ (forall a, In a sel -> ready_at s a = true)
  /\ ((Z.of_nat (length (availableClients s)) <= worker_cap cfg)%Z -> sel = availableClients s)
  /\ ((WHATSAPP_WORKERS_COUNT cfg < 0)%Z -> sel = [])
  /\ (WHATSAPP_WORKERS_COUNT cfg = 0%Z -> sel = take 1 (availableClients s)).
Proof.
  intros Hacc sel s'. subst s'. rewrite post_ban_operations by assumption.
  rewrite lookup_app_r by lia. rewrite Nat.sub_diag. cbn [lookup list_lookup fmap option_fmap option_map].
  split.
  { unfold submitted_cell. rewrite promises_of_join_cell. unfold promises_of. cbn.
    now rewrite select_clients_take, Z.sub_0_r. }
  split; [apply length_take|]. split.
  { intros a Ha. apply availableClients_ready_at. subst sel.
    apply list_elem_of_In in Ha. apply list_elem_of_In.
    apply elem_of_take in Ha as (i & Hi & _). eapply list_elem_of_lookup_2; eauto. }
  split; [intros H; subst sel; apply take_ge; lia|].
  unfold worker_cap. split.
  - intros H. destruct (Z.eqb_spec (WHATSAPP_WORKERS_COUNT cfg) 0); [lia|].
    subst sel. unfold worker_cap. destruct (Z.eqb_spec (WHATSAPP_WORKERS_COUNT cfg) 0); [lia|].
    now replace (Z.to_nat (WHATSAPP_WORKERS_COUNT cfg)) with 0 by lia.
  - intros H. subst sel. unfold worker_cap. now rewrite H.
Qed.

Lemma ban_selects_first_ready_up_to_cap_witness :
  accepted (JStr "T1") (JStr "REPORT_FLOOD") three_ready
  /\ (promises_of <$>
        operations (fst (post_ban cfg3 4 (JStr "T1") (JStr "REPORT_FLOOD") "k3x" three_ready))
          !! 0)
     = Some [Running 0 Jitter; Running 1 Jitter; Running 2 Jitter].
Proof.
  assert (H : accepted (JStr "T1") (JStr "REPORT_FLOOD") three_ready) by accept.
  split; [exact H|].
  exact (proj1 (ban_selects_first_ready_up_to_cap cfg3 4 (JStr "T1") (JStr "REPORT_FLOOD") "k3x"
                  three_ready H)).
Defined.

Lemma stamped_push u op : stamped op -> stamped (push_clientsUsed u op).
Proof. exact id. Qed.

Lemma stamped_complete now op : stamped (complete now op).
Proof. unfold stamped. cbn. discriminate. Qed.

Lemma stamped_join_cell now c : stamped (operation c) -> stamped (operation (join_cell now c)).
Proof.
  intros H. unfold join_cell. destruct (frame c) as [fr|]; [|exact H].
  destruct (forallb is_settled (clientPromises fr)); [apply stamped_complete|exact H].
Qed.

Lemma stamped_wake_cell cfg ms now j w c :
  stamped (operation c) -> stamped (operation (wake_cell cfg ms now j w c)).
Proof.
  intros H. unfold wake_cell.
  destruct (frame c) as [fr|]; [|exact H].
  destruct (clientPromises fr !! j) as [[|a at_]|]; try exact H.
  destruct (ms !! a) as [m|]; [|exact H].
  destruct (task_step cfg fr a m at_ w) as [[|at'|u] es]; [exact H|exact H|].
  apply stamped_join_cell. exact H.
Qed.

Lemma stamped_submitted_cell cfg now id target type clients :
  stamped (operation (submitted_cell cfg now id target type clients)).
Proof.
  unfold submitted_cell, join_cell. cbn [frame].
  destruct (forallb is_settled _); [apply stamped_complete|reflexivity].
Qed.

Lemma step_stamped cfg now ev s :
  Forall (fun c => stamped (operation c)) (operations s) ->
  Forall (fun c => stamped (operation c)) (operations (fst (step cfg now ev s))).
Proof.
  intros Hall. pose proof (step_operations cfg now ev s) as H.
  destruct (woken ev) as [[[o j] w]|].
  - rewrite H. apply Forall_alter; [exact Hall|].
    intros c _. apply stamped_wake_cell.
  - destruct H as [->|(t & b & rnd & _ & _ & ->)]; [exact Hall|].
    apply Forall_app. split; [exact Hall|].
    constructor; [apply stamped_submitted_cell|constructor].
Qed.

Lemma run_stamped cfg evs : forall s,
  Forall (fun c => stamped (operation c)) (operations s) ->
  Forall (fun c => stamped (operation c)) (operations (fst (run cfg evs s))).
Proof.
  induction evs as [|[now ev] evs IH]; intros s H; [exact H|].
  cbn [run]. rewrite fst_andThen. apply IH, step_stamped, H.
Qed.

Lemma startup_loop_operations cfg n : forall i, keeps_operations (startup_loop cfg n i).
Proof.
  induction n as [|n IH]; intros i s; [reflexivity|].
  cbn [startup_loop]. rewrite fst_andThen, IH. apply initializeWhatsAppClient_operations.
Qed.

Lemma reachable_stamped cfg s :
  reachable cfg s -> Forall (fun c => stamped (operation c)) (operations s).
Proof.
  intros [evs ->]. apply run_stamped. unfold startup.
  rewrite startup_loop_operations. constructor.
Qed.

(** X11: in every state the program reaches, every operation
    [GET /status] lists is past [pending], and it carries an end time
    exactly when it is [completed]. *)
Theorem listed_operations_stamped (cfg : Config) (s : State) (op : Operation) :
  reachable cfg s ->
  In op (sb_activeOperations (status_body s)) ->
  op_status op <> pending
  /\ (op_status op = completed <-> endTime op <> None)
  /\ (op_status op = in_progress <-> endTime op = None).
Proof.
  intros Hr Hin. apply reachable_stamped in Hr.
  cbn [sb_activeOperations status_body] in Hin.
  apply list_elem_of_In, list_elem_of_omap in Hin as (o & _ & Ho).
  destruct (operations s !! o) as [c|] eqn:Hc; [|discriminate].
  injection Ho as <-.
  rewrite Forall_lookup in Hr. specialize (Hr o c Hc). cbn beta in Hr.
  unfold stamped in Hr. destruct (op_status (operation c)).
  - contradiction.
  - split; [discriminate|]. split; split; congruence.
  - split; [discriminate|]. split; split; congruence.
Qed.

Lemma listed_operations_stamped_witness :
  reachable cfg3 probe_done
  /\ (op_status <$> sb_activeOperations (status_body probe_done)) = [completed]
  /\ forall op, In op (sb_activeOperations (status_body probe_done)) ->
                op_status op = completed <-> endTime op <> None.
Proof.
  assert (H : reachable cfg3 probe_done) by (exists probe; reflexivity).
  split; [exact H|]. split; [reflexivity|].
  intros op Hin. exact (proj1 (proj2 (listed_operations_stamped cfg3 probe_done op H Hin))).
Defined.

(** ** Notifications *)

Lemma no_admin_telegram cfg n : no_admin cfg -> sendTelegramMessageToAdmin cfg n = [].
Proof. unfold sendTelegramMessageToAdmin. now intros [-> | ->]. Qed.

Lemma quiet_andThen h1 h2 : quiet h1 -> quiet h2 -> quiet (h1 ;; h2).
Proof. intros H1 H2 s. rewrite snd_andThen, tally_app, H1, H2. reflexivity. Qed.

Lemma quiet_skip : quiet skip.
Proof. intros s. reflexivity. Qed.

Lemma quiet_update f : quiet (update f).
Proof. intros s. reflexivity. Qed.

Lemma quiet_schedule p : quiet (schedule p).
Proof. intros s. reflexivity. Qed.

Lemma quiet_clear k : quiet (clear k).
Proof. intros s. reflexivity. Qed.

Lemma quiet_emit e : is_notify e = false -> quiet (emit e).
Proof. intros H s. unfold tally. cbn. now rewrite H. Qed.

Lemma quiet_notify cfg n : no_admin cfg -> quiet (notify cfg n).
Proof. intros H s. unfold notify, emits. cbn [snd]. now rewrite no_admin_telegram. Qed.

Lemma quiet_emits es : tally is_notify es = 0 -> quiet (emits es).
Proof. intros H s. exact H. Qed.

Ltac quiet_step :=
  repeat first
    [ apply quiet_andThen | apply quiet_skip | apply quiet_update | apply quiet_schedule
    | apply quiet_clear | (apply quiet_notify; assumption)
    | (apply quiet_emit; reflexivity) ].

Lemma quiet_updateClientStatus id st qr : quiet (updateClientStatus id st qr).
Proof.
  intros s. unfold updateClientStatus.
  destruct (JsMap.get id (whatsappClients s)) as [a|]; [|reflexivity].
  revert s. change (quiet (update (with_managers (alter (set_status st) a)) ;;
         match qr with
         | Some q =>
             if negb (q =? "")%string then
               update (with_managers (alter (set_qrCode (Some q)) a)) ;;
               update (with_myCache (JsMap.set (qr_key id) q))
             else update (with_myCache (JsMap.delete (qr_key id)))
         | None => update (with_myCache (JsMap.delete (qr_key id)))
         end ;;
         if recreated_on st then
           emit (Console (log_reinitialize id st)) ;; schedule (Reinit id)
         else skip)).
  destruct qr as [q|]; [destruct (negb (q =? "")%string)|]; destruct (recreated_on st);
    quiet_step.
Qed.

Lemma quiet_after_destroy cfg k : no_admin cfg -> quiet (after_destroy cfg k).
Proof. intros H. destruct k; cbn [after_destroy]; quiet_step. Qed.

Lemma quiet_destroy cfg a k : no_admin cfg -> quiet (destroy cfg a k).
Proof.
  intros H s. unfold destroy.
  destruct (managers s !! a) as [m|]; [|reflexivity].
  destruct (client m).
  - revert s. change (quiet (emit (Call a c_destroy) ;; schedule (Destroying a k))). quiet_step.
  - now apply quiet_after_destroy.
Qed.

Lemma quiet_destroy_settled a r : quiet (destroy_settled a r).
Proof.
  intros s. unfold destroy_settled.
  destruct (managers s !! a) as [m|]; [|reflexivity].
  destruct r as [|e|e].
  - rewrite !snd_andThen, !tally_app, quiet_updateClientStatus. reflexivity.
  - reflexivity.
  - rewrite !snd_andThen, !tally_app, quiet_updateClientStatus. reflexivity.
Qed.

Lemma quiet_initializeWhatsAppClient cfg id : no_admin cfg -> quiet (initializeWhatsAppClient cfg id).
Proof.
  intros H. unfold initializeWhatsAppClient. apply quiet_andThen.
  - intros s. destruct (JsMap.get id (whatsappClients s)) as [a|]; [|reflexivity].
    rewrite !snd_andThen, !tally_app, quiet_destroy by assumption. reflexivity.
  - intros s. cbn zeta. rewrite !snd_andThen, !tally_app. reflexivity.
Qed.

Lemma quiet_startup_loop cfg n : no_admin cfg -> forall i, quiet (startup_loop cfg n i).
Proof.
  intros H. induction n as [|n IH]; intros i; cbn [startup_loop]; [apply quiet_skip|].
  apply quiet_andThen; [now apply quiet_initializeWhatsAppClient|apply IH].
Qed.

Lemma quiet_client_emits cfg a e : no_admin cfg -> quiet (client_emits cfg a e).
Proof.
  intros H s. unfold client_emits.
  destruct (managers s !! a) as [m|]; [|reflexivity]. cbn zeta.
  destruct e as [qr| | |msg|reason|message];
    rewrite !snd_andThen, !tally_app, ?quiet_updateClientStatus, ?quiet_destroy by assumption;
    unfold notify, emits; cbn [snd emit update]; rewrite ?no_admin_telegram by assumption;
    reflexivity.
Qed.

Lemma quiet_destroy_settles cfg k r : no_admin cfg -> quiet (destroy_settles cfg k r).
Proof.
  intros H s. unfold destroy_settles.
  destruct (waiting s !! k) as [[[ | | |a cont]|]|]; try reflexivity.
  rewrite !snd_andThen, !tally_app, quiet_destroy_settled, quiet_after_destroy by assumption.
  reflexivity.
Qed.

Lemma quiet_fires cfg k : no_admin cfg -> quiet (fires cfg k).
Proof.
  intros H s. unfold fires.
  destruct (waiting s !! k) as [[[id|oid|id|a cont]|]|]; try reflexivity.
  - rewrite !snd_andThen, !tally_app, quiet_initializeWhatsAppClient by assumption. reflexivity.
  - destruct (JsMap.get (qr_key id) (myCache s)) as [q|]; [|reflexivity].
    destruct (negb (q =? "")%string); reflexivity.
Qed.

Lemma quiet_join cfg now o : no_admin cfg -> quiet (join cfg now o).
Proof.
  intros H s. unfold join.
  destruct (operations s !! o) as [c|]; [|reflexivity].
  destruct (frame c) as [fr|]; [|reflexivity].
  destruct (forallb is_settled (clientPromises fr)); [|reflexivity].
  rewrite !snd_andThen, !tally_app, quiet_notify by assumption. reflexivity.
Qed.

Lemma quiet_task_step cfg fr a m at_ w :
  no_admin cfg -> tally is_notify (snd (task_step cfg fr a m at_ w)) = 0.
Proof.
  intros H.
  unfold task_step, enter_switch, answered, iteration, caught, after_switch,
    sendReport, sendMessage, addTargetToGroup, sendMessage_settled, addTargetToGroup_settled.
  destruct at_ as [|i|i], w as [|[|e|e]]; try reflexivity;
    destruct (ban_kind (f_banType fr)); try reflexivity;
    repeat match goal with
           | |- context [if ?b then _ else _] => destruct b
           end;
    cbn [snd]; rewrite ?no_admin_telegram by assumption; reflexivity.
Qed.

Lemma quiet_wake_task cfg now o j w : no_admin cfg -> quiet (wake_task cfg now o j w).
Proof.
  intros H s. unfold wake_task.
  destruct (operations s !! o) as [c|]; [|reflexivity].
  destruct (frame c) as [fr|]; [|reflexivity].
  destruct (clientPromises fr !! j) as [[|a at_]|]; try reflexivity.
  destruct (managers s !! a) as [m|]; [|reflexivity].
  pose proof (quiet_task_step cfg fr a m at_ w H) as Ht.
  destruct (task_step cfg fr a m at_ w) as [[|at'|u] es]; cbn [snd] in Ht.
  - reflexivity.
  - rewrite !snd_andThen, !tally_app. cbn [emits update snd]. now rewrite Ht.
  - rewrite !snd_andThen, !tally_app, quiet_join by assumption.
    cbn [emits update snd]. now rewrite Ht.
Qed.

Lemma quiet_post_ban cfg now target type rnd : no_admin cfg -> quiet (post_ban cfg now target type rnd).
Proof.
  intros H s. unfold post_ban.
  destruct (negb (truthy target) || negb (truthy type)); [reflexivity|].
  destruct (length (availableClients s) =? 0); [reflexivity|]. cbn zeta.
  rewrite !snd_andThen, !tally_app. unfold store_operation at 1. cbn zeta.
  rewrite !snd_andThen. cbn [update emit snd app].
  unfold executeBanStrategy.
  match goal with
  | |- context [JsMap.get ?k ?m] => destruct (JsMap.get k m) as [o|]; [|reflexivity]
  end.
  cbn zeta. rewrite !snd_andThen, !tally_app, quiet_notify, quiet_join by assumption.
  reflexivity.
Qed.

Lemma quiet_step_any cfg now ev : no_admin cfg -> quiet (step cfg now ev).
Proof.
  intros H. destruct ev as [| |id|target type rnd|a e|k|k r|o j|o j r|key]; cbn [step].
  - intros s. reflexivity.
  - intros s. unfold post_add. cbn zeta.
    rewrite !snd_andThen, !tally_app, quiet_initializeWhatsAppClient by assumption. reflexivity.
  - intros s. unfold post_remove. destruct id as [| | | |k|]; try reflexivity.
    destruct (JsMap.get k (whatsappClients s)) as [a|]; [|reflexivity].
    now apply quiet_destroy.
  - now apply quiet_post_ban.
  - now apply quiet_client_emits.
  - now apply quiet_fires.
  - now apply quiet_destroy_settles.
  - now apply quiet_wake_task.
  - now apply quiet_wake_task.
  - apply quiet_update.
Qed.

Lemma quiet_run cfg evs : no_admin cfg -> quiet (run cfg evs).
Proof.
  intros H. induction evs as [|[now ev] evs IH]; cbn [run]; [apply quiet_skip|].
  apply quiet_andThen; [now apply quiet_step_any|exact IH].
Qed.

(** X12: when [ADMIN_TELEGRAM_ID] is unset (or parses to
    [0]), [sendTelegramMessageToAdmin] does nothing, so neither the start of
    the program nor any run of the event loop sends a message to the
    administrator, whatever fails or completes. *)
Theorem no_admin_no_notification (cfg : Config) (evs : list (Z * Event)) (s : State) :
  no_admin cfg ->
  tally is_notify (snd (startup cfg)) = 0
  /\ tally is_notify (snd (run cfg evs s)) = 0.
Proof.
  intros H. split.
  - unfold startup. now apply quiet_startup_loop.
  - now apply quiet_run.
Qed.

Lemma no_admin_no_notification_witness :
  no_admin cfg3
  /\ tally is_notify (snd (run cfg3 probe (fst (startup cfg3)))) = 0.
Proof.
  assert (H : no_admin cfg3) by (left; reflexivity).
  split; [exact H|].
  exact (proj2 (no_admin_no_notification cfg3 probe (fst (startup cfg3)) H)).
Defined.

(** ** A rejected promise *)

Lemma calls_join cfg now o s : calls (snd (join cfg now o s)) = [].
Proof.
  unfold join.
  destruct (operations s !! o) as [c|]; [|reflexivity].
  destruct (frame c) as [fr|]; [|reflexivity].
  destruct (forallb is_settled (clientPromises fr)); [|reflexivity].
  rewrite !snd_andThen, !calls_app. unfold notify, emits. cbn [snd update schedule].
  now rewrite calls_telegram.
Qed.

(** X13: when the promise a task awaits from the connection is
    rejected, the task ends there: its client is recorded as failed with the
    message of the error, its promise is settled, the failure is logged,
    and the connection is not called again for it. *)
Theorem rejected_answer_fails_the_task
        (cfg : Config) (now : Z) (o j : nat) (s : State) (c : OpCell) (fr : Frame)
        (a : addr) (i : nat) (m : WhatsAppClientManager) (e : string) :
  operations s !! o = Some c -> frame c = Some fr ->
  clientPromises fr !! j = Some (Running a (Answer i)) ->
  managers s !! a = Some m ->
  ban_kind (f_banType fr) = MESSAGE_DELUGE \/ ban_kind (f_banType fr) = GROUP_POISON ->
  let msg := rejection_message (f_banType fr) e in
  let r := step cfg now (TaskAnswer o j (rejected e)) s in
  exists c', operations (fst r) !! o = Some c'
    /\ clientsUsed (operation c') = clientsUsed (operation c) ++ [failed (clientId m) msg]
    /\ promises_of c' = <[j := Settled]> (clientPromises fr)
    /\ calls (snd r) = []
    /\ In (Console (error_client_failed (clientId m) (f_targetNumber fr) (f_banType fr) msg))
          (snd r).
Proof.
  intros Hc Hfr Hj Hm Hkind msg r. subst r. cbn [step].
  assert (Hstep : exists es,
             task_step cfg fr a m (Answer i) (settles (rejected e))
             = (Finish (failed (clientId m) msg),
                es ++ [Console (error_client_failed (clientId m) (f_targetNumber fr)
                                                    (f_banType fr) msg)]
                   ++ sendTelegramMessageToAdmin cfg
                        (n_client_failed (clientId m) (f_targetNumber fr) (f_banType fr) msg))
             /\ calls es = []).
  { subst msg. unfold rejection_message. cbn [task_step]. unfold answered.
    destruct Hkind as [-> | ->]; cbn; eexists; (split; [reflexivity|reflexivity]). }
  destruct Hstep as (es & Hstep & Hes).
  exists (wake_cell cfg (managers s) now j (settles (rejected e)) c). split.
  { now rewrite wake_task_operations, list_lookup_alter_eq, Hc. }
  unfold wake_cell. rewrite Hfr, Hj, Hm, Hstep.
  rewrite clientsUsed_join_cell, promises_of_join_cell.
  split; [reflexivity|]. split.
  { rewrite promises_of_on_promises. cbn [on_operation frame]. rewrite Hfr.
    unfold promises_of. cbn [on_operation frame]. now rewrite Hfr. }
  unfold wake_task. rewrite Hc, Hfr, Hj, Hm, Hstep.
  rewrite !snd_andThen. cbn [emits update snd app]. split.
  - rewrite !calls_app, calls_join, Hes.
    change (calls (Console ?l :: ?es)) with (calls es). now rewrite calls_telegram.
  - apply in_or_app. left. apply in_or_app. right. now left.
Qed.

Lemma rejected_answer_fails_the_task_witness :
  promise_at deluge_running 0 0 = Some (Running 0 (Answer 0))
  /\ exists c',
      operations (fst (step cfg3 6 (TaskAnswer 0 0 (rejected "boom")) deluge_running)) !! 0
      = Some c'
      /\ clientsUsed (operation c') = [failed "client_1" "boom"]
      /\ promises_of c' = [Settled; Running 1 Jitter; Running 2 Jitter].
Proof.
  split; [reflexivity|].
  destruct (rejected_answer_fails_the_task cfg3 6 0 0 deluge_running
              {| operation :=
                   {| op_id := "op_4_k3x"; targetNumber := JStr "T1";
                      banType := JStr "MESSAGE_DELUGE"; op_status := in_progress;
                      clientsUsed := []; startTime := 4; endTime := None |};
                 frame :=
                   Some {| f_operationId := "op_4_k3x"; f_targetNumber := JStr "T1";
                           f_banType := JStr "MESSAGE_DELUGE"; f_clients := [0; 1; 2];
                           clientPromises :=
                             [Running 0 (Answer 0); Running 1 Jitter; Running 2 Jitter] |} |}
              {| f_operationId := "op_4_k3x"; f_targetNumber := JStr "T1";
                 f_banType := JStr "MESSAGE_DELUGE"; f_clients := [0; 1; 2];
                 clientPromises := [Running 0 (Answer 0); Running 1 Jitter; Running 2 Jitter] |}
              0 0
              {| clientId := "client_1"; qrCode := None; client := true; status := "ready" |}
              "boom" eq_refl eq_refl eq_refl eq_refl (or_introl eq_refl))
    as (c' & Hc & Hu & Hp & _).
  exists c'. split; [exact Hc|]. split; [exact Hu|exact Hp].
Defined.

(** ** Retention of operations *)

Lemma purges_kept_refl s : purges_kept s s.
Proof. intros k id H. exact H. Qed.

Lemma purges_kept_trans s1 s2 s3 : purges_kept s1 s2 -> purges_kept s2 s3 -> purges_kept s1 s3.
Proof. intros H1 H2 k id H. apply H2, H1, H. Qed.

Lemma purges_kept_app s s' extra : waiting s' = waiting s ++ extra -> purges_kept s s'.
Proof. intros E k id H. rewrite E. now apply lookup_app_l_Some. Qed.

Lemma purges_kept_clear s k p :
  waiting s !! k = Some p -> (forall id, p <> Some (Purge id)) ->
  purges_kept s (with_waiting (fun w => <[k := None]> w) s).
Proof.
  intros Hk Hp k' id H. cbn [waiting with_waiting].
  destruct (decide (k = k')) as [->|Hne].
  - rewrite Hk in H. injection H as ->. now destruct (Hp id).
  - now rewrite list_lookup_insert_ne.
Qed.

Lemma keeps_retention_andThen h1 h2 :
  keeps_retention h1 -> keeps_retention h2 -> keeps_retention (h1 ;; h2).
Proof.
  intros H1 H2 s. rewrite fst_andThen.
  destruct (H1 s) as (Ho1 & Ha1 & Hp1). destruct (H2 (fst (h1 s))) as (Ho2 & Ha2 & Hp2).
  split; [congruence|]. split; [congruence|]. eapply purges_kept_trans; eauto.
Qed.

Lemma keeps_retention_same h : (forall s, waiting (fst (h s)) = waiting s
                                          /\ operations (fst (h s)) = operations s
                                          /\ activeOperations (fst (h s)) = activeOperations s) ->
                               keeps_retention h.
Proof.
  intros H s. destruct (H s) as (Hw & Ho & Ha). split; [exact Ho|]. split; [exact Ha|].
  apply (purges_kept_app _ _ []). now rewrite app_nil_r.
Qed.

Lemma keeps_retention_skip : keeps_retention skip.
Proof. apply keeps_retention_same. intros s. repeat split. Qed.

Lemma keeps_retention_emit e : keeps_retention (emit e).
Proof. apply keeps_retention_same. intros s. repeat split. Qed.

Lemma keeps_retention_emits es : keeps_retention (emits es).
Proof. apply keeps_retention_same. intros s. repeat split. Qed.

Lemma keeps_retention_notify cfg n : keeps_retention (notify cfg n).
Proof. apply keeps_retention_same. intros s. repeat split. Qed.

Lemma keeps_retention_managers f : keeps_retention (update (with_managers f)).
Proof. apply keeps_retention_same. intros s. repeat split. Qed.

Lemma keeps_retention_whatsappClients f : keeps_retention (update (with_whatsappClients f)).
Proof. apply keeps_retention_same. intros s. repeat split. Qed.

Lemma keeps_retention_myCache f : keeps_retention (update (with_myCache f)).
Proof. apply keeps_retention_same. intros s. repeat split. Qed.

Lemma keeps_retention_schedule p : keeps_retention (schedule p).
Proof.
  intros s. split; [reflexivity|]. split; [reflexivity|].
  now apply (purges_kept_app _ _ [Some p]).
Qed.

Ltac retention :=
  repeat first
    [ apply keeps_retention_andThen | apply keeps_retention_skip | apply keeps_retention_emit
    | apply keeps_retention_emits | apply keeps_retention_notify
    | apply keeps_retention_managers | apply keeps_retention_whatsappClients
    | apply keeps_retention_myCache | apply keeps_retention_schedule ].

Lemma keeps_retention_case (h : Handler) :
  (forall s, exists h', h s = h' s /\ keeps_retention h') -> keeps_retention h.
Proof. intros H s. destruct (H s) as (h' & -> & Hh). apply Hh. Qed.

Lemma updateClientStatus_retention id st qr : keeps_retention (updateClientStatus id st qr).
Proof.
  apply keeps_retention_case. intros s. unfold updateClientStatus.
  destruct (JsMap.get id (whatsappClients s)) as [a|].
  - eexists. split; [reflexivity|].
    destruct qr as [q|]; [destruct (negb (q =? "")%string)|]; destruct (recreated_on st);
      retention.
  - exists skip. split; [reflexivity|apply keeps_retention_skip].
Qed.

Lemma after_destroy_retention cfg k : keeps_retention (after_destroy cfg k).
Proof. destruct k; cbn [after_destroy]; retention. Qed.

Lemma destroy_retention cfg a k : keeps_retention (destroy cfg a k).
Proof.
  apply keeps_retention_case. intros s. unfold destroy.
  destruct (managers s !! a) as [m|]; [destruct (client m)|].
  - eexists. split; [reflexivity|]. retention.
  - eexists. split; [reflexivity|]. apply after_destroy_retention.
  - exists skip. split; [reflexivity|apply keeps_retention_skip].
Qed.

Lemma destroy_settled_retention a r : keeps_retention (destroy_settled a r).
Proof.
  apply keeps_retention_case. intros s. unfold destroy_settled.
  destruct (managers s !! a) as [m|]; [destruct r as [|e|e]|].
  - eexists. split; [reflexivity|]. retention. apply updateClientStatus_retention.
  - eexists. split; [reflexivity|]. retention.
  - eexists. split; [reflexivity|]. retention. apply updateClientStatus_retention.
  - exists skip. split; [reflexivity|apply keeps_retention_skip].
Qed.

Lemma initializeWhatsAppClient_retention cfg id : keeps_retention (initializeWhatsAppClient cfg id).
Proof.
  unfold initializeWhatsAppClient. apply keeps_retention_andThen.
  - apply keeps_retention_case. intros s.
    destruct (JsMap.get id (whatsappClients s)) as [a|].
    + eexists. split; [reflexivity|]. retention. apply destroy_retention.
    + exists skip. split; [reflexivity|apply keeps_retention_skip].
  - apply keeps_retention_case. intros s. eexists. split; [reflexivity|]. retention.
Qed.

Lemma client_emits_retention cfg a e : keeps_retention (client_emits cfg a e).
Proof.
  apply keeps_retention_case. intros s. unfold client_emits.
  destruct (managers s !! a) as [m|].
  - cbn zeta. destruct e as [qr| | |msg|reason|message];
      (eexists; split; [reflexivity|]); retention;
      first [apply updateClientStatus_retention | apply destroy_retention].
  - exists skip. split; [reflexivity|apply keeps_retention_skip].
Qed.

Lemma post_add_retention cfg : keeps_retention (post_add cfg).
Proof.
  apply keeps_retention_case. intros s. unfold post_add. cbn zeta.
  eexists. split; [reflexivity|]. retention. apply initializeWhatsAppClient_retention.
Qed.

Lemma post_remove_retention cfg id : keeps_retention (post_remove cfg id).
Proof.
  apply keeps_retention_case. intros s. unfold post_remove.
  destruct id as [| | | |k|]; try (eexists; split; [reflexivity|]; retention).
  destruct (JsMap.get k (whatsappClients s)) as [a|].
  - eexists. split; [reflexivity|]. apply destroy_retention.
  - eexists. split; [reflexivity|]. retention.
Qed.

Lemma clear_retention k p s :
  waiting s !! k = Some p -> (forall id, p <> Some (Purge id)) ->
  operations (fst (clear k s)) = operations s
  /\ activeOperations (fst (clear k s)) = activeOperations s
  /\ purges_kept s (fst (clear k s)).
Proof.
  intros Hk Hp. split; [reflexivity|]. split; [reflexivity|].
  eapply purges_kept_clear; eauto.
Qed.

Lemma after_clear_retention k p (h : Handler) s :
  waiting s !! k = Some p -> (forall id, p <> Some (Purge id)) ->
  keeps_retention h ->
  operations (fst ((clear k ;; h) s)) = operations s
  /\ activeOperations (fst ((clear k ;; h) s)) = activeOperations s
  /\ purges_kept s (fst ((clear k ;; h) s)).
Proof.
  intros Hk Hp Hh. rewrite fst_andThen.
  destruct (clear_retention k p s Hk Hp) as (Ho1 & Ha1 & Hp1).
  destruct (Hh (fst (clear k s))) as (Ho2 & Ha2 & Hp2).
  split; [congruence|]. split; [congruence|]. eapply purges_kept_trans; eauto.
Qed.

Lemma destroy_settles_retention cfg k r : keeps_retention (destroy_settles cfg k r).
Proof.
  intros s. unfold destroy_settles.
  destruct (waiting s !! k) as [[[id|oid|id|a cont]|]|] eqn:Hk;
    try (split; [reflexivity|split; [reflexivity|apply purges_kept_refl]]).
  apply (after_clear_retention k _ _ s Hk); [discriminate|].
  retention; [apply destroy_settled_retention|apply after_destroy_retention].
Qed.

Lemma get_delete_Some {V} k k' (m : list (string * V)) v :
  JsMap.get k (JsMap.delete k' m) = Some v -> k <> k' /\ JsMap.get k m = Some v.
Proof.
  intros H. destruct (String.eqb_spec k k') as [->|Hne].
  - now rewrite JsMapFacts.get_delete_eq in H.
  - split; [exact Hne|]. now rewrite JsMapMore.get_delete_ne in H.
Qed.

Lemma join_waiting cfg now o s :
  waiting (fst (join cfg now o s))
  = waiting s
      ++ match operations s !! o with
         | Some c =>
             match frame c with
             | Some fr =>
                 if forallb is_settled (clientPromises fr)
                 then [Some (Purge (f_operationId fr))] else []
             | None => []
             end
         | None => []
         end.
Proof.
  unfold join.
  destruct (operations s !! o) as [c|]; [|now rewrite app_nil_r].
  destruct (frame c) as [fr|]; [|now rewrite app_nil_r].
  destruct (forallb is_settled (clientPromises fr)); [|now rewrite app_nil_r].
  rewrite !fst_andThen. reflexivity.
Qed.

Lemma wake_task_waiting cfg now o j w s :
  exists extra, waiting (fst (wake_task cfg now o j w s)) = waiting s ++ extra.
Proof.
  unfold wake_task.
  destruct (operations s !! o) as [c|]; [|exists []; now rewrite app_nil_r].
  destruct (frame c) as [fr|]; [|exists []; now rewrite app_nil_r].
  destruct (clientPromises fr !! j) as [[|a at_]|]; try (exists []; now rewrite app_nil_r).
  destruct (managers s !! a) as [m|]; [|exists []; now rewrite app_nil_r].
  destruct (task_step cfg fr a m at_ w) as [[|at'|u] es].
  - exists []. now rewrite app_nil_r.
  - exists []. rewrite !fst_andThen. cbn. now rewrite app_nil_r.
  - rewrite !fst_andThen, join_waiting. eauto.
Qed.

Lemma wake_task_activeOperations cfg now o j w s :
  activeOperations (fst (wake_task cfg now o j w s)) = activeOperations s.
Proof.
  unfold wake_task. break_matches; try reflexivity.
  rewrite !fst_andThen. now rewrite join_activeOperations.
Qed.

(** The step that completes a record sets the timer that deletes it. *)
Lemma wake_task_completes cfg now o j w s c :
  operations s !! o = Some c ->
  op_status (operation c) <> completed ->
  op_status (operation (wake_cell cfg (managers s) now j w c)) = completed ->
  exists fr k, frame c = Some fr
               /\ waiting (fst (wake_task cfg now o j w s)) !! k
                  = Some (Some (Purge (f_operationId fr))).
Proof.
  intros Hc Hnot Hdone. unfold wake_cell in Hdone. unfold wake_task. rewrite Hc.
  destruct (frame c) as [fr|] eqn:Hfr; [|congruence].
  destruct (clientPromises fr !! j) as [[|a at_]|] eqn:Hj; try congruence.
  destruct (managers s !! a) as [m|]; [|congruence].
  destruct (task_step cfg fr a m at_ w) as [[|at'|u] es];
    [congruence|cbn [on_promises operation] in Hdone; congruence|].
  exists fr, (length (waiting s)). split; [reflexivity|].
  rewrite !fst_andThen, join_waiting. cbn [emits update fst operations waiting with_operations].
  rewrite list_lookup_alter_eq, Hc. cbn [fmap option_fmap option_map on_promises on_operation frame].
  rewrite Hfr. cbn [fmap option_fmap option_map clientPromises f_operationId].
  unfold join_cell in Hdone. cbn [on_promises on_operation frame operation] in Hdone.
  rewrite Hfr in Hdone. cbn [fmap option_fmap option_map clientPromises] in Hdone.
  destruct (forallb is_settled (<[j:=Settled]> (clientPromises fr))).
  - rewrite lookup_app_r by lia. now rewrite Nat.sub_diag.
  - cbn in Hdone. congruence.
Qed.

Lemma wake_cell_id cfg ms now j w c :
  op_id (operation (wake_cell cfg ms now j w c)) = op_id (operation c)
  /\ (f_operationId <$> frame (wake_cell cfg ms now j w c)) = (f_operationId <$> frame c).
Proof.
  unfold wake_cell.
  destruct (frame c) as [fr|] eqn:Hfr; [|now rewrite Hfr].
  destruct (clientPromises fr !! j) as [[|a at_]|]; try now rewrite Hfr.
  destruct (ms !! a) as [m|]; [|now rewrite Hfr].
  destruct (task_step cfg fr a m at_ w) as [[|at'|u] es].
  - now rewrite Hfr.
  - cbn. now rewrite Hfr.
  - rewrite frame_join_cell. unfold join_cell. cbn [on_promises on_operation frame operation].
    rewrite Hfr. cbn [fmap option_fmap option_map clientPromises].
    destruct (forallb is_settled _); split; reflexivity.
Qed.

Lemma wake_task_retention cfg now o j w s :
  listed_ok s /\ purge_pending s ->
  listed_ok (fst (wake_task cfg now o j w s)) /\ purge_pending (fst (wake_task cfg now o j w s)).
Proof.
  intros [Hl Hp].
  destruct (wake_task_waiting cfg now o j w s) as (extra & Hw).
  pose proof (purges_kept_app _ _ _ Hw) as Hkept.
  split.
  - intros id o' Hget. rewrite wake_task_activeOperations in Hget.
    destruct (Hl id o' Hget) as (c & Hc & Hid & Hfr).
    rewrite wake_task_operations.
    destruct (decide (o = o')) as [->|Hne].
    + exists (wake_cell cfg (managers s) now j w c).
      rewrite list_lookup_alter_eq, Hc. split; [reflexivity|].
      destruct (wake_cell_id cfg (managers s) now j w c) as (E1 & E2).
      split; [congruence|]. intros fr' Hfr'. rewrite Hfr' in E2.
      destruct (frame c) as [fr|]; [|discriminate]. injection E2 as ->. now apply Hfr.
    + exists c. rewrite list_lookup_alter_ne by assumption. auto.
  - intros id o' c' Hget Hc' Hdone. rewrite wake_task_activeOperations in Hget.
    rewrite wake_task_operations in Hc'.
    destruct (decide (o = o')) as [->|Hne].
    + destruct (Hl id o' Hget) as (c & Hc & Hid & Hfr).
      rewrite list_lookup_alter_eq, Hc in Hc'. injection Hc' as <-.
      assert (Hdec : op_status (operation c) = completed
                     \/ op_status (operation c) <> completed)
        by (destruct (op_status (operation c)); [right|right|left]; congruence).
      destruct Hdec as [Hwas|Hnot].
      * destruct (Hp id o' c Hget Hc Hwas) as (k & Hk). exists k. now apply Hkept.
      * destruct (wake_task_completes cfg now o' j w s c Hc Hnot Hdone) as (fr & k & Hf & Hk).
        exists k. now rewrite <- (Hfr fr Hf).
    + rewrite list_lookup_alter_ne in Hc' by assumption.
      destruct (Hp id o' c' Hget Hc' Hdone) as (k & Hk). exists k. now apply Hkept.
Qed.

Lemma keeps_retention_invariant h s :
  keeps_retention h ->
  listed_ok s /\ purge_pending s ->
  listed_ok (fst (h s)) /\ purge_pending (fst (h s)).
Proof.
  intros Hh [Hl Hp]. destruct (Hh s) as (Ho & Ha & Hk). split.
  - intros id o Hget. rewrite Ha in Hget. rewrite Ho. now apply Hl.
  - intros id o c Hget Hc Hdone. rewrite Ha in Hget. rewrite Ho in Hc.
    destruct (Hp id o c Hget Hc Hdone) as (k & H). exists k. now apply Hk.
Qed.

Lemma post_ban_waiting cfg now target type rnd s :
  accepted target type s ->
  waiting (fst (post_ban cfg now target type rnd s))
  = waiting s
      ++ if forallb is_settled
              (promises_of (submitted_cell cfg now (make_operationId now rnd) target type
                                           (availableClients s)))
         then [Some (Purge (make_operationId now rnd))] else [].
Proof.
  intros Hacc. rewrite post_ban_accepted by assumption.
  assert (Hrhs : promises_of (submitted_cell cfg now (make_operationId now rnd) target type
                                             (availableClients s))
                 = map (fun c => Running c Jitter) (select_clients cfg 0 (availableClients s))).
  { unfold submitted_cell. now rewrite promises_of_join_cell. }
  rewrite Hrhs.
  rewrite !fst_andThen. unfold executeBanStrategy. cbn.
  rewrite JsMapFacts.get_set_eq. rewrite !fst_andThen, join_waiting.
  cbn [update fst notify emits operations waiting with_operations with_activeOperations].
  rewrite !list_lookup_alter_eq.
  rewrite lookup_app_r by lia. rewrite Nat.sub_diag.
  reflexivity.
Qed.

Lemma post_ban_rejected cfg now target type rnd s :
  ~ accepted target type s -> fst (post_ban cfg now target type rnd s) = s.
Proof.
  intros Hn. unfold post_ban.
  destruct (truthy target) eqn:Ht; [destruct (truthy type) eqn:Hb|]; try reflexivity.
  cbn [negb orb]. destruct (availableClients s) as [|a l] eqn:Ha; [reflexivity|].
  exfalso. apply Hn. repeat split; auto. congruence.
Qed.

Lemma post_ban_retention cfg now target type rnd s :
  listed_ok s /\ purge_pending s ->
  listed_ok (fst (post_ban cfg now target type rnd s))
  /\ purge_pending (fst (post_ban cfg now target type rnd s)).
Proof.
  intros [Hl Hp].
  assert (Hdec : accepted target type s \/ ~ accepted target type s).
  { unfold accepted. destruct (truthy target), (truthy type), (availableClients s);
      first [left; repeat split; congruence | right; intros (? & ? & ?); congruence]. }
  destruct Hdec as [Hacc|Hn]; [|rewrite post_ban_rejected by assumption; now split].
  pose proof (post_ban_operations cfg now target type rnd s Hacc) as Ho.
  pose proof (post_ban_activeOperations cfg now target type rnd s Hacc) as Ha.
  pose proof (post_ban_waiting cfg now target type rnd s Hacc) as Hw.
  pose proof (purges_kept_app _ _ _ Hw) as Hkept.
  set (id0 := make_operationId now rnd) in *.
  set (c0 := submitted_cell cfg now id0 target type (availableClients s)) in *.
  split.
  - intros id o Hget. rewrite Ha in Hget. rewrite Ho.
    destruct (String.eqb_spec id id0) as [->|Hne].
    + rewrite JsMapFacts.get_set_eq in Hget. injection Hget as <-.
      exists c0. rewrite lookup_app_r by lia. rewrite Nat.sub_diag. split; [reflexivity|].
      split; [apply submitted_cell_id|].
      intros fr Hfr. subst c0. unfold submitted_cell in Hfr. rewrite frame_join_cell in Hfr.
      cbn in Hfr. injection Hfr as <-. reflexivity.
    + rewrite JsMapMore.get_set_ne in Hget by assumption.
      destruct (Hl id o Hget) as (c & Hc & H). exists c.
      split; [now apply lookup_app_l_Some|exact H].
  - intros id o c Hget Hc Hdone. rewrite Ha in Hget. rewrite Ho in Hc.
    destruct (String.eqb_spec id id0) as [->|Hne].
    + rewrite JsMapFacts.get_set_eq in Hget. injection Hget as <-.
      rewrite lookup_app_r in Hc by lia. rewrite Nat.sub_diag in Hc. injection Hc as <-.
      unfold c0, submitted_cell in Hdone, Hw.
      rewrite op_status_join_cell in Hdone by discriminate.
      rewrite promises_of_join_cell in Hw.
      destruct (forallb is_settled _) in Hdone, Hw; [|discriminate].
      exists (length (waiting s)). rewrite Hw, lookup_app_r by lia. now rewrite Nat.sub_diag.
    + rewrite JsMapMore.get_set_ne in Hget by assumption.
      destruct (Hl id o Hget) as (c' & Hc' & _).
      rewrite (lookup_app_l_Some _ _ _ _ Hc') in Hc. injection Hc as <-.
      destruct (Hp id o c' Hget Hc' Hdone) as (k & Hk). exists k. now apply Hkept.
Qed.

Lemma frame_invariant s s' :
  operations s' = operations s ->
  activeOperations s' = activeOperations s ->
  purges_kept s s' ->
  listed_ok s /\ purge_pending s ->
  listed_ok s' /\ purge_pending s'.
Proof.
  intros Ho Ha Hk [Hl Hp]. split.
  - intros id o Hget. rewrite Ha in Hget. rewrite Ho. now apply Hl.
  - intros id o c Hget Hc Hdone. rewrite Ha in Hget. rewrite Ho in Hc.
    destruct (Hp id o c Hget Hc Hdone) as (k & H). exists k. now apply Hk.
Qed.

Lemma fires_retention cfg k s :
  listed_ok s /\ purge_pending s ->
  listed_ok (fst (fires cfg k s)) /\ purge_pending (fst (fires cfg k s)).
Proof.
  intros Hinv. unfold fires.
  destruct (waiting s !! k) as [[[id|oid|id|a cont]|]|] eqn:Hk; try exact Hinv.
  - destruct (after_clear_retention k _ (initializeWhatsAppClient cfg id) s Hk)
      as (Ho & Ha & Hp); [discriminate|apply initializeWhatsAppClient_retention|].
    now apply (frame_invariant s).
  - destruct Hinv as [Hl Hp]. rewrite fst_andThen.
    cbn [clear update fst]. split.
    + intros id o Hget. cbn [activeOperations with_activeOperations with_waiting] in Hget.
      apply get_delete_Some in Hget as [_ Hget]. now apply Hl.
    + intros id o c Hget Hc Hdone.
      cbn [activeOperations with_activeOperations with_waiting] in Hget.
      apply get_delete_Some in Hget as [Hne Hget].
      destruct (Hp id o c Hget Hc Hdone) as (k' & Hk'). exists k'.
      cbn [waiting with_activeOperations with_waiting].
      rewrite list_lookup_insert_ne; [exact Hk'|]. intros ->. congruence.
  - destruct (JsMap.get (qr_key id) (myCache s)) as [q|]; [|exact Hinv].
    destruct (negb (q =? "")%string); [|exact Hinv].
    destruct (after_clear_retention k _ (emit (Respond 200 (b_added id q))) s Hk)
      as (Ho & Ha & Hp); [discriminate|apply keeps_retention_emit|].
    now apply (frame_invariant s).
Qed.

Lemma step_retention cfg now ev s :
  listed_ok s /\ purge_pending s ->
  listed_ok (fst (step cfg now ev s)) /\ purge_pending (fst (step cfg now ev s)).
Proof.
  intros Hinv.
  destruct ev as [| |id|target type rnd|a e|k|k r|o j|o j r|key]; cbn [step].
  - exact Hinv.
  - now apply keeps_retention_invariant; [apply post_add_retention|].
  - now apply keeps_retention_invariant; [apply post_remove_retention|].
  - now apply post_ban_retention.
  - now apply keeps_retention_invariant; [apply client_emits_retention|].
  - now apply fires_retention.
  - now apply keeps_retention_invariant; [apply destroy_settles_retention|].
  - now apply wake_task_retention.
  - now apply wake_task_retention.
  - now apply keeps_retention_invariant; [apply keeps_retention_myCache|].
Qed.

Lemma run_retention cfg evs : forall s,
  listed_ok s /\ purge_pending s ->
  listed_ok (fst (run cfg evs s)) /\ purge_pending (fst (run cfg evs s)).
Proof.
  induction evs as [|[now ev] evs IH]; intros s H; [exact H|].
  cbn [run]. rewrite fst_andThen. apply IH, step_retention, H.
Qed.

Lemma startup_loop_retention cfg n : forall i, keeps_retention (startup_loop cfg n i).
Proof.
  induction n as [|n IH]; intros i; cbn [startup_loop]; [apply keeps_retention_skip|].
  apply keeps_retention_andThen; [apply initializeWhatsAppClient_retention|apply IH].
Qed.

Lemma reachable_retention cfg s : reachable cfg s -> listed_ok s /\ purge_pending s.
Proof.
  intros [evs ->]. apply run_retention. unfold startup.
  apply keeps_retention_invariant; [apply startup_loop_retention|].
  split.
  - intros id o H. discriminate.
  - intros id o c H. discriminate.
Qed.

(** X14: in every state the program reaches, every key of
    [activeOperations] leads to a record that carries the key as its
    identifier, and if that record is completed the timer that deletes the
    key is pending: a completed operation is listed only until its timer
    fires. *)
Theorem completed_operations_await_purge (cfg : Config) (s : State) (id : string) (o : addr) :
  reachable cfg s ->
  JsMap.get id (activeOperations s) = Some o ->
  exists c, operations s !! o = Some c
            /\ op_id (operation c) = id
            /\ (op_status (operation c) = completed ->
                exists k, waiting s !! k = Some (Some (Purge id))
                          /\ JsMap.get id (activeOperations (fst (fires cfg k s))) = None).
Proof.
  intros Hr Hget. destruct (reachable_retention cfg s Hr) as [Hl Hp].
  destruct (Hl id o Hget) as (c & Hc & Hid & _). exists c.
  split; [exact Hc|]. split; [exact Hid|]. intros Hdone.
  destruct (Hp id o c Hget Hc Hdone) as (k & Hk). exists k. split; [exact Hk|].
  unfold fires. rewrite Hk, fst_andThen. apply JsMapFacts.get_delete_eq.
Qed.

Lemma completed_operations_await_purge_witness :
  reachable cfg3 probe_done
  /\ JsMap.get "op_4_k3x" (activeOperations probe_done) = Some 0
  /\ exists c, operations probe_done !! 0 = Some c
               /\ op_id (operation c) = "op_4_k3x"
               /\ (op_status (operation c) = completed ->
                   exists k, waiting probe_done !! k = Some (Some (Purge "op_4_k3x"))
                             /\ JsMap.get "op_4_k3x"
                                  (activeOperations (fst (fires cfg3 k probe_done))) = None).
Proof.
  assert (H : reachable cfg3 probe_done) by (exists probe; reflexivity).
  split; [exact H|]. split; [reflexivity|].
  exact (completed_operations_await_purge cfg3 probe_done "op_4_k3x" 0 H eq_refl).
Defined.

(** ** Status by identity *)

Lemma has_status_set st x ms mx :
  ms !! x = Some mx -> has_status st x (alter (set_status st) x ms).
Proof. intros H. exists (set_status st mx). now rewrite list_lookup_alter_eq, H. Qed.

Lemma has_status_alter_status st x y ms :
  has_status st x ms -> has_status st x (alter (set_status st) y ms).
Proof.
  intros (mx & H & Hst). destruct (decide (y = x)) as [->|Hne].
  - exists (set_status st mx). now rewrite list_lookup_alter_eq, H.
  - exists mx. now rewrite list_lookup_alter_ne.
Qed.

Lemma has_status_alter_qrCode st q x y ms :
  has_status st x ms -> has_status st x (alter (set_qrCode q) y ms).
Proof.
  intros (mx & H & Hst). destruct (decide (y = x)) as [->|Hne].
  - exists (set_qrCode q mx). now rewrite list_lookup_alter_eq, H.
  - exists mx. now rewrite list_lookup_alter_ne.
Qed.

Lemma is_Some_alter {A} (f : A -> A) x y (l : list A) :
  is_Some (l !! x) -> is_Some (alter f y l !! x).
Proof.
  intros [v H]. destruct (decide (y = x)) as [->|Hne].
  - exists (f v). now rewrite list_lookup_alter_eq, H.
  - exists v. now rewrite list_lookup_alter_ne.
Qed.

(** The status callback gives the status to the registered manager and
    leaves it with every manager that has it already. *)
Lemma status_callback_status id cur st qr s x :
  JsMap.get id (whatsappClients s) = Some cur ->
  (x = cur /\ is_Some (managers s !! x)) \/ has_status st x (managers s) ->
  has_status st x (managers (fst (updateClientStatus id st qr s))).
Proof.
  intros Hget Hx.
  destruct (updateClientStatus_registered id cur st qr s Hget) as (_ & Hms & _).
  cbn zeta in Hms. rewrite Hms.
  assert (H1 : has_status st x (alter (set_status st) cur (managers s))).
  { destruct Hx as [[-> [mx Hmx]]|Hx].
    - eapply has_status_set; eauto.
    - now apply has_status_alter_status. }
  destruct (truthy_detail qr); [now apply has_status_alter_qrCode|exact H1].
Qed.

Lemma client_emits_status cfg a m cur e s x :
  managers s !! a = Some m ->
  JsMap.get (clientId m) (whatsappClients s) = Some cur ->
  is_Some (managers s !! cur) ->
  x = a \/ x = cur ->
  has_status (reported e) x (managers (fst (client_emits cfg a e s))).
Proof.
  intros Hm Hget Hcur Hx. unfold client_emits. rewrite Hm. cbn zeta.
  destruct e as [qr| | |msg|reason|message]; cbn [reported];
    rewrite ?fst_andThen; cbn [emit update fst notify emits];
    rewrite ?destroy_detached_managers;
    (apply (status_callback_status _ cur); [exact Hget|]);
    cbn [managers with_managers];
    (destruct Hx as [-> | ->];
     [ right; repeat first [ apply has_status_alter_qrCode
                           | eapply has_status_set; eassumption
                           | eapply has_status_set; rewrite list_lookup_alter_eq, Hm; reflexivity ]
     | left; split; [reflexivity|repeat apply is_Some_alter; exact Hcur] ]).
Qed.

(** X15: the status callback addresses a manager by its
    identity.  After any event of a manager whose identity is registered,
    the manager registered under that identity has the status of the event,
    whether or not it is the manager whose connection emitted it; it is
    among the clients [POST /ban] will use exactly when the event is
    [ready]. *)
Theorem status_follows_identity (cfg : Config) (a cur : addr) (m : WhatsAppClientManager)
        (e : ClientEvent) (s : State) :
  managers s !! a = Some m ->
  JsMap.get (clientId m) (whatsappClients s) = Some cur ->
  is_Some (managers s !! cur) ->
  let s1 := fst (client_emits cfg a e s) in
  (status <$> managers s1 !! cur) = Some (reported e)
  /\ (status <$> managers s1 !! a) = Some (reported e)
  /\ whatsappClients s1 = whatsappClients s
  /\ (In cur (availableClients s1) <-> e = on_ready).
Proof.
  intros Hm Hget Hcur s1.
  destruct (client_emits_status cfg a m cur e s cur Hm Hget Hcur (or_intror eq_refl))
    as (mc & Hmc & Hst).
  destruct (client_emits_status cfg a m cur e s a Hm Hget Hcur (or_introl eq_refl))
    as (ma & Hma & Hsta).
  fold s1 in Hmc, Hma.
  assert (Hw : whatsappClients s1 = whatsappClients s).
  { subst s1. unfold client_emits. rewrite Hm. cbn zeta.
    destruct e as [qr| | |msg|reason|message];
      rewrite ?fst_andThen; cbn [emit update fst notify emits];
      repeat match goal with
        | |- context [destroy cfg a Detached ?s0] =>
            replace (whatsappClients (fst (destroy cfg a Detached s0)))
              with (whatsappClients s0)
              by (unfold destroy; destruct (managers s0 !! a) as [m0|];
                  [destruct (client m0)|]; reflexivity)
        end;
      match goal with
      | |- context [updateClientStatus ?id ?st ?qr ?s0] =>
          destruct (updateClientStatus_registered id cur st qr s0 Hget) as (-> & _)
      end; reflexivity. }
  split; [now rewrite Hmc; cbn; rewrite Hst|].
  split; [now rewrite Hma; cbn; rewrite Hsta|].
  split; [exact Hw|].
  unfold availableClients. rewrite filter_In, Hw. unfold ready_at, is_ready. rewrite Hmc, Hst.
  split.
  - intros [_ H]. destruct e; cbn in H; try discriminate. reflexivity.
  - intros ->. split; [|reflexivity]. eapply JsMapFacts.get_values; eauto.
Qed.

Lemma status_follows_identity_witness :
  JsMap.get "client_1" (whatsappClients replaced_pool) = Some 1
  /\ (clientId <$> managers replaced_pool !! 0) = Some "client_1"
  /\ (status <$> managers replaced_pool !! 1) = Some "idle"
  /\ In 1 (availableClients (fst (client_emits cfg1 0 on_ready replaced_pool))).
Proof.
  split; [reflexivity|]. split; [reflexivity|]. split; [reflexivity|].
  exact (proj2 (proj2 (proj2 (proj2
           (status_follows_identity cfg1 0 1 _ on_ready replaced_pool
              eq_refl eq_refl (ex_intro _ _ eq_refl))))) eq_refl).
Defined.

(** ** Probes and clients that are not ready *)

Lemma wake_task_finish cfg now o j w s c fr a at_ m u es :
  operations s !! o = Some c -> frame c = Some fr ->
  clientPromises fr !! j = Some (Running a at_) ->
  managers s !! a = Some m ->
  task_step cfg fr a m at_ w = (Finish u, es) ->
  let r := wake_task cfg now o j w s in
  exists c', operations (fst r) !! o = Some c'
    /\ clientsUsed (operation c') = clientsUsed (operation c) ++ [u]
    /\ promises_of c' = <[j := Settled]> (clientPromises fr)
    /\ calls (snd r) = calls es
    /\ forall e, In e es -> In e (snd r).
Proof.
  intros Hc Hfr Hj Hm Hstep r. subst r.
  exists (wake_cell cfg (managers s) now j w c). split.
  { now rewrite wake_task_operations, list_lookup_alter_eq, Hc. }
  unfold wake_cell. rewrite Hfr, Hj, Hm, Hstep.
  rewrite clientsUsed_join_cell, promises_of_join_cell.
  split; [reflexivity|]. split.
  { rewrite promises_of_on_promises. cbn [on_operation frame]. rewrite Hfr.
    unfold promises_of. cbn [on_operation frame]. now rewrite Hfr. }
  unfold wake_task. rewrite Hc, Hfr, Hj, Hm, Hstep.
  rewrite !snd_andThen. cbn [emits update snd app]. split.
  - rewrite !calls_app, calls_join. now rewrite app_nil_r.
  - intros e He. apply in_or_app. now left.
Qed.

(** X16: the task of a 2FA probe never looks at its client: whatever
    the status of the manager, when the initial delay elapses the probe is
    logged as simulated, the client is recorded as a success, the promise
    is settled and the connection is not called. *)
Theorem probe_succeeds_without_connection
        (cfg : Config) (now : Z) (o j : nat) (s : State) (c : OpCell) (fr : Frame)
        (a : addr) (m : WhatsAppClientManager) :
  operations s !! o = Some c -> frame c = Some fr ->
  clientPromises fr !! j = Some (Running a Jitter) ->
  managers s !! a = Some m ->
  ban_kind (f_banType fr) = PROBE_2FA ->
  let r := step cfg now (TaskTimer o j) s in
  exists c', operations (fst r) !! o = Some c'
    /\ clientsUsed (operation c') = clientsUsed (operation c) ++ [success (clientId m)]
    /\ promises_of c' = <[j := Settled]> (clientPromises fr)
    /\ calls (snd r) = []
    /\ In (Console (log_simulated_probe (clientId m) (f_targetNumber fr))) (snd r).
Proof.
  intros Hc Hfr Hj Hm Hkind r. subst r. cbn [step].
  assert (Hstep : task_step cfg fr a m Jitter elapsed
                  = (Finish (success (clientId m)),
                     Console (log_simulated_probe (clientId m) (f_targetNumber fr))
                       :: sendTelegramMessageToAdmin cfg
                            (n_simulated_probe (clientId m) (f_targetNumber fr)))).
  { cbn [task_step]. unfold enter_switch. now rewrite Hkind. }
  destruct (wake_task_finish cfg now o j elapsed s c fr a Jitter m _ _ Hc Hfr Hj Hm Hstep)
    as (c' & Hc' & Hu & Hp & Hcalls & Hin).
  exists c'. split; [exact Hc'|]. split; [exact Hu|]. split; [exact Hp|]. split.
  - rewrite Hcalls. change (calls (Console ?l :: ?es)) with (calls es). apply calls_telegram.
  - apply Hin. now left.
Qed.

Lemma probe_succeeds_without_connection_witness :
  promise_at probe_submitted 0 1 = Some (Running 1 Jitter)
  /\ exists c',
      operations (fst (step cfg3 5 (TaskTimer 0 1) probe_submitted)) !! 0 = Some c'
      /\ clientsUsed (operation c') = [success "client_2"]
      /\ promises_of c' = [Running 0 Jitter; Settled; Running 2 Jitter].
Proof.
  split; [reflexivity|].
  destruct (probe_succeeds_without_connection cfg3 5 0 1 probe_submitted
              {| operation :=
                   {| op_id := "op_4_k3x"; targetNumber := JStr "T1";
                      banType := JStr "2FA_PROBE"; op_status := in_progress;
                      clientsUsed := []; startTime := 4; endTime := None |};
                 frame :=
                   Some {| f_operationId := "op_4_k3x"; f_targetNumber := JStr "T1";
                           f_banType := JStr "2FA_PROBE"; f_clients := [0; 1; 2];
                           clientPromises :=
                             [Running 0 Jitter; Running 1 Jitter; Running 2 Jitter] |} |}
              {| f_operationId := "op_4_k3x"; f_targetNumber := JStr "T1";
                 f_banType := JStr "2FA_PROBE"; f_clients := [0; 1; 2];
                 clientPromises := [Running 0 Jitter; Running 1 Jitter; Running 2 Jitter] |}
              1
              {| clientId := "client_2"; qrCode := None; client := true; status := "ready" |}
              eq_refl eq_refl eq_refl eq_refl eq_refl)
    as (c' & Hc & Hu & Hp & _).
  exists c'. split; [exact Hc|]. split; [exact Hu|exact Hp].
Defined.

(** X17: a task whose delay elapses while its loop still has a
    repeat to make and its client is not ready ends there: the guard of the
    manager throws before the connection is touched, and the client is
    recorded as failed with the message of the guard, which names the
    status found. *)
Theorem not_ready_client_fails_at_once
        (cfg : Config) (now : Z) (o j : nat) (s : State) (c : OpCell) (fr : Frame)
        (a : addr) (at_ : Suspended) (i : nat) (m : WhatsAppClientManager) (count : Z) :
  operations s !! o = Some c -> frame c = Some fr ->
  clientPromises fr !! j = Some (Running a at_) ->
  managers s !! a = Some m ->
  total_count cfg (f_banType fr) = Some count ->
  next_index at_ = Some i ->
  js_lt_quot i count (length (f_clients fr)) = true ->
  status m <> "ready" ->
  let r := step cfg now (TaskTimer o j) s in
  exists c', operations (fst r) !! o = Some c'
    /\ clientsUsed (operation c')
       = clientsUsed (operation c) ++ [failed (clientId m) (guard_message (f_banType fr) m)]
    /\ promises_of c' = <[j := Settled]> (clientPromises fr)
    /\ calls (snd r) = [].
Proof.
  intros Hc Hfr Hj Hm Hcount Hi Hlt Hst r. subst r. cbn [step].
  assert (Hnr : negb (status m =? "ready")%string = true).
  { apply negb_true_iff. now apply String.eqb_neq. }
  assert (Hstep : exists es,
             task_step cfg fr a m at_ elapsed
             = (Finish (failed (clientId m) (guard_message (f_banType fr) m)), es)
             /\ calls es = []).
  { unfold total_count in Hcount. unfold guard_message.
    assert (Hit : task_step cfg fr a m at_ elapsed = iteration cfg fr a m i).
    { destruct at_ as [|i0|i0]; cbn in Hi; inversion Hi; subst; cbn [task_step];
        [|reflexivity].
      unfold enter_switch. destruct (ban_kind (f_banType fr)); try reflexivity; discriminate. }
    rewrite Hit. unfold iteration, caught, sendReport, sendMessage, addTargetToGroup.
    destruct (ban_kind (f_banType fr)); try discriminate;
      injection Hcount as <-; rewrite Hlt, Hnr; eexists; (split; [reflexivity|]);
      cbn [app]; change (calls (Console ?l :: ?es)) with (calls es); apply calls_telegram. }
  destruct Hstep as (es & Hstep & Hes).
  destruct (wake_task_finish cfg now o j elapsed s c fr a at_ m _ _ Hc Hfr Hj Hm Hstep)
    as (c' & Hc' & Hu & Hp & Hcalls & _).
  exists c'. split; [exact Hc'|]. split; [exact Hu|]. split; [exact Hp|]. now rewrite Hcalls.
Qed.

Lemma not_ready_client_fails_at_once_witness :
  promise_at flood_disconnected 0 0 = Some (Running 0 Jitter)
  /\ (status <$> managers flood_disconnected !! 0) = Some "disconnected"
  /\ exists c',
      operations (fst (step cfg3 6 (TaskTimer 0 0) flood_disconnected)) !! 0 = Some c'
      /\ clientsUsed (operation c')
         = [failed "client_1" "Client client_1 is not ready to report. Status: disconnected"]
      /\ calls (snd (step cfg3 6 (TaskTimer 0 0) flood_disconnected)) = [].
Proof.
  split; [reflexivity|]. split; [reflexivity|].
  destruct (not_ready_client_fails_at_once cfg3 6 0 0 flood_disconnected
              {| operation :=
                   {| op_id := "op_4_k3x"; targetNumber := JStr "T1";
                      banType := JStr "REPORT_FLOOD"; op_status := in_progress;
                      clientsUsed := []; startTime := 4; endTime := None |};
                 frame :=
                   Some {| f_operationId := "op_4_k3x"; f_targetNumber := JStr "T1";
                           f_banType := JStr "REPORT_FLOOD"; f_clients := [0; 1; 2];
                           clientPromises :=
                             [Running 0 Jitter; Running 1 Jitter; Running 2 Jitter] |} |}
              {| f_operationId := "op_4_k3x"; f_targetNumber := JStr "T1";
                 f_banType := JStr "REPORT_FLOOD"; f_clients := [0; 1; 2];
                 clientPromises := [Running 0 Jitter; Running 1 Jitter; Running 2 Jitter] |}
              0 Jitter 0
              {| clientId := "client_1"; qrCode := Some "LOGOUT"; client := true;
                 status := "disconnected" |}
              50%Z eq_refl eq_refl eq_refl eq_refl eq_refl eq_refl eq_refl
              ltac:(discriminate))
    as (c' & Hc & Hu & _ & Hcalls).
  exists c'. split; [exact Hc|]. split; [exact Hu|exact Hcalls].
Defined.

(** * The tasks of an operation along every run *)

(** ** The invariant of the tasks of a record *)

Lemma settled_of_insert_running sel : forall ps j a at_ a' at',
  ps !! j = Some (Running a at_) ->
  settled_of sel (<[j := Running a' at']> ps) = settled_of sel ps.
Proof.
  induction sel as [|b sel IH]; intros [|p ps] [|j] a at_ a' at' H; try discriminate;
    cbn in *; try reflexivity.
  - injection H as ->. reflexivity.
  - f_equal. eapply IH; eauto.
Qed.

Lemma settled_of_insert_settled sel : forall ps j a b at_,
  ps !! j = Some (Running b at_) -> sel !! j = Some a ->
  Permutation (settled_of sel (<[j := Settled]> ps)) (a :: settled_of sel ps).
Proof.
  induction sel as [|x sel IH]; intros [|p ps] [|j] a b at_ H Hs; try discriminate; cbn in *.
  - injection H as ->. injection Hs as ->. reflexivity.
  - specialize (IH ps j a b at_ H Hs). destruct (is_settled p); cbn.
    + etransitivity; [apply perm_skip, IH|apply perm_swap].
    + exact IH.
Qed.

Lemma settled_of_all sel : forall ps,
  length ps = length sel -> forallb is_settled ps = true -> settled_of sel ps = sel.
Proof.
  induction sel as [|a sel IH]; intros [|p ps] Hlen Hall; try discriminate; cbn in *;
    [reflexivity|].
  apply andb_true_iff in Hall as [-> Hall]. cbn. f_equal. apply IH; [lia|exact Hall].
Qed.

Lemma settled_of_incl sel : forall ps a, In a (settled_of sel ps) -> In a sel.
Proof.
  induction sel as [|x sel IH]; intros [|p ps] a H; cbn in *; try contradiction.
  apply in_app_or in H as [H|H].
  - destruct (is_settled p); [|contradiction]. destruct H as [->|[]]. now left.
  - right. eapply IH; eauto.
Qed.

Lemma task_step_set_promises cfg ps fr a m at_ w :
  task_step cfg (set_promises ps fr) a m at_ w = task_step cfg fr a m at_ w.
Proof. apply task_step_same_call. repeat split. Qed.

(** A task goes on only to where it can be suspended. *)
Lemma task_step_next_ok cfg fr a m at_ w at' es :
  at_ok cfg fr at_ = true ->
  task_step cfg fr a m at_ w = (Next at', es) ->
  at_ok cfg fr at' = true.
Proof.
  unfold task_step, enter_switch, answered, iteration, caught, after_switch,
    sendReport, sendMessage, addTargetToGroup, sendMessage_settled, addTargetToGroup_settled,
    at_ok, total_count.
  destruct at_ as [|i|i], w as [|[|e|e]]; try congruence;
    destruct (ban_kind (f_banType fr)); try congruence;
    repeat match goal with
           | |- context [if ?b then _ else _] => destruct b eqn:?
           end; cbn; intros Hok H; inversion H; subst; cbn; congruence.
Qed.

(** A task ends with an entry for its own client. *)
Lemma task_step_finish_id cfg fr a m at_ w u es :
  task_step cfg fr a m at_ w = (Finish u, es) -> used_id u = clientId m.
Proof.
  unfold task_step, enter_switch, answered, iteration, caught, after_switch,
    sendReport, sendMessage, addTargetToGroup, sendMessage_settled, addTargetToGroup_settled.
  destruct at_ as [|i|i], w as [|[|e|e]]; try congruence;
    destruct (ban_kind (f_banType fr)); try congruence;
    repeat match goal with
           | |- context [if ?b then _ else _] => destruct b eqn:?
           end; cbn; intros H; inversion H; reflexivity.
Qed.

Lemma Permutation_snoc {A} (l l' : list A) x :
  Permutation l l' -> Permutation (l ++ [x]) (x :: l').
Proof.
  intros H. rewrite <- H. symmetry. apply Permutation_cons_append.
Qed.

(** Waking a task keeps the record in shape. *)
Lemma wake_cell_slots cfg idf fr0 ms now j w c :
  slots_ok cfg idf fr0 c ->
  (forall a m, In a (select_clients cfg 0 (f_clients fr0)) -> ms !! a = Some m ->
               clientId m = idf a) ->
  slots_ok cfg idf fr0 (wake_cell cfg ms now j w c).
Proof.
  intros Hok Hid. pose proof Hok as (ps & Hfr & Hlen & Hrun & Hperm & Hst).
  unfold wake_cell. rewrite Hfr. cbn [clientPromises set_promises].
  destruct (ps !! j) as [[|a at_]|] eqn:Hj; try exact Hok.
  destruct (ms !! a) as [m|] eqn:Hm; [|exact Hok].
  destruct (Hrun j a at_ Hj) as [Hsel Hat].
  rewrite task_step_set_promises.
  destruct (task_step cfg fr0 a m at_ w) as [[|at'|u] es] eqn:Hstep; [exact Hok| |].
  - exists (<[j := Running a at']> ps). split; [|split; [|split; [|split]]].
    + unfold on_promises. rewrite Hfr. reflexivity.
    + now rewrite length_insert.
    + intros j' a' at'' H. destruct (decide (j = j')) as [<-|Hne].
      * rewrite list_lookup_insert_eq in H by (eapply lookup_lt_Some; eauto).
        injection H as <- <-. split; [exact Hsel|].
        eapply task_step_next_ok; eauto.
      * rewrite list_lookup_insert_ne in H by assumption. now apply Hrun.
    + cbn [on_promises operation].
      now rewrite (settled_of_insert_running _ _ _ _ _ _ _ Hj).
    + cbn [on_promises operation]. rewrite Hst.
      rewrite (forallb_running _ _ _ _ Hj).
      rewrite forallb_insert_running; [reflexivity|]. eapply lookup_lt_Some; eauto.
  - exists (<[j := Settled]> ps).
    set (c1 := on_promises _ (on_operation _ c)).
    assert (Hfr1 : frame c1 = Some (set_promises (<[j := Settled]> ps) fr0)).
    { unfold c1, on_promises, on_operation. cbn [frame]. rewrite Hfr. reflexivity. }
    split; [|split; [|split; [|split]]].
    + now rewrite frame_join_cell.
    + now rewrite length_insert.
    + intros j' a' at'' H. destruct (decide (j = j')) as [<-|Hne].
      * rewrite list_lookup_insert_eq in H by (eapply lookup_lt_Some; eauto). discriminate.
      * rewrite list_lookup_insert_ne in H by assumption. now apply Hrun.
    + rewrite clientsUsed_join_cell. unfold c1. cbn [on_promises on_operation operation
        push_clientsUsed clientsUsed].
      rewrite map_app. cbn [map].
      rewrite (settled_of_insert_settled _ _ _ _ _ _ Hj Hsel). cbn [map].
      rewrite (task_step_finish_id _ _ _ _ _ _ _ _ Hstep).
      rewrite (Hid a m); [|eapply list_elem_of_In, list_elem_of_lookup_2; eauto|exact Hm].
      now apply Permutation_snoc.
    + rewrite op_status_join_cell by (rewrite Hfr1; discriminate).
      unfold promises_of. rewrite Hfr1. cbn [clientPromises set_promises].
      destruct (forallb is_settled (<[j:=Settled]> ps)); [reflexivity|].
      unfold c1. cbn [on_promises on_operation operation push_clientsUsed op_status].
      rewrite Hst. now rewrite (forallb_running _ _ _ _ Hj).
Qed.

(** ** The identities of the managers do not change *)

Lemma same_identities_refl ms : same_identities ms ms.
Proof. intros a m H. eauto. Qed.

Lemma same_identities_trans ms1 ms2 ms3 :
  same_identities ms1 ms2 -> same_identities ms2 ms3 -> same_identities ms1 ms3.
Proof.
  intros H1 H2 a m Hm. destruct (H1 a m Hm) as (m2 & Hm2 & E2).
  destruct (H2 a m2 Hm2) as (m3 & Hm3 & E3). exists m3. split; [exact Hm3|congruence].
Qed.

Lemma same_identities_alter f x ms :
  (forall m, clientId (f m) = clientId m) -> same_identities ms (alter f x ms).
Proof.
  intros Hf a m Hm. destruct (decide (x = a)) as [->|Hne].
  - exists (f m). rewrite list_lookup_alter_eq, Hm. split; [reflexivity|apply Hf].
  - exists m. now rewrite list_lookup_alter_ne.
Qed.

Lemma same_identities_app ms extra : same_identities ms (ms ++ extra).
Proof. intros a m Hm. exists m. split; [now apply lookup_app_l_Some|reflexivity]. Qed.

Lemma keeps_identities_andThen h1 h2 :
  keeps_identities h1 -> keeps_identities h2 -> keeps_identities (h1 ;; h2).
Proof.
  intros H1 H2 s. rewrite fst_andThen. eapply same_identities_trans; [apply H1|apply H2].
Qed.

Lemma keeps_identities_managers h : keeps_managers h -> keeps_identities h.
Proof. intros H s. rewrite H. apply same_identities_refl. Qed.

Lemma keeps_identities_skip : keeps_identities skip.
Proof. intros s. apply same_identities_refl. Qed.

Lemma keeps_identities_emit e : keeps_identities (emit e).
Proof. intros s. apply same_identities_refl. Qed.

Lemma keeps_identities_notify cfg n : keeps_identities (notify cfg n).
Proof. intros s. apply same_identities_refl. Qed.

Lemma keeps_identities_schedule p : keeps_identities (schedule p).
Proof. intros s. apply same_identities_refl. Qed.

Lemma keeps_identities_clear k : keeps_identities (clear k).
Proof. intros s. apply same_identities_refl. Qed.

Lemma keeps_identities_whatsappClients f : keeps_identities (update (with_whatsappClients f)).
Proof. intros s. apply same_identities_refl. Qed.

Lemma keeps_identities_myCache f : keeps_identities (update (with_myCache f)).
Proof. intros s. apply same_identities_refl. Qed.

Lemma keeps_identities_activeOperations f : keeps_identities (update (with_activeOperations f)).
Proof. intros s. apply same_identities_refl. Qed.

Lemma keeps_identities_set_status st a :
  keeps_identities (update (with_managers (alter (set_status st) a))).
Proof. intros s. now apply same_identities_alter. Qed.

Lemma keeps_identities_set_qrCode q a :
  keeps_identities (update (with_managers (alter (set_qrCode q) a))).
Proof. intros s. now apply same_identities_alter. Qed.

Lemma keeps_identities_new id :
  keeps_identities (update (with_managers (fun ms => ms ++ [new_manager id]))).
Proof. intros s. apply same_identities_app. Qed.

Lemma keeps_identities_case (h : Handler) :
  (forall s, exists h', h s = h' s /\ keeps_identities h') -> keeps_identities h.
Proof. intros H s. destruct (H s) as (h' & -> & Hh). apply Hh. Qed.

Ltac identities :=
  repeat first
    [ apply keeps_identities_andThen | apply keeps_identities_skip | apply keeps_identities_emit
    | apply keeps_identities_notify | apply keeps_identities_schedule
    | apply keeps_identities_clear | apply keeps_identities_whatsappClients
    | apply keeps_identities_myCache | apply keeps_identities_activeOperations
    | apply keeps_identities_set_status | apply keeps_identities_set_qrCode
    | apply keeps_identities_new ].

Lemma updateClientStatus_identities id st qr : keeps_identities (updateClientStatus id st qr).
Proof.
  apply keeps_identities_case. intros s. unfold updateClientStatus.
  destruct (JsMap.get id (whatsappClients s)) as [a|].
  - eexists. split; [reflexivity|].
    destruct qr as [q|]; [destruct (negb (q =? "")%string)|]; destruct (recreated_on st);
      identities.
  - exists skip. split; [reflexivity|apply keeps_identities_skip].
Qed.

Lemma after_destroy_identities cfg k : keeps_identities (after_destroy cfg k).
Proof. destruct k; cbn [after_destroy]; identities. Qed.

Lemma destroy_identities cfg a k : keeps_identities (destroy cfg a k).
Proof.
  apply keeps_identities_case. intros s. unfold destroy.
  destruct (managers s !! a) as [m|]; [destruct (client m)|].
  - eexists. split; [reflexivity|]. identities.
  - eexists. split; [reflexivity|]. apply after_destroy_identities.
  - exists skip. split; [reflexivity|apply keeps_identities_skip].
Qed.

Lemma destroy_settled_identities a r : keeps_identities (destroy_settled a r).
Proof.
  apply keeps_identities_case. intros s. unfold destroy_settled.
  destruct (managers s !! a) as [m|]; [destruct r as [|e|e]|].
  - eexists. split; [reflexivity|]. identities. apply updateClientStatus_identities.
  - eexists. split; [reflexivity|]. identities.
  - eexists. split; [reflexivity|]. identities. apply updateClientStatus_identities.
  - exists skip. split; [reflexivity|apply keeps_identities_skip].
Qed.

Lemma initializeWhatsAppClient_identities cfg id :
  keeps_identities (initializeWhatsAppClient cfg id).
Proof.
  unfold initializeWhatsAppClient. apply keeps_identities_andThen.
  - apply keeps_identities_case. intros s.
    destruct (JsMap.get id (whatsappClients s)) as [a|].
    + eexists. split; [reflexivity|]. identities. apply destroy_identities.
    + exists skip. split; [reflexivity|apply keeps_identities_skip].
  - apply keeps_identities_case. intros s. eexists. split; [reflexivity|]. identities.
Qed.

Lemma client_emits_identities cfg a e : keeps_identities (client_emits cfg a e).
Proof.
  apply keeps_identities_case. intros s. unfold client_emits.
  destruct (managers s !! a) as [m|].
  - cbn zeta. destruct e as [qr| | |msg|reason|message];
      (eexists; split; [reflexivity|]); identities;
      first [apply updateClientStatus_identities | apply destroy_identities].
  - exists skip. split; [reflexivity|apply keeps_identities_skip].
Qed.

Lemma destroy_settles_identities cfg k r : keeps_identities (destroy_settles cfg k r).
Proof.
  apply keeps_identities_case. intros s. unfold destroy_settles.
  destruct (waiting s !! k) as [[[id|oid|id|a cont]|]|];
    try (exists skip; split; [reflexivity|apply keeps_identities_skip]).
  eexists. split; [reflexivity|]. identities;
    [apply destroy_settled_identities|apply after_destroy_identities].
Qed.

Lemma fires_identities cfg k : keeps_identities (fires cfg k).
Proof.
  apply keeps_identities_case. intros s. unfold fires.
  destruct (waiting s !! k) as [[[id|oid|id|a cont]|]|];
    try (exists skip; split; [reflexivity|apply keeps_identities_skip]).
  - eexists. split; [reflexivity|].
    apply keeps_identities_andThen;
      [apply keeps_identities_clear|apply initializeWhatsAppClient_identities].
  - eexists. split; [reflexivity|]. identities.
  - destruct (JsMap.get (qr_key id) (myCache s)) as [q|];
      [destruct (negb (q =? "")%string)|];
      try (exists skip; split; [reflexivity|apply keeps_identities_skip]).
    eexists. split; [reflexivity|]. identities.
Qed.

Lemma post_add_identities cfg : keeps_identities (post_add cfg).
Proof.
  apply keeps_identities_case. intros s. unfold post_add. cbn zeta.
  eexists. split; [reflexivity|].
  apply keeps_identities_andThen;
    [apply initializeWhatsAppClient_identities|apply keeps_identities_schedule].
Qed.

Lemma post_remove_identities cfg id : keeps_identities (post_remove cfg id).
Proof.
  apply keeps_identities_case. intros s. unfold post_remove.
  destruct id as [| | | |k|]; try (eexists; split; [reflexivity|]; identities).
  destruct (JsMap.get k (whatsappClients s)) as [a|].
  - eexists. split; [reflexivity|]. apply destroy_identities.
  - eexists. split; [reflexivity|]. identities.
Qed.

Lemma step_identities cfg now ev : keeps_identities (step cfg now ev).
Proof.
  destruct ev as [| |id|target type rnd|a e|k|k r|o j|o j r|key]; cbn [step].
  - intros s. apply same_identities_refl.
  - apply post_add_identities.
  - apply post_remove_identities.
  - apply keeps_identities_managers, post_ban_managers.
  - apply client_emits_identities.
  - apply fires_identities.
  - apply destroy_settles_identities.
  - apply keeps_identities_managers, wake_task_managers.
  - apply keeps_identities_managers, wake_task_managers.
  - apply keeps_identities_myCache.
Qed.

Lemma identified_step cfg idf sel now ev s :
  identified idf sel s -> identified idf sel (fst (step cfg now ev s)).
Proof.
  intros H a Ha. destruct (H a Ha) as (m & Hm & Hid).
  destruct (step_identities cfg now ev s a m Hm) as (m' & Hm' & E).
  exists m'. split; [exact Hm'|congruence].
Qed.

Lemma identified_run cfg idf sel evs : forall s,
  identified idf sel s -> identified idf sel (fst (run cfg evs s)).
Proof.
  induction evs as [|[now ev] evs IH]; intros s H; [exact H|].
  cbn [run]. rewrite fst_andThen. apply IH, identified_step, H.
Qed.

Lemma identified_clientId idf sel s a m :
  identified idf sel s -> In a sel -> managers s !! a = Some m -> clientId m = idf a.
Proof. intros H Ha Hm. destruct (H a Ha) as (m' & Hm' & E). congruence. Qed.

(** Every step keeps the record of a call in shape. *)
Lemma step_slots cfg idf fr0 now ev s o c :
  operations s !! o = Some c ->
  slots_ok cfg idf fr0 c ->
  identified idf (select_clients cfg 0 (f_clients fr0)) s ->
  exists c', operations (fst (step cfg now ev s)) !! o = Some c'
             /\ slots_ok cfg idf fr0 c'.
Proof.
  intros Hc Hok Hid.
  destruct (step_cell cfg now ev s o c Hc) as [H|(j & w & H)].
  - exists c. split; assumption.
  - eexists. split; [exact H|]. apply wake_cell_slots; [exact Hok|].
    intros a m Ha Hm. eapply identified_clientId; eauto.
Qed.

Lemma run_slots cfg idf fr0 evs : forall s o c,
  operations s !! o = Some c ->
  slots_ok cfg idf fr0 c ->
  identified idf (select_clients cfg 0 (f_clients fr0)) s ->
  exists c', operations (fst (run cfg evs s)) !! o = Some c'
             /\ slots_ok cfg idf fr0 c'.
Proof.
  induction evs as [|[now ev] evs IH]; intros s o c Hc Hok Hid.
  - exists c. split; assumption.
  - cbn [run]. rewrite fst_andThen.
    destruct (step_slots cfg idf fr0 now ev s o c Hc Hok Hid) as (c1 & Hc1 & Hok1).
    eapply IH; eauto. now apply identified_step.
Qed.

(** The record of an accepted submission is in shape. *)
Lemma submitted_cell_slots cfg now id target type clients idf :
  slots_ok cfg idf (submitted_frame cfg id target type clients)
           (submitted_cell cfg now id target type clients).
Proof.
  set (fr0 := submitted_frame cfg id target type clients).
  exists (clientPromises fr0). split; [|split; [|split; [|split]]].
  - unfold submitted_cell. rewrite frame_join_cell. reflexivity.
  - cbn. now rewrite length_map.
  - cbn [fr0 submitted_frame clientPromises f_clients]. intros j a at_ H.
    change map with (@fmap list _) in H. rewrite list_lookup_fmap in H.
    destruct (select_clients cfg 0 clients !! j) as [b|]; [|discriminate].
    cbn in H. injection H as <- <-. split; reflexivity.
  - unfold submitted_cell. rewrite clientsUsed_join_cell. cbn [operation clientsUsed
      set_op_status new_operation map].
    cbn [fr0 submitted_frame clientPromises f_clients].
    assert (H : forall sel, settled_of sel (map (fun c => Running c Jitter) sel) = []).
    { induction sel as [|a sel IH]; [reflexivity|exact IH]. }
    rewrite H. reflexivity.
  - unfold submitted_cell. rewrite op_status_join_cell by discriminate. reflexivity.
Qed.

Lemma accepted_identified cfg s :
  identified (clientId_at s) (select_clients cfg 0 (availableClients s)) s.
Proof.
  intros a Ha. apply select_clients_incl in Ha.
  destruct (availableClients_ready s a Ha) as (m & Hm & _).
  exists m. split; [exact Hm|]. unfold clientId_at. now rewrite Hm.
Qed.

(** ** Every task ends *)

Lemma drive_wake_for cfg fr a m fuel at_ :
  drive cfg fr a m (S fuel) at_
  = resume (drive cfg fr a m fuel) (task_step cfg fr a m at_ (wake_for at_)).
Proof. destruct at_; reflexivity. Qed.

Section OneWake.
Variable cfg : Config.
Variable fr : Frame.
Variable a : addr.
Variable m : WhatsAppClientManager.
Hypothesis Hclients : 0 < length (f_clients fr).

Let k := repeats cfg (f_banType fr) (length (f_clients fr)).

Lemma loop_test i count :
  total_count cfg (f_banType fr) = Some count ->
  js_lt_quot i count (length (f_clients fr)) = true <-> i < k.
Proof.
  intros Hc. unfold k, repeats. rewrite Hc. now apply js_lt_quot_ceil.
Qed.

Lemma loop_test_false i count :
  total_count cfg (f_banType fr) = Some count ->
  js_lt_quot i count (length (f_clients fr)) = false <-> k <= i.
Proof.
  intros Hc. rewrite <- not_true_iff_false, (loop_test i count Hc). lia.
Qed.

(** One wake of a task by what it waits for: it ends, or it goes on to a
    place nearer its end having made the repeats between; with its client
    ready it ends only with all repeats made, as a success. *)
Lemma task_step_wake at_ :
  at_ok cfg fr at_ = true ->
  match task_step cfg fr a m at_ (wake_for at_) with
  | (Stay, _) => False
  | (Next at', es) =>
      at_ok cfg fr at' = true
      /\ remaining k at' < remaining k at_
      /\ made at_ + actions es = made at'
      /\ made at' <= k
  | (Finish u, es) =>
      used_id u = clientId m
      /\ made at_ + actions es <= k
      /\ (status m = "ready" -> u = success (clientId m) /\ made at_ + actions es = k)
  end.
Proof.
  unfold task_step, wake_for, enter_switch, answered, iteration, caught, after_switch,
    sendReport, sendMessage, addTargetToGroup, sendMessage_settled, addTargetToGroup_settled,
    at_ok.
  pose proof loop_test as Ht. pose proof loop_test_false as Hf.
  unfold total_count in *.
  destruct at_ as [|i|i]; destruct (ban_kind (f_banType fr)) eqn:K;
    try discriminate;
    repeat match goal with
           | |- context [js_lt_quot ?i ?c ?l] =>
               let E := fresh "E" in
               destruct (js_lt_quot i c l) eqn:E;
               [apply (Ht _ _ eq_refl) in E | apply (Hf _ _ eq_refl) in E]
           | |- context [negb (?x =? ?y)%string] =>
               let E := fresh "E" in
               destruct (String.eqb_spec x y) as [E|E]; cbn [negb]
           end;
    intros Hok; try (apply (Ht _ _ eq_refl) in Hok);
    cbn [fst snd made remaining actions tally List.filter is_action length app used_id];
    unfold actions, tally; cbn [List.filter is_action length app];
    rewrite ?List.filter_app, ?length_app;
    repeat match goal with
           | |- context [List.filter is_action (sendTelegramMessageToAdmin ?c ?n)] =>
               change (length (List.filter is_action (sendTelegramMessageToAdmin c n)))
                 with (tally is_action (sendTelegramMessageToAdmin c n));
               rewrite (tally_telegram is_action c n) by reflexivity
           end;
    cbn [List.filter is_action length app];
    repeat split; try reflexivity; try lia; try congruence; try (intros Hr; congruence).
  all: subst k; unfold repeats, total_count; rewrite K; reflexivity.
Qed.

Lemma remaining_pos at_ : at_ok cfg fr at_ = true -> 0 < remaining k at_.
Proof.
  destruct at_ as [|i|i]; cbn [remaining at_ok]; try lia.
  destruct (ban_kind (f_banType fr)) eqn:K; try discriminate; intros H.
  - apply (loop_test i (MESSAGE_FLOOD_COUNT cfg)) in H; [lia|].
    unfold total_count. now rewrite K.
  - apply (loop_test i (GROUP_INVITE_COUNT cfg)) in H; [lia|].
    unfold total_count. now rewrite K.
Qed.

(** A task attended to alone comes to its end within the wakes it can
    still take. *)
Lemma drive_ends : forall fuel at_,
  at_ok cfg fr at_ = true ->
  remaining k at_ <= fuel ->
  exists u, fst (drive cfg fr a m fuel at_) = Some u
            /\ used_id u = clientId m
            /\ made at_ + actions (snd (drive cfg fr a m fuel at_)) <= k
            /\ (status m = "ready" ->
                u = success (clientId m)
                /\ made at_ + actions (snd (drive cfg fr a m fuel at_)) = k).
Proof.
  induction fuel as [|fuel IH]; intros at_ Hok Hfuel.
  - pose proof (remaining_pos at_ Hok). lia.
  - rewrite drive_wake_for. pose proof (task_step_wake at_ Hok) as Hw.
    destruct (task_step cfg fr a m at_ (wake_for at_)) as [[|at'|u] es]; [contradiction| |].
    + destruct Hw as (Hok' & Hlt & Hmade & Hle).
      destruct (IH at' Hok' ltac:(lia)) as (u & Hu & Hid & Hle' & Hr).
      exists u. cbn [resume fst snd]. split; [exact Hu|]. split; [exact Hid|].
      unfold actions in *. rewrite tally_app. split; [lia|].
      intros Hready. destruct (Hr Hready) as [-> E]. split; [reflexivity|lia].
    + destruct Hw as (Hid & Hle & Hr). exists u. cbn [resume fst snd].
      split; [reflexivity|]. split; [exact Hid|]. split; [exact Hle|exact Hr].
Qed.
End OneWake.

Lemma remaining_patience cfg type len at_ :
  remaining (repeats cfg type len) at_ <= patience cfg type len.
Proof. unfold patience. destruct at_; cbn [remaining]; lia. Qed.

(** Attending to a task is a run of the event loop. *)
Lemma attend_run cfg now o j : forall fuel s,
  exists evs, fst (attend cfg now fuel o j s) = fst (run cfg evs s).
Proof.
  induction fuel as [|fuel IH]; intros s; [exists []; reflexivity|].
  cbn [attend]. destruct (promise_at s o j) as [[|a at_]|]; try (exists []; reflexivity).
  destruct at_ as [|i|i].
  - destruct (IH (fst (step cfg now (TaskTimer o j) s))) as (evs & E).
    exists ((now, TaskTimer o j) :: evs). cbn [run]. now rewrite !fst_andThen.
  - destruct (IH (fst (step cfg now (TaskTimer o j) s))) as (evs & E).
    exists ((now, TaskTimer o j) :: evs). cbn [run]. now rewrite !fst_andThen.
  - destruct (IH (fst (step cfg now (TaskAnswer o j resolved) s))) as (evs & E).
    exists ((now, TaskAnswer o j resolved) :: evs). cbn [run]. now rewrite !fst_andThen.
Qed.

Lemma attend_all_run cfg now fuel o : forall js s,
  exists evs, fst (attend_all cfg now fuel o js s) = fst (run cfg evs s).
Proof.
  induction js as [|j js IH]; intros s; [exists []; reflexivity|].
  cbn [attend_all]. destruct (attend_run cfg now o j fuel s) as (evs1 & E1).
  destruct (IH (fst (attend cfg now fuel o j s))) as (evs2 & E2).
  exists (evs1 ++ evs2). rewrite run_app, fst_andThen, E2, E1. reflexivity.
Qed.

(** ** C4: one entry per selected client *)

Lemma slots_promises cfg idf fr0 c :
  slots_ok cfg idf fr0 c ->
  exists ps, frame c = Some (set_promises ps fr0) /\ promises_of c = ps.
Proof.
  intros (ps & Hfr & _). exists ps. split; [exact Hfr|]. unfold promises_of. now rewrite Hfr.
Qed.

Lemma wake_task_other cfg now o j w s j' :
  j <> j' -> promise_at (fst (wake_task cfg now o j w s)) o j' = promise_at s o j'.
Proof.
  intros Hne. unfold promise_at. rewrite wake_task_operations.
  destruct (operations s !! o) as [c|] eqn:Hc.
  - rewrite list_lookup_alter_eq, Hc. cbn. now apply wake_cell_other.
  - rewrite list_lookup_alter_eq, Hc. reflexivity.
Qed.

Lemma attend_other cfg now o j j' : forall fuel s,
  j <> j' -> promise_at (fst (attend cfg now fuel o j s)) o j' = promise_at s o j'.
Proof.
  induction fuel as [|fuel IH]; intros s Hne; [reflexivity|].
  cbn [attend]. destruct (promise_at s o j) as [[|a at_]|]; try reflexivity.
  destruct at_ as [|i|i]; rewrite fst_andThen, IH by assumption; cbn [step];
    now apply wake_task_other.
Qed.

(** A running task attended to alone is settled, with an entry for its
    own client, whatever the state of its client and of the other tasks. *)
Lemma attend_ends cfg idf fr0 now o j fuel s c a at_ :
  operations s !! o = Some c ->
  slots_ok cfg idf fr0 c ->
  identified idf (select_clients cfg 0 (f_clients fr0)) s ->
  0 < length (f_clients fr0) ->
  promise_at s o j = Some (Running a at_) ->
  patience cfg (f_banType fr0) (length (f_clients fr0)) <= fuel ->
  let r := attend cfg now fuel o j s in
  promise_at (fst r) o j = Some Settled
  /\ exists c' u, operations (fst r) !! o = Some c'
                  /\ clientsUsed (operation c') = clientsUsed (operation c) ++ [u]
                  /\ used_id u = idf a.
Proof.
  intros Hc Hok Hid Hlen Hp Hfuel r.
  pose proof Hok as (ps & Hfr & _ & Hrun & _).
  unfold promise_at, promises_of in Hp. rewrite Hc, Hfr in Hp. cbn in Hp.
  destruct (Hrun j a at_ Hp) as [Hsel Hat].
  assert (Ha : In a (select_clients cfg 0 (f_clients fr0))).
  { eapply list_elem_of_In, list_elem_of_lookup_2; eauto. }
  destruct (Hid a Ha) as (m & Hm & Hidm).
  destruct (drive_ends cfg fr0 a m Hlen fuel at_ Hat) as (u & Hu & Hidu & _).
  { etransitivity; [apply remaining_patience|exact Hfuel]. }
  rewrite <- (drive_same_call cfg (set_promises ps fr0) fr0) in Hu by (repeat split).
  destruct (attend_drive cfg now o j fuel s c (set_promises ps fr0) a at_ m u Hc Hfr Hp Hm Hu)
    as (_ & Hs & c' & Hc' & Hused).
  split; [exact Hs|]. exists c', u. split; [exact Hc'|]. split; [exact Hused|congruence].
Qed.

Lemma forallb_settled ps :
  (forall j, j < length ps -> ps !! j = Some Settled) -> forallb is_settled ps = true.
Proof.
  induction ps as [|p ps IH]; intros H; [reflexivity|]. cbn.
  pose proof (H 0 ltac:(cbn; lia)) as H0. cbn in H0. injection H0 as ->. cbn.
  apply IH. intros j Hj. apply (H (S j)). cbn. lia.
Qed.

(** Attending to every task of a list settles them all and unsettles
    none. *)
Lemma attend_all_settles cfg idf fr0 now o fuel : forall js s c,
  operations s !! o = Some c ->
  slots_ok cfg idf fr0 c ->
  identified idf (select_clients cfg 0 (f_clients fr0)) s ->
  0 < length (f_clients fr0) ->
  patience cfg (f_banType fr0) (length (f_clients fr0)) <= fuel ->
  (forall j, In j js -> j < length (select_clients cfg 0 (f_clients fr0))) ->
  forall j, In j js \/ promise_at s o j = Some Settled ->
            promise_at (fst (attend_all cfg now fuel o js s)) o j = Some Settled.
Proof.
  induction js as [|j0 js IH]; intros s c Hc Hok Hid Hlen Hfuel Hjs j Hj.
  - destruct Hj as [[]|Hj]. exact Hj.
  - cbn [attend_all]. rewrite fst_andThen.
    set (s1 := fst (attend cfg now fuel o j0 s)).
    assert (H0 : promise_at s1 o j0 = Some Settled).
    { pose proof Hok as (ps & Hfr & Hl & _).
      assert (Hlt : j0 < length ps) by (rewrite Hl; apply Hjs; now left).
      destruct (lookup_lt_is_Some_2 ps j0 Hlt) as [p Hp].
      assert (Hp' : promise_at s o j0 = Some p).
      { unfold promise_at, promises_of. now rewrite Hc, Hfr. }
      destruct p as [|a at_].
      - subst s1. now rewrite attend_settled.
      - now destruct (attend_ends cfg idf fr0 now o j0 fuel s c a at_ Hc Hok Hid Hlen Hp' Hfuel). }
    destruct (attend_run cfg now o j0 fuel s) as (evs & E). fold s1 in E.
    destruct (run_slots cfg idf fr0 evs s o c Hc Hok Hid) as (c1 & Hc1 & Hok1).
    rewrite <- E in Hc1.
    assert (Hid1 : identified idf (select_clients cfg 0 (f_clients fr0)) s1).
    { rewrite E. now apply identified_run. }
    apply (IH s1 c1 Hc1 Hok1 Hid1 Hlen Hfuel); [intros j' Hj'; apply Hjs; now right|].
    destruct (decide (j0 = j)) as [<-|Hne]; [now right|].
    destruct Hj as [[Hj|Hj]|Hj]; [contradiction|now left|].
    right. subst s1. now rewrite attend_other.
Qed.

Lemma accepted_clients target type s : accepted target type s -> 0 < length (availableClients s).
Proof.
  intros (_ & _ & Hne). destruct (availableClients s); [congruence|cbn; lia].
Qed.

(** The record of an accepted submission, along any run. *)
Lemma submitted_run cfg now target type rnd s evs :
  accepted target type s ->
  let fr0 := submitted_frame cfg (make_operationId now rnd) target type (availableClients s) in
  let s1 := fst (step cfg now (PostBan target type rnd) s) in
  let s' := fst (run cfg evs s1) in
  operations s1 !! length (operations s)
  = Some (submitted_cell cfg now (make_operationId now rnd) target type (availableClients s))
  /\ identified (clientId_at s) (select_clients cfg 0 (availableClients s)) s1
  /\ identified (clientId_at s) (select_clients cfg 0 (availableClients s)) s'
  /\ exists c, operations s' !! length (operations s) = Some c
               /\ slots_ok cfg (clientId_at s) fr0 c.
Proof.
  intros Hacc fr0 s1 s'.
  assert (Hc1 : operations s1 !! length (operations s)
                = Some (submitted_cell cfg now (make_operationId now rnd) target type
                                       (availableClients s))).
  { subst s1. cbn [step]. rewrite post_ban_operations by assumption.
    rewrite lookup_app_r by lia. now rewrite Nat.sub_diag. }
  assert (Hid1 : identified (clientId_at s) (select_clients cfg 0 (availableClients s)) s1).
  { apply identified_step, accepted_identified. }
  split; [exact Hc1|]. split; [exact Hid1|]. split; [now apply identified_run|].
  eapply run_slots; eauto. apply submitted_cell_slots.
Qed.

(** C4: one entry per selected client, and no task waits for another.
    After an accepted submission, whatever events follow, the record of the
    operation holds one entry for each task that has ended and none for a
    task that has not: the identities of its entries are, up to order, the
    identities of the clients whose tasks have ended.  The record is
    [completed] exactly when every task has ended, and then its entries
    are, up to order, those of the selected clients, as many as were
    selected.  A task that has not ended does end, whatever the other tasks
    did, failed ones included: woken on its own at most [patience] times
    from any state of any run, it settles, appends the one entry of its
    client and leaves every other task where it was; attending to the tasks
    one after another completes the record.  A step that is not the waking
    of a task leaves that task where it was. *)
Theorem C4_one_entry_per_selected_client
        (cfg : Config) (now : Z) (target type : jsval) (rnd : string) (s : State)
        (evs : list (Z * Event)) :
  accepted target type s ->
  let selected := select_clients cfg 0 (availableClients s) in
  let o := length (operations s) in
  let s' := fst (run cfg ((now, PostBan target type rnd) :: evs) s) in
  exists c,
    operations s' !! o = Some c
    /\ Permutation (map used_id (clientsUsed (operation c)))
                   (map (clientId_at s) (settled_of selected (promises_of c)))
    /\ (op_status (operation c) = completed <-> forallb is_settled (promises_of c) = true)
    /\ (op_status (operation c) = completed ->
        Permutation (map used_id (clientsUsed (operation c))) (map (clientId_at s) selected)
        /\ length (clientsUsed (operation c)) = length selected)
    /\ (forall j a at_ now' fuel,
           promise_at s' o j = Some (Running a at_) ->
           patience cfg type (length (availableClients s)) <= fuel ->
           let r := attend cfg now' fuel o j s' in
           promise_at (fst r) o j = Some Settled
           /\ (forall j', j' <> j -> promise_at (fst r) o j' = promise_at s' o j')
           /\ exists c' u, operations (fst r) !! o = Some c'
                           /\ clientsUsed (operation c') = clientsUsed (operation c) ++ [u]
                           /\ used_id u = clientId_at s a)
    /\ (forall now' fuel,
           patience cfg type (length (availableClients s)) <= fuel ->
           exists c', operations (fst (attend_all cfg now' fuel o (seq 0 (length selected)) s'))
                        !! o = Some c'
                      /\ op_status (operation c') = completed
                      /\ length (clientsUsed (operation c')) = length selected)
    /\ (forall now' ev j p,
           promise_at s' o j = Some p ->
           (forall w, woken ev <> Some (o, j, w)) ->
           promise_at (fst (step cfg now' ev s')) o j = Some p).
Proof.
  intros Hacc selected o s'.
  pose proof (accepted_clients _ _ _ Hacc) as Hlen.
  set (fr0 := submitted_frame cfg (make_operationId now rnd) target type (availableClients s)).
  destruct (submitted_run cfg now target type rnd s evs Hacc) as (_ & _ & Hid & c & Hc & Hok).
  assert (Es : s' = fst (run cfg evs (fst (step cfg now (PostBan target type rnd) s)))).
  { subst s'. cbn [run]. now rewrite fst_andThen. }
  rewrite <- Es in Hid, Hc. fold fr0 in Hok. fold o in Hc. fold selected in Hid.
  pose proof Hok as (ps & Hfr & Hl & Hrun & Hperm & Hst).
  assert (Hps : promises_of c = ps) by (unfold promises_of; now rewrite Hfr).
  cbn [fr0 submitted_frame f_clients] in Hl, Hrun, Hperm. fold selected in Hl, Hrun, Hperm.
  assert (Hdone : forall c1, slots_ok cfg (clientId_at s) fr0 c1 ->
            op_status (operation c1) = completed ->
            Permutation (map used_id (clientsUsed (operation c1))) (map (clientId_at s) selected)
            /\ length (clientsUsed (operation c1)) = length selected).
  { intros c1 (ps1 & _ & Hl1 & _ & Hperm1 & Hst1) Hd.
    cbn [fr0 submitted_frame f_clients] in Hl1, Hperm1. fold selected in Hl1, Hperm1.
    rewrite Hd in Hst1. destruct (forallb is_settled ps1) eqn:Hall; [|discriminate].
    rewrite (settled_of_all _ _ Hl1 Hall) in Hperm1. split; [exact Hperm1|].
    apply Permutation_length in Hperm1. now rewrite !length_map in Hperm1. }
  exists c. split; [exact Hc|]. split; [now rewrite Hps|]. split.
  { rewrite Hps, Hst. destruct (forallb is_settled ps); split; congruence. }
  split; [now apply Hdone|]. split; [|split].
  - intros j a at_ now' fuel Hp Hfuel r.
    destruct (attend_ends cfg (clientId_at s) fr0 now' o j fuel s' c a at_ Hc Hok Hid Hlen Hp
                Hfuel) as (Hs & c' & u & Hc' & Hused & Hidu).
    split; [exact Hs|]. split.
    + intros j' Hne. subst r. apply attend_other. congruence.
    + exists c', u. repeat split; assumption.
  - intros now' fuel Hfuel.
    set (s2 := fst (attend_all cfg now' fuel o (seq 0 (length selected)) s')).
    destruct (attend_all_run cfg now' fuel o (seq 0 (length selected)) s') as (evs2 & E).
    fold s2 in E.
    destruct (run_slots cfg (clientId_at s) fr0 evs2 s' o c Hc Hok Hid) as (c2 & Hc2 & Hok2).
    rewrite <- E in Hc2. exists c2. split; [exact Hc2|].
    pose proof Hok2 as (ps2 & Hfr2 & Hl2 & _ & _ & Hst2).
    cbn [fr0 submitted_frame f_clients] in Hl2. fold selected in Hl2.
    assert (Hall : forallb is_settled ps2 = true).
    { apply forallb_settled. intros j Hj.
      pose proof (attend_all_settles cfg (clientId_at s) fr0 now' o fuel
                    (seq 0 (length selected)) s' c Hc Hok Hid Hlen Hfuel) as H.
      specialize (H ltac:(intros j' Hj'; apply in_seq in Hj'; cbn [fr0 submitted_frame f_clients];
                          fold selected; lia) j).
      fold s2 in H. unfold promise_at, promises_of in H. rewrite Hc2, Hfr2 in H.
      apply H. left. apply in_seq. lia. }
    rewrite Hall in Hst2. split; [exact Hst2|]. now apply (Hdone c2 Hok2).
  - intros now' ev j p. apply step_other_promise.
Qed.

Lemma C4_witness :
  accepted (JStr "T1") (JStr "GROUP_POISON") two_ready_one_error
  /\ let s' := fst (run cfg3 ((10%Z, PostBan (JStr "T1") (JStr "GROUP_POISON") "k3x")
                               :: one_failed_one_waits) two_ready_one_error) in
     promise_at s' 0 0 = Some Settled
     /\ promise_at s' 0 1 = Some (Running 1 (Answer 0))
     /\ promise_at (fst (attend cfg3 30 11 0 1 s')) 0 1 = Some Settled
     /\ exists c',
         operations (fst (attend_all cfg3 30 11 0 [0; 1] s')) !! 0 = Some c'
         /\ op_status (operation c') = completed
         /\ length (clientsUsed (operation c')) = 2.
Proof.
  assert (H : accepted (JStr "T1") (JStr "GROUP_POISON") two_ready_one_error) by accept.
  split; [exact H|].
  pose proof (C4_one_entry_per_selected_client cfg3 10 (JStr "T1") (JStr "GROUP_POISON") "k3x" two_ready_one_error
                one_failed_one_waits H) as (c & _ & _ & _ & _ & Hone & Hall & _).
  cbn zeta. split; [reflexivity|]. split; [reflexivity|].
  assert (Hfuel : patience cfg3 (JStr "GROUP_POISON") (length (availableClients two_ready_one_error))
                  <= 11) by (vm_compute; lia).
  split.
  - exact (proj1 (Hone 1 1 (Answer 0) 30%Z 11 eq_refl Hfuel)).
  - exact (Hall 30%Z 11 Hfuel).
Defined.

(** ** The actions of one task *)

Lemma made_le cfg fr at_ :
  0 < length (f_clients fr) ->
  at_ok cfg fr at_ = true ->
  made at_ <= repeats cfg (f_banType fr) (length (f_clients fr)).
Proof.
  intros Hlen. destruct at_ as [|i|i]; cbn [made at_ok]; [lia| |].
  - destruct (total_count cfg (f_banType fr)) as [count|] eqn:Hc; [|discriminate].
    intros H. apply (loop_test cfg fr Hlen i count Hc) in H. lia.
  - destruct (ban_kind (f_banType fr)) eqn:K; try discriminate; intros H.
    + apply (loop_test cfg fr Hlen i (MESSAGE_FLOOD_COUNT cfg)) in H; [lia|].
      unfold total_count. now rewrite K.
    + apply (loop_test cfg fr Hlen i (GROUP_INVITE_COUNT cfg)) in H; [lia|].
      unfold total_count. now rewrite K.
Qed.

Lemma task_step_unawaited cfg fr a m at_ w :
  resolves w = true -> w <> wake_for at_ -> task_step cfg fr a m at_ w = (Stay, []).
Proof.
  destruct at_ as [|i|i], w as [|[|e|e]]; cbn; intros H Hne; try discriminate;
    try reflexivity; congruence.
Qed.

Lemma clientsUsed_wake_cell cfg ms now j w c u :
  In u (clientsUsed (operation c)) -> In u (clientsUsed (operation (wake_cell cfg ms now j w c))).
Proof.
  intros H. unfold wake_cell.
  destruct (frame c) as [fr|]; [|exact H].
  destruct (clientPromises fr !! j) as [[|a at_]|]; try exact H.
  destruct (ms !! a) as [m|]; [|exact H].
  destruct (task_step cfg fr a m at_ w) as [[|at'|v] es]; [exact H|exact H|].
  rewrite clientsUsed_join_cell. cbn. apply in_or_app. now left.
Qed.

Lemma wake_task_settled cfg now o j w s c :
  operations s !! o = Some c -> promises_of c !! j = Some Settled ->
  wake_task cfg now o j w s = (s, []).
Proof.
  intros Hc Hp. unfold wake_task. rewrite Hc. unfold promises_of in Hp.
  destruct (frame c) as [fr|]; [|reflexivity]. now rewrite Hp.
Qed.

Lemma step_wakes cfg now ev s o j :
  wakes_task o j ev = true ->
  exists w, woken ev = Some (o, j, w) /\ step cfg now ev s = wake_task cfg now o j w s.
Proof.
  unfold wakes_task. destruct ev as [| |id|target type rnd|a e|k|k r|o' j'|o' j' r|key];
    cbn [woken]; try discriminate; intros H;
    apply andb_true_iff in H as [Ho Hj]; apply Nat.eqb_eq in Ho, Hj; subst; eauto.
Qed.

Section Account.
Variable cfg : Config.
Variable idf : addr -> string.
Variable fr0 : Frame.
Variable o j : nat.
Variable a : addr.
Hypothesis Hclients : 0 < length (f_clients fr0).
Hypothesis Hsel : select_clients cfg 0 (f_clients fr0) !! j = Some a.

Let k := repeats cfg (f_banType fr0) (length (f_clients fr0)).

(** One step of a run in which nothing of task [j] fails: what the step
    adds to the actions of the task is what the task has advanced by. *)
Lemma step_account now ev s c p :
  operations s !! o = Some c ->
  slots_ok cfg idf fr0 c ->
  identified idf (select_clients cfg 0 (f_clients fr0)) s ->
  promises_of c !! j = Some p ->
  won j (idf a) c ->
  match woken ev with
  | Some (o', j', w) => if (o' =? o) && (j' =? j) then ready_at s a && resolves w else true
  | None => true
  end = true ->
  exists c1 p1,
    operations (fst (step cfg now ev s)) !! o = Some c1
    /\ promises_of c1 !! j = Some p1
    /\ won j (idf a) c1
    /\ made_of k p + actions (if wakes_task o j ev then snd (step cfg now ev s) else [])
       = made_of k p1.
Proof.
  intros Hc Hok Hid Hp Hwon Hsm.
  pose proof (step_operations cfg now ev s) as Hops.
  unfold wakes_task. destruct (woken ev) as [[[o' j'] w]|] eqn:Hwk.
  - destruct (Nat.eqb_spec o' o) as [->|Hno]; cbn [andb] in *.
    + destruct (Nat.eqb_spec j' j) as [->|Hnj].
      * apply andb_true_iff in Hsm as [Hready Hres].
        assert (Hstep : step cfg now ev s = wake_task cfg now o j w s).
        { destruct (step_wakes cfg now ev s o j) as (w' & Hw' & E).
          - unfold wakes_task. rewrite Hwk, !Nat.eqb_refl. reflexivity.
          - rewrite Hwk in Hw'. injection Hw' as <-. exact E. }
        rewrite Hstep.
        destruct p as [|a' at_].
        { rewrite (wake_task_settled cfg now o j w s c Hc Hp). cbn [fst snd].
          exists c, Settled. repeat split; try assumption. cbn. lia. }
        pose proof Hok as (ps & Hfr & _ & Hrun & _).
        assert (Hps : promises_of c = ps) by (unfold promises_of; now rewrite Hfr).
        rewrite Hps in Hp. destruct (Hrun j a' at_ Hp) as [Hsel' Hat].
        assert (a' = a) by congruence. subst a'.
        assert (Ha : In a (select_clients cfg 0 (f_clients fr0))).
        { eapply list_elem_of_In, list_elem_of_lookup_2; eauto. }
        destruct (Hid a Ha) as (m & Hm & Hidm).
        assert (Hst : status m = "ready").
        { unfold ready_at, is_ready in Hready. rewrite Hm in Hready.
          now apply String.eqb_eq. }
        destruct (wake_task_running cfg now o j w s c (set_promises ps fr0) a at_ m Hc Hfr Hp Hm)
          as (_ & Hc1 & Hact).
        rewrite task_step_set_promises in Hact.
        unfold wake_cell in Hc1. rewrite Hfr in Hc1.
        cbn [clientPromises set_promises] in Hc1. rewrite Hp, Hm in Hc1.
        rewrite task_step_set_promises in Hc1.
        assert (Hcases : w = wake_for at_ \/ w <> wake_for at_).
        { destruct at_, w as [|[|e|e]]; cbn; first [left; reflexivity | right; congruence]. }
        destruct Hcases as [->|Hne].
        -- pose proof (task_step_wake cfg fr0 a m Hclients at_ Hat) as Hw.
           destruct (task_step cfg fr0 a m at_ (wake_for at_)) as [[|at'|u] es];
             [contradiction| |].
           ++ destruct Hw as (_ & _ & Hmade & _).
              eexists. exists (Running a at'). split; [exact Hc1|]. split; [|split].
              ** rewrite promises_of_on_promises, Hfr, Hps.
                 apply list_lookup_insert_eq. eapply lookup_lt_Some; eauto.
              ** intros H. rewrite promises_of_on_promises, Hfr, Hps in H.
                 rewrite list_lookup_insert_eq in H by (eapply lookup_lt_Some; eauto).
                 discriminate.
              ** cbn [made_of]. rewrite Hact. exact Hmade.
           ++ destruct Hw as (_ & _ & Hr). destruct (Hr Hst) as [-> Hmade].
              eexists. exists Settled. split; [exact Hc1|]. split; [|split].
              ** rewrite promises_of_join_cell, promises_of_on_promises.
                 cbn [on_operation frame]. rewrite Hfr.
                 unfold promises_of. cbn [on_operation frame]. rewrite Hfr.
                 cbn [clientPromises set_promises].
                 apply list_lookup_insert_eq. eapply lookup_lt_Some; eauto.
              ** intros _. rewrite clientsUsed_join_cell. cbn. apply in_or_app. right.
                 left. now rewrite Hidm.
              ** cbn [made_of]. rewrite Hact. exact Hmade.
        -- rewrite (task_step_unawaited cfg fr0 a m at_ w Hres Hne) in Hc1, Hact.
           exists c, (Running a at_). split; [exact Hc1|]. split; [now rewrite Hps|].
           split; [exact Hwon|]. rewrite Hact. cbn. lia.
      * rewrite Hops. rewrite list_lookup_alter_eq, Hc. cbn [fmap option_fmap option_map].
        eexists. exists p. split; [reflexivity|]. split; [|split].
        -- rewrite wake_cell_other by assumption. exact Hp.
        -- intros H. rewrite wake_cell_other in H by assumption.
           apply clientsUsed_wake_cell. now apply Hwon.
        -- cbn. lia.
    + rewrite Hops. rewrite list_lookup_alter_ne by assumption.
      exists c, p. repeat split; try assumption. cbn. lia.
  - exists c, p. split; [|repeat split; try assumption; cbn; lia].
    destruct Hops as [->|(t & b & rnd & _ & _ & ->)]; [exact Hc|].
    now apply lookup_app_l_Some.
Qed.

Lemma run_account evs : forall s c p,
  operations s !! o = Some c ->
  slots_ok cfg idf fr0 c ->
  identified idf (select_clients cfg 0 (f_clients fr0)) s ->
  promises_of c !! j = Some p ->
  won j (idf a) c ->
  smooth cfg o j a evs s = true ->
  exists c' p',
    operations (fst (run cfg evs s)) !! o = Some c'
    /\ slots_ok cfg idf fr0 c'
    /\ promises_of c' !! j = Some p'
    /\ won j (idf a) c'
    /\ made_of k p + actions (task_log cfg o j evs s) = made_of k p'.
Proof.
  induction evs as [|[now ev] evs IH]; intros s c p Hc Hok Hid Hp Hwon Hsm.
  - exists c, p. repeat split; try assumption. cbn. lia.
  - cbn [smooth] in Hsm. apply andb_true_iff in Hsm as [Hsm1 Hsm2].
    destruct (step_account now ev s c p Hc Hok Hid Hp Hwon Hsm1) as (c1 & p1 & Hc1 & Hp1 & Hw1 & E1).
    destruct (step_slots cfg idf fr0 now ev s o c Hc Hok Hid) as (c1' & Hc1' & Hok1).
    assert (c1' = c1) by congruence. subst c1'.
    destruct (IH (fst (step cfg now ev s)) c1 p1 Hc1 Hok1 (identified_step _ _ _ _ _ _ Hid)
                Hp1 Hw1 Hsm2) as (c' & p' & Hc' & Hok' & Hp' & Hw' & E').
    exists c', p'. cbn [run task_log]. rewrite fst_andThen.
    split; [exact Hc'|]. split; [exact Hok'|]. split; [exact Hp'|]. split; [exact Hw'|].
    unfold actions in *. rewrite tally_app. lia.
Qed.
End Account.

(** ** C1: the repeats of one client *)

Lemma submitted_cell_promise cfg now id target type clients j a :
  select_clients cfg 0 clients !! j = Some a ->
  promises_of (submitted_cell cfg now id target type clients) !! j = Some (Running a Jitter).
Proof.
  intros H. unfold submitted_cell. rewrite promises_of_join_cell. unfold promises_of. cbn.
  change map with (@fmap list _). now rewrite list_lookup_fmap, H.
Qed.

(** C1, amended: after an accepted submission of a ban type with a
    configured total [count], take any run of events, the tasks of the
    selected clients woken in any order with anything in between, and any
    selected client none of whose actions fails on that run (whenever its
    task is woken the client is ready, and a promise it awaits resolves,
    for [createGroup] with a group whose [id] can be read).  Then the
    client has performed at most [k = ceil (count / r)] actions of the
    strategy, where [r] is the number of clients that were ready at the
    submission (all of them, also those the cap left unselected); once its
    task has ended it has performed exactly [k] and is recorded as a
    success; and if it has not ended and the client is still ready, it ends
    when attended to, whatever the other tasks did, with exactly [k] actions
    in all and recorded as a success.  When [r] divides [count], [k] is
    [count / r]; when [r] is within the cap every ready client is
    selected. *)
Theorem C1_apportioned_count
        (cfg : Config) (now now' : Z) (target type : jsval) (rnd : string) (s : State)
        (count : Z) (evs : list (Z * Event)) :
  accepted target type s ->
  total_count cfg type = Some count ->
  let ready := availableClients s in
  let selected := select_clients cfg 0 ready in
  let k := Z.to_nat (ceil_quot count (length ready)) in
  let o := length (operations s) in
  let s1 := fst (step cfg now (PostBan target type rnd) s) in
  let s' := fst (run cfg evs s1) in
  (forall j a,
      selected !! j = Some a ->
      smooth cfg o j a evs s1 = true ->
      actions (task_log cfg o j evs s1) <= k
      /\ (promise_at s' o j = Some Settled ->
          actions (task_log cfg o j evs s1) = k
          /\ exists c, operations s' !! o = Some c
                       /\ In (success (clientId_at s a)) (clientsUsed (operation c)))
      /\ (ready_at s' a = true ->
          forall fuel, 2 * k + 1 <= fuel ->
            let r := attend cfg now' fuel o j s' in
            promise_at (fst r) o j = Some Settled
            /\ actions (task_log cfg o j evs s1) + actions (snd r) = k
            /\ exists c, operations (fst r) !! o = Some c
                         /\ In (success (clientId_at s a)) (clientsUsed (operation c))))
  /\ ((count mod Z.of_nat (length ready) = 0)%Z ->
      k = Z.to_nat (count / Z.of_nat (length ready)))
  /\ ((Z.of_nat (length ready) <= worker_cap cfg)%Z -> selected = ready).
Proof.
  intros Hacc Hcount ready selected k o s1 s'.
  pose proof (accepted_clients _ _ _ Hacc) as Hlen. fold ready in Hlen.
  split; [|split].
  - intros j a Hj Hsm.
    set (id := make_operationId now rnd).
    set (fr0 := submitted_frame cfg id target type ready).
    destruct (submitted_run cfg now target type rnd s [] Hacc) as (Hc1 & Hid1 & _).
    fold s1 o id ready selected in Hc1, Hid1.
    assert (Hk : k = repeats cfg (f_banType fr0) (length (f_clients fr0))).
    { unfold repeats. cbn [fr0 submitted_frame f_banType f_clients]. now rewrite Hcount. }
    destruct (run_account cfg (clientId_at s) fr0 o j a Hlen Hj evs s1 _ (Running a Jitter)
                Hc1 (submitted_cell_slots _ _ _ _ _ _ _) Hid1
                (submitted_cell_promise _ _ _ _ _ _ _ _ Hj))
      as (c' & p' & Hc' & Hok' & Hp' & Hwon' & E); [intros H; rewrite (submitted_cell_promise _ _ _ _ _ _ _ _ Hj) in H; discriminate|exact Hsm|].
    fold s' in Hc'. rewrite <- Hk in E. cbn [made_of made] in E.
    assert (Hid' : identified (clientId_at s) selected s') by now apply identified_run.
    pose proof Hok' as (ps & Hfr & _ & Hrun & _).
    assert (Hps : promises_of c' = ps) by (unfold promises_of; now rewrite Hfr).
    assert (Hpa : promise_at s' o j = Some p').
    { unfold promise_at. now rewrite Hc'. }
    assert (Hle : made_of k p' <= k).
    { destruct p' as [|a' at_]; cbn [made_of]; [lia|].
      rewrite Hps in Hp'. destruct (Hrun j a' at_ Hp') as [_ Hat].
      rewrite Hk. now apply made_le. }
    split; [lia|]. split.
    + intros Hs. rewrite Hpa in Hs. injection Hs as ->. cbn [made_of] in E.
      split; [lia|]. exists c'. split; [exact Hc'|]. now apply Hwon'.
    + intros Hready fuel Hfuel r.
      destruct p' as [|a' at_].
      * subst r. rewrite attend_settled by exact Hpa. cbn [fst snd made_of] in *.
        split; [exact Hpa|]. split; [cbn; lia|].
        exists c'. split; [exact Hc'|]. now apply Hwon'.
      * rewrite Hps in Hp'. destruct (Hrun j a' at_ Hp') as [Hsel' Hat].
        cbn [fr0 submitted_frame f_clients] in Hsel'. fold selected in Hsel'.
        assert (a' = a) by congruence. subst a'.
        assert (Ha : In a selected).
        { eapply list_elem_of_In, list_elem_of_lookup_2; eauto. }
        destruct (Hid' a Ha) as (m & Hm & Hidm).
        assert (Hst : status m = "ready").
        { unfold ready_at, is_ready in Hready. rewrite Hm in Hready.
          now apply String.eqb_eq. }
        destruct (drive_ends cfg fr0 a m Hlen fuel at_ Hat) as (u & Hu & _ & _ & Hr).
        { pose proof (remaining_patience cfg (f_banType fr0) (length (f_clients fr0)) at_) as H.
          unfold patience in H. rewrite <- Hk in H |- *. lia. }
        destruct (Hr Hst) as [-> Hmade]. rewrite <- Hk in Hmade.
        rewrite <- (drive_same_call cfg (set_promises ps fr0) fr0) in Hu, Hmade by (repeat split).
        destruct (attend_drive cfg now' o j fuel s' c' (set_promises ps fr0) a at_ m _
                    Hc' Hfr Hp' Hm Hu) as (Hact & Hs & c2 & Hc2 & Hused).
        fold r in Hact, Hs, Hc2.
        split; [exact Hs|]. split; [cbn [made_of] in E; lia|].
        exists c2. split; [exact Hc2|]. rewrite Hused. apply in_or_app. right. left.
        now rewrite Hidm.
  - intros Hmod. subst k. now rewrite ceil_quot_exact.
  - apply select_clients_all.
Qed.

Lemma C1_witness :
  accepted (JStr "T1") (JStr "GROUP_POISON") two_ready_one_error
  /\ total_count cfg3 (JStr "GROUP_POISON") = Some 10%Z
  /\ let s1 := fst (step cfg3 10 (PostBan (JStr "T1") (JStr "GROUP_POISON") "k3x")
                         two_ready_one_error) in
     (smooth cfg3 0 0 0 both_in_turn s1 = true
      /\ actions (task_log cfg3 0 0 both_in_turn s1) = 5)
     /\ (smooth cfg3 0 1 1 both_in_turn s1 = true
         /\ actions (task_log cfg3 0 1 both_in_turn s1) = 5)
     /\ actions (task_log cfg3 0 1 (firstn 8 both_in_turn) s1)
        + actions (snd (attend cfg3 40 11 0 1 (fst (run cfg3 (firstn 8 both_in_turn) s1)))) = 5.
Proof.
  assert (H : accepted (JStr "T1") (JStr "GROUP_POISON") two_ready_one_error) by accept.
  split; [exact H|]. split; [reflexivity|]. cbn zeta.
  pose proof (C1_apportioned_count cfg3 10 40 (JStr "T1") (JStr "GROUP_POISON") "k3x" two_ready_one_error
                10%Z both_in_turn H eq_refl) as (Hfull & _ & _).
  pose proof (C1_apportioned_count cfg3 10 40 (JStr "T1") (JStr "GROUP_POISON") "k3x" two_ready_one_error
                10%Z (firstn 8 both_in_turn) H eq_refl) as (Hpart & _ & _).
  cbn zeta in Hfull, Hpart.
  split; [|split].
  - split; [reflexivity|].
    destruct (Hfull 0 0 eq_refl eq_refl) as (_ & Hdone & _).
    exact (proj1 (Hdone eq_refl)).
  - split; [reflexivity|].
    destruct (Hfull 1 1 eq_refl eq_refl) as (_ & Hdone & _).
    exact (proj1 (Hdone eq_refl)).
  - destruct (Hpart 1 1 eq_refl eq_refl) as (_ & _ & Hrest).
    assert (Hfuel : 2 * Z.to_nat (ceil_quot 10 (length (availableClients two_ready_one_error))) + 1
                    <= 11) by (vm_compute; lia).
    exact (proj1 (proj2 (Hrest eq_refl 11 Hfuel))).
Defined.

(** A group created without a readable [id] fails the client after its one
    [createGroup]: the read of [group.id._serialized] throws inside the
    [try]. *)
Example group_without_id_fails_the_client :
  let evs := [(10%Z, PostBan (JStr "T1") (JStr "GROUP_POISON") "k3x"); (11%Z, TaskTimer 0 0);
              (12%Z, TaskAnswer 0 0 (resolved_without_id "Cannot read properties of undefined"))] in
  (clientsUsed ∘ operation <$> operations (fst (run cfg3 evs two_ready_one_error)))
  = [[failed "client_1"
        "Failed to add target to group: Cannot read properties of undefined"]]
  /\ actions (snd (run cfg3 evs two_ready_one_error)) = 1.
Proof. vm_compute. split; reflexivity. Qed.

(** ** C2: an unknown ban type *)

Lemma at_ok_unknown cfg fr at_ :
  ban_kind (f_banType fr) = other_kind -> at_ok cfg fr at_ = true -> at_ = Jitter.
Proof.
  intros K. destruct at_ as [|i|i]; cbn [at_ok]; [reflexivity| |].
  - unfold total_count. rewrite K. discriminate.
  - rewrite K. discriminate.
Qed.

Lemma wake_task_absent cfg now o j w s c :
  operations s !! o = Some c -> promises_of c !! j = None ->
  wake_task cfg now o j w s = (s, []).
Proof.
  intros Hc Hp. unfold wake_task. rewrite Hc. unfold promises_of in Hp.
  destruct (frame c) as [fr|]; [|reflexivity]. now rewrite Hp.
Qed.

Lemma step_wakes_record cfg now ev s o :
  wakes_record o ev = true ->
  exists j w, woken ev = Some (o, j, w) /\ step cfg now ev s = wake_task cfg now o j w s.
Proof.
  unfold wakes_record. destruct ev as [| |id|target type rnd|a e|k|k r|o' j'|o' j' r|key];
    cbn [woken]; try discriminate; intros H; apply Nat.eqb_eq in H; subst; eauto.
Qed.

Lemma step_not_record cfg now ev s o c :
  wakes_record o ev = false ->
  operations s !! o = Some c ->
  operations (fst (step cfg now ev s)) !! o = Some c.
Proof.
  intros Hw Hc. pose proof (step_operations cfg now ev s) as Hops.
  unfold wakes_record in Hw. destruct (woken ev) as [[[o' j'] w]|].
  - apply Nat.eqb_neq in Hw. rewrite Hops. now rewrite list_lookup_alter_ne.
  - destruct Hops as [->|(t & b & rnd & _ & _ & ->)]; [exact Hc|]. now apply lookup_app_l_Some.
Qed.

Section Unknown.
Variable cfg : Config.
Variable idf : addr -> string.
Variable fr0 : Frame.
Variable o : nat.
Hypothesis Hkind : ban_kind (f_banType fr0) = other_kind.

(** Waking a running task of a call of unknown type by its timer. *)
Lemma timer_unknown now j s c a at_ :
  operations s !! o = Some c ->
  slots_ok cfg idf fr0 c ->
  identified idf (select_clients cfg 0 (f_clients fr0)) s ->
  promises_of c !! j = Some (Running a at_) ->
  let r := wake_task cfg now o j elapsed s in
  promise_at (fst r) o j = Some Settled
  /\ actions (snd r) = 0
  /\ tally is_warning (snd r) = 1
  /\ exists c', operations (fst r) !! o = Some c'
                /\ clientsUsed (operation c') = clientsUsed (operation c) ++ [success (idf a)].
Proof.
  intros Hc Hok Hid Hp r.
  pose proof Hok as (ps & Hfr & _ & Hrun & _).
  assert (Hps : promises_of c = ps) by (unfold promises_of; now rewrite Hfr).
  rewrite Hps in Hp. destruct (Hrun j a at_ Hp) as [Hsel Hat].
  apply (at_ok_unknown cfg fr0 at_ Hkind) in Hat. subst at_.
  assert (Ha : In a (select_clients cfg 0 (f_clients fr0))).
  { eapply list_elem_of_In, list_elem_of_lookup_2; eauto. }
  destruct (Hid a Ha) as (m & Hm & Hidm).
  destruct (wake_unknown cfg now o j s c (set_promises ps fr0) a m Hc Hfr Hp Hm Hkind)
    as (_ & Hc' & Hact & Hwarn).
  fold r in Hc', Hact, Hwarn.
  split; [|split; [exact Hact|split; [exact Hwarn|]]].
  - unfold promise_at. rewrite Hc'.
    rewrite promises_of_join_cell, promises_of_on_promises. cbn [on_operation frame].
    rewrite Hfr. unfold promises_of. cbn [on_operation frame]. rewrite Hfr.
    cbn [clientPromises set_promises].
    apply list_lookup_insert_eq. eapply lookup_lt_Some; eauto.
  - eexists. split; [exact Hc'|]. rewrite clientsUsed_join_cell. cbn. now rewrite Hidm.
Qed.

Lemma step_unknown now ev s c :
  operations s !! o = Some c ->
  slots_ok cfg idf fr0 c ->
  identified idf (select_clients cfg 0 (f_clients fr0)) s ->
  forallb is_success (clientsUsed (operation c)) = true ->
  exists c1,
    operations (fst (step cfg now ev s)) !! o = Some c1
    /\ forallb is_success (clientsUsed (operation c1)) = true
    /\ actions (if wakes_record o ev then snd (step cfg now ev s) else []) = 0
    /\ length (clientsUsed (operation c))
       + tally is_warning (if wakes_record o ev then snd (step cfg now ev s) else [])
       = length (clientsUsed (operation c1)).
Proof.
  intros Hc Hok Hid Hall.
  destruct (wakes_record o ev) eqn:Hw.
  - destruct (step_wakes_record cfg now ev s o Hw) as (j & w & _ & ->).
    destruct (promises_of c !! j) as [[|a at_]|] eqn:Hp.
    + rewrite (wake_task_settled cfg now o j w s c Hc Hp).
      exists c. repeat split; try assumption. cbn. lia.
    + destruct w as [|r].
      * destruct (timer_unknown now j s c a at_ Hc Hok Hid Hp)
          as (_ & Hact & Hwarn & c' & Hc' & Hused).
        exists c'. split; [exact Hc'|]. split; [|split; [exact Hact|]].
        -- rewrite Hused, forallb_app, Hall. reflexivity.
        -- rewrite Hwarn, Hused, length_app. reflexivity.
      * pose proof Hok as (ps & Hfr & _ & Hrun & _).
        assert (Hps : promises_of c = ps) by (unfold promises_of; now rewrite Hfr).
        rewrite Hps in Hp. destruct (Hrun j a at_ Hp) as [Hsel Hat].
        apply (at_ok_unknown cfg fr0 at_ Hkind) in Hat. subst at_.
        assert (Ha : In a (select_clients cfg 0 (f_clients fr0))).
        { eapply list_elem_of_In, list_elem_of_lookup_2; eauto. }
        destruct (Hid a Ha) as (m & Hm & _).
        assert (E : wake_task cfg now o j (settles r) s = (s, [])).
        { unfold wake_task. rewrite Hc, Hfr. cbn [clientPromises set_promises].
          rewrite Hp, Hm. reflexivity. }
        rewrite E. exists c. repeat split; try assumption. cbn. lia.
    + rewrite (wake_task_absent cfg now o j w s c Hc Hp).
      exists c. repeat split; try assumption. cbn. lia.
  - exists c. split; [now apply step_not_record|]. repeat split; try assumption. cbn. lia.
Qed.

Lemma run_unknown evs : forall s c,
  operations s !! o = Some c ->
  slots_ok cfg idf fr0 c ->
  identified idf (select_clients cfg 0 (f_clients fr0)) s ->
  forallb is_success (clientsUsed (operation c)) = true ->
  exists c',
    operations (fst (run cfg evs s)) !! o = Some c'
    /\ slots_ok cfg idf fr0 c'
    /\ forallb is_success (clientsUsed (operation c')) = true
    /\ actions (record_log cfg o evs s) = 0
    /\ length (clientsUsed (operation c)) + tally is_warning (record_log cfg o evs s)
       = length (clientsUsed (operation c')).
Proof.
  induction evs as [|[now ev] evs IH]; intros s c Hc Hok Hid Hall.
  - exists c. repeat split; try assumption. cbn. lia.
  - destruct (step_unknown now ev s c Hc Hok Hid Hall) as (c1 & Hc1 & Hall1 & Hact1 & Hlen1).
    destruct (step_slots cfg idf fr0 now ev s o c Hc Hok Hid) as (c1' & Hc1' & Hok1).
    assert (c1' = c1) by congruence. subst c1'.
    destruct (IH (fst (step cfg now ev s)) c1 Hc1 Hok1 (identified_step _ _ _ _ _ _ Hid) Hall1)
      as (c' & Hc' & Hok' & Hall' & Hact' & Hlen').
    exists c'. cbn [run record_log]. rewrite fst_andThen.
    split; [exact Hc'|]. split; [exact Hok'|]. split; [exact Hall'|].
    unfold actions in *. rewrite !tally_app. split; lia.
Qed.
End Unknown.

(** C2, amended: after an accepted submission of an unknown ban type,
    whatever events follow and in whatever order the delays of the selected
    clients elapse, no action of a strategy is performed for the operation,
    the warning is logged once per entry of [clientsUsed], and every entry
    is a success; the entries are those of the clients whose delay has
    elapsed, and each delay that elapses logs the warning once and appends
    the success of its client (so the entries stand in the order the delays
    elapsed).  The operation is [completed] exactly when every delay has
    elapsed, and then it holds one success per selected client: the list is
    empty only when no client was selected. *)
Theorem C2_unknown_ban_type
        (cfg : Config) (now : Z) (target type : jsval) (rnd : string) (s : State)
        (evs : list (Z * Event)) :
  accepted target type s ->
  ban_kind type = other_kind ->
  let selected := select_clients cfg 0 (availableClients s) in
  let o := length (operations s) in
  let s1 := fst (step cfg now (PostBan target type rnd) s) in
  let s' := fst (run cfg evs s1) in
  exists c,
    operations s' !! o = Some c
    /\ actions (record_log cfg o evs s1) = 0
    /\ tally is_warning (record_log cfg o evs s1) = length (clientsUsed (operation c))
    /\ forallb is_success (clientsUsed (operation c)) = true
    /\ Permutation (map used_id (clientsUsed (operation c)))
                   (map (clientId_at s) (settled_of selected (promises_of c)))
    /\ (op_status (operation c) = completed <-> forallb is_settled (promises_of c) = true)
    /\ (op_status (operation c) = completed ->
        Permutation (map used_id (clientsUsed (operation c))) (map (clientId_at s) selected)
        /\ (clientsUsed (operation c) = [] <-> selected = []))
    /\ (selected = [] -> op_status (operation c) = completed /\ clientsUsed (operation c) = [])
    /\ (forall j a at_ now',
           promise_at s' o j = Some (Running a at_) ->
           let r := step cfg now' (TaskTimer o j) s' in
           promise_at (fst r) o j = Some Settled
           /\ actions (snd r) = 0
           /\ tally is_warning (snd r) = 1
           /\ exists c', operations (fst r) !! o = Some c'
                         /\ clientsUsed (operation c')
                            = clientsUsed (operation c) ++ [success (clientId_at s a)]).
Proof.
  intros Hacc Hkind selected o s1 s'.
  set (fr0 := submitted_frame cfg (make_operationId now rnd) target type (availableClients s)).
  destruct (submitted_run cfg now target type rnd s evs Hacc) as (Hc1 & Hid1 & Hid & _).
  fold s1 o selected s' in Hc1, Hid1, Hid.
  destruct (run_unknown cfg (clientId_at s) fr0 o Hkind evs s1 _ Hc1
              (submitted_cell_slots _ _ _ _ _ _ _) Hid1)
    as (c & Hc & Hok & Hall & Hact & Hlen).
  { unfold submitted_cell. now rewrite clientsUsed_join_cell. }
  fold s' in Hc.
  assert (Hlen0 : length (clientsUsed (operation
                    (submitted_cell cfg now (make_operationId now rnd) target type
                                    (availableClients s)))) = 0).
  { unfold submitted_cell. now rewrite clientsUsed_join_cell. }
  rewrite Hlen0 in Hlen. cbn [Nat.add] in Hlen.
  pose proof Hok as (ps & Hfr & Hl & Hrun & Hperm & Hst).
  assert (Hps : promises_of c = ps) by (unfold promises_of; now rewrite Hfr).
  cbn [fr0 submitted_frame f_clients] in Hl, Hrun, Hperm. fold selected in Hl, Hrun, Hperm.
  exists c. split; [exact Hc|]. split; [exact Hact|]. split; [exact Hlen|].
  split; [exact Hall|]. split; [now rewrite Hps|]. split.
  { rewrite Hps, Hst. destruct (forallb is_settled ps); split; congruence. }
  split; [|split].
  - intros Hd. rewrite Hd in Hst. destruct (forallb is_settled ps) eqn:Hs; [|discriminate].
    rewrite (settled_of_all _ _ Hl Hs) in Hperm. split; [exact Hperm|].
    apply Permutation_length in Hperm. rewrite !length_map in Hperm.
    split; intros E.
    + rewrite E in Hperm. destruct selected; [reflexivity|discriminate].
    + rewrite E in Hperm. destruct (clientsUsed (operation c)); [reflexivity|discriminate].
  - intros E. rewrite E in Hl, Hperm. destruct ps; [|discriminate]. cbn in Hst, Hperm.
    split; [exact Hst|]. apply Permutation_length in Hperm. cbn in Hperm.
    rewrite length_map in Hperm. destruct (clientsUsed (operation c)); [reflexivity|discriminate].
  - intros j a at_ now' Hp r. subst r. cbn [step].
    unfold promise_at in Hp. rewrite Hc in Hp.
    exact (timer_unknown cfg (clientId_at s) fr0 o Hkind now' j s' c a at_ Hc Hok Hid Hp).
Qed.

Lemma C2_witness :
  accepted (JStr "T1") (JStr "A") three_ready
  /\ ban_kind (JStr "A") = other_kind
  /\ let s1 := fst (step cfg3 10 (PostBan (JStr "T1") (JStr "A") "k3x") three_ready) in
     let s' := fst (run cfg3 last_then_first s1) in
     exists c,
       operations s' !! 0 = Some c
       /\ actions (record_log cfg3 0 last_then_first s1) = 0
       /\ forallb is_success (clientsUsed (operation c)) = true
       /\ promise_at s' 0 1 = Some (Running 1 Jitter)
       /\ exists c',
           operations (fst (step cfg3 14 (TaskTimer 0 1) s')) !! 0 = Some c'
           /\ clientsUsed (operation c') = clientsUsed (operation c) ++ [success "client_2"].
Proof.
  assert (H : accepted (JStr "T1") (JStr "A") three_ready) by accept.
  split; [exact H|]. split; [reflexivity|]. cbn zeta.
  pose proof (C2_unknown_ban_type cfg3 10 (JStr "T1") (JStr "A") "k3x" three_ready last_then_first H eq_refl)
    as (c & Hc & Hact & _ & Hsucc & _ & _ & _ & _ & Hnext).
  exists c. split; [exact Hc|]. split; [exact Hact|]. split; [exact Hsucc|].
  split; [reflexivity|].
  exact (proj2 (proj2 (proj2 (Hnext 1 1 Jitter 14%Z eq_refl)))).
Defined.

(** A worker count below zero selects no client: an accepted submission
    completes at once with no entry, whatever its kind. *)
Example negative_worker_count_selects_none :
  let cfg := config None (Some (-1)%Z) in
  let r := step cfg 10 (PostBan (JStr "T1") (JStr "A") "k3x") three_ready in
  select_clients cfg 0 (availableClients three_ready) = []
  /\ (operation <$> operations (fst r))
     = [{| op_id := "op_10_k3x"; targetNumber := JStr "T1"; banType := JStr "A";
           op_status := completed; clientsUsed := [];
           startTime := 10; endTime := Some 10%Z |}].
Proof. vm_compute. split; reflexivity. Qed.
